(** * rename-file-on-update: the template formatter and the rename engine

    A shallow embedding of [plugins/rename-file-on-update/file_manager.py].

    Conventions of the embedding.
    - A Python [str] is a [string]: the code points below 256; the
      regular-expression classes [\w] and [\s] are those of [re] on [str],
      cut to these code points.
    - Scene and file records are the JSON documents the catalog returns:
      [value] below, with objects as association lists (a Python dict keeps
      its insertion order).  Floating-point fields are not modelled.
    - A computation either returns, raises a Python exception, or runs out
      of fuel (the two [while] loops of the source have no iteration cap).
    - Filesystem, catalog and logger are reached through an interface
      ([Section Engine]); every call is recorded in a trace, and every call
      of the filesystem may raise. *)

From Stdlib Require Import Bool Arith List Ascii String ZArith Lia.
From Stdlib Require Import DecimalString.
Import ListNotations.

Local Open Scope list_scope.
Local Open Scope string_scope.

(* ================================================================== *)
(** ** Outcomes: return, raise, or no answer within the fuel *)

Inductive exn : Type :=
  | IndexError
  | KeyError
  | AttributeError
  | TypeError
  | OSError (msg : string)
  | CatalogError (msg : string)
  | ValueError.

Inductive outcome (A : Type) : Type :=
  | Ok (a : A)
  | Raise (e : exn)
  | OutOfFuel.

Arguments Ok {A} a.
Arguments Raise {A} e.
Arguments OutOfFuel {A}.

Definition obind {A B : Type} (m : outcome A) (k : A -> outcome B) : outcome B :=
  match m with
  | Ok a => k a
  | Raise e => Raise e
  | OutOfFuel => OutOfFuel
  end.

Declare Scope outcome_scope.
Delimit Scope outcome_scope with outcome.
Notation "'let?' x ':=' m 'in' k" := (obind m (fun x => k))
  (at level 10, x name, m at level 100, k at level 200) : outcome_scope.
Local Open Scope outcome_scope.

(** The answer of a call to the filesystem: a value, or an exception. *)
Inductive reply (A : Type) : Type :=
  | Returned (a : A)
  | Raised (e : exn).

Arguments Returned {A} a.
Arguments Raised {A} e.

(* ================================================================== *)
(** ** Python strings *)

Module Str.

Fixpoint starts_with (p s : string) : bool :=
  match p, s with
  | EmptyString, _ => true
  | String a p', String b s' => Ascii.eqb a b && starts_with p' s'
  | String _ _, EmptyString => false
  end.

(** [needle in s] *)
Fixpoint contains (needle s : string) : bool :=
  starts_with needle s ||
  match s with
  | EmptyString => false
  | String _ s' => contains needle s'
  end.

Fixpoint mem (c : ascii) (s : string) : bool :=
  match s with
  | EmptyString => false
  | String a s' => Ascii.eqb c a || mem c s'
  end.

Fixpoint take (n : nat) (s : string) : string :=
  match n, s with
  | S n', String c s' => String c (take n' s')
  | _, _ => EmptyString
  end.

Fixpoint filter (f : ascii -> bool) (s : string) : string :=
  match s with
  | EmptyString => EmptyString
  | String c s' => if f c then String c (filter f s') else filter f s'
  end.

Fixpoint forallb (f : ascii -> bool) (s : string) : bool :=
  match s with
  | EmptyString => true
  | String c s' => f c && forallb f s'
  end.

(** The left-to-right scan shared by [str.replace] and [re.sub]:
    [m] tells how many characters match at the head of the rest of the
    string, [repl] builds the replacement from the matched text, and
    [skip] counts the characters of the current match still to drop. *)
Fixpoint scan (m : string -> option nat) (repl : string -> string)
         (skip : nat) (s : string) : string :=
  match s with
  | EmptyString =>
      match skip, m EmptyString with
      | O, Some _ => repl EmptyString
      | _, _ => EmptyString
      end
  | String c s' =>
      match skip with
      | S k => scan m repl k s'
      | O =>
          match m s with
          | Some (S n) => repl (take (S n) s) ++ scan m repl n s'
          | Some O => repl EmptyString ++ String c (scan m repl O s')
          | None => String c (scan m repl O s')
          end
      end
  end.

(** [s.replace(old, new)] *)
Definition replace (old new s : string) : string :=
  scan (fun r => if starts_with old r then Some (String.length old) else None)
       (fun _ => new) O s.

(** [s.split(sep)] for a one-character separator: never an empty list. *)
Fixpoint split (sep : ascii) (s : string) : list string :=
  match s with
  | EmptyString => [EmptyString]
  | String c s' =>
      if Ascii.eqb c sep then EmptyString :: split sep s'
      else match split sep s' with
           | h :: t => String c h :: t
           | [] => [String c EmptyString]
           end
  end.

(** [s.rsplit(sep, 1)] for a one-character separator: one or two parts. *)
Fixpoint rsplit1 (sep : ascii) (s : string) : list string :=
  match s with
  | EmptyString => [EmptyString]
  | String c s' =>
      if mem sep s' then
        match rsplit1 sep s' with
        | h :: t => String c h :: t
        | [] => [String c EmptyString]
        end
      else if Ascii.eqb c sep then [EmptyString; s']
      else [s]
  end.

(** [sep.join(parts)] *)
Fixpoint join (sep : string) (parts : list string) : string :=
  match parts with
  | [] => EmptyString
  | [p] => p
  | p :: rest => p ++ sep ++ join sep rest
  end.

(** [l[-1]] *)
Definition last_item (l : list string) : outcome string :=
  match rev l with
  | x :: _ => Ok x
  | [] => Raise IndexError
  end.

(** [l[i]] for a non-negative index *)
Definition item (l : list string) (i : nat) : outcome string :=
  match nth_error l i with
  | Some x => Ok x
  | None => Raise IndexError
  end.

Definition of_Z (z : Z) : string := NilZero.string_of_int (Z.to_int z).

End Str.

(* ================================================================== *)
(** ** The fragment of [re] the module uses

    Every pattern of the source is a sequence of single-character items,
    each taken once, or repeated greedily ([*], [+]). *)

Module Re.

Inductive item : Type :=
  | One (p : ascii -> bool)      (* a character of the class *)
  | Many (p : ascii -> bool).    (* [p*], greedy *)

Definition pattern : Type := list item.

Definition chr (c : ascii) : ascii -> bool := Ascii.eqb c.

Definition between (lo hi : nat) (c : ascii) : bool :=
  let n := nat_of_ascii c in (lo <=? n)%nat && (n <=? hi)%nat.

(** [.] : anything but a line feed *)
Definition dot (c : ascii) : bool := negb (Ascii.eqb c "010"%char).

(** [\w] below 256: digits, letters and the underscore of ASCII, then the
    letters and numbers of Latin-1 (ordinal indicators, superscripts, micro
    sign, fractions, accented letters; neither the multiplication nor the
    division sign). *)
Definition word (c : ascii) : bool :=
  between 48 57 c || between 65 90 c || between 97 122 c || Ascii.eqb c "_"%char
  || between 170 170 c || between 178 179 c || between 181 181 c
  || between 185 186 c || between 188 190 c
  || between 192 214 c || between 216 246 c || between 248 255 c.

(** [\s] below 256: tab to carriage return, the four separators, space,
    next line and no-break space *)
Definition space (c : ascii) : bool :=
  between 9 13 c || between 28 31 c || Ascii.eqb c " "%char
  || between 133 133 c || between 160 160 c.

(** Backtracking match of [pat] at the head of [s]: the length of the
    match the engine finds first.  A greedy item takes as many characters as
    it can and gives them back one at a time. *)
Fixpoint match_here (pat : pattern) (s : string) {struct pat} : option nat :=
  match pat with
  | [] => Some O
  | One p :: pat' =>
      match s with
      | String c s' => if p c then option_map S (match_here pat' s') else None
      | EmptyString => None
      end
  | Many p :: pat' =>
      (fix many (s : string) : option nat :=
         match s with
         | String c s' =>
             if p c then
               match many s' with
               | Some n => Some (S n)
               | None => match_here pat' s
               end
             else match_here pat' s
         | EmptyString => match_here pat' s
         end) s
  end.

(** [re.sub(pat, repl, s)] with a function for [repl] *)
Definition sub_with (pat : pattern) (repl : string -> string) (s : string) : string :=
  Str.scan (match_here pat) repl O s.

(** [re.sub(pat, repl, s)] with a constant [repl] *)
Definition sub (pat : pattern) (repl : string) (s : string) : string :=
  sub_with pat (fun _ => repl) s.

(** [re.search(pat, s) is not None] *)
Fixpoint search (pat : pattern) (s : string) : bool :=
  match match_here pat s with
  | Some _ => true
  | None =>
      match s with
      | EmptyString => false
      | String _ s' => search pat s'
      end
  end.

End Re.


(* ================================================================== *)
(** ** Python values: the JSON documents of the catalog *)

#[local] Set Warnings "-register-all".

Inductive value : Type :=
  | JNull
  | JBool (b : bool)
  | JNum (z : Z)
  | JStr (s : string)
  | JArr (items : list value)
  | JObj (fields : list (string * value)).

Module Py.

(** [bool(v)] *)
Definition truthy (v : value) : bool :=
  match v with
  | JNull => false
  | JBool b => b
  | JNum z => negb (Z.eqb z 0)
  | JStr s => negb (String.eqb s EmptyString)
  | JArr l => match l with [] => false | _ => true end
  | JObj l => match l with [] => false | _ => true end
  end.

Fixpoint lookup (k : string) (fields : list (string * value)) : option value :=
  match fields with
  | [] => None
  | (k', v) :: rest => if String.eqb k k' then Some v else lookup k rest
  end.

(** [d.get(k, default)]; only a dict has [get]. *)
Definition get (d : value) (k : string) (default : value) : outcome value :=
  match d with
  | JObj fields =>
      match lookup k fields with
      | Some v => Ok v
      | None => Ok default
      end
  | _ => Raise AttributeError
  end.

(** [d[k]] with a string key *)
Definition index (d : value) (k : string) : outcome value :=
  match d with
  | JObj fields =>
      match lookup k fields with
      | Some v => Ok v
      | None => Raise KeyError
      end
  | _ => Raise TypeError
  end.

Fixpoint set_field (k : string) (v : value) (fields : list (string * value))
  : list (string * value) :=
  match fields with
  | [] => [(k, v)]
  | (k', v') :: rest =>
      if String.eqb k k' then (k', v) :: rest else (k', v') :: set_field k v rest
  end.

(** [{**d, k: v}]; only a mapping can be unpacked. *)
Definition with_field (d : value) (k : string) (v : value) : outcome value :=
  match d with
  | JObj fields => Ok (JObj (set_field k v fields))
  | _ => Raise TypeError
  end.

(** [v.split(sep)]; only a string has [split]. *)
Definition split (v : value) (sep : ascii) : outcome (list string) :=
  match v with
  | JStr s => Ok (Str.split sep s)
  | _ => Raise AttributeError
  end.

(** [sep.join(items)]; every item has to be a string. *)
Fixpoint join (sep : string) (items : list value) : outcome string :=
  match items with
  | [] => Ok EmptyString
  | JStr s :: rest =>
      match rest with
      | [] => Ok s
      | _ => let? r := join sep rest in Ok (s ++ sep ++ r)
      end
  | _ :: _ => Raise TypeError
  end.

(** The double quote *)
Definition dquote : ascii := "034"%char.

Definition hex_digit (n : nat) : ascii :=
  match n with
  | 0 => "0" | 1 => "1" | 2 => "2" | 3 => "3" | 4 => "4" | 5 => "5" | 6 => "6"
  | 7 => "7" | 8 => "8" | 9 => "9" | 10 => "a" | 11 => "b" | 12 => "c"
  | 13 => "d" | 14 => "e" | _ => "f"
  end%char.

Definition escape_char (quote c : ascii) : string :=
  let n := nat_of_ascii c in
  if Ascii.eqb c "\"%char then "\\"
  else if Ascii.eqb c quote then String "\"%char (String c EmptyString)
  else if Ascii.eqb c "009"%char then "\t"
  else if Ascii.eqb c "010"%char then "\n"
  else if Ascii.eqb c "013"%char then "\r"
  else if (n <? 32)%nat || ((127 <=? n)%nat && (n <=? 160)%nat) || (n =? 173)%nat
       then "\x" ++ String (hex_digit (n / 16)) (String (hex_digit (n mod 16)) EmptyString)
  else String c EmptyString.

Fixpoint escape (quote : ascii) (s : string) : string :=
  match s with
  | EmptyString => EmptyString
  | String c s' => escape_char quote c ++ escape quote s'
  end.

(** [repr(s)] of a string *)
Definition repr_str (s : string) : string :=
  let quote :=
    if Str.mem "'"%char s && negb (Str.mem dquote s) then dquote else "'"%char in
  String quote (escape quote s ++ String quote EmptyString).

(** [repr(v)] *)
Fixpoint repr (v : value) : string :=
  match v with
  | JNull => "None"
  | JBool true => "True"
  | JBool false => "False"
  | JNum z => Str.of_Z z
  | JStr s => repr_str s
  | JArr l => "[" ++ Str.join ", " (map repr l) ++ "]"
  | JObj l =>
      "{" ++ Str.join ", " (map (fun kv => repr_str (fst kv) ++ ": " ++ repr (snd kv)) l)
          ++ "}"
  end.

(** [str(v)] *)
Definition str (v : value) : string :=
  match v with
  | JStr s => s
  | _ => repr v
  end.

End Py.


(* ================================================================== *)
(** ** Template variables and the formatter *)

Section Formatter.

(** [stash.find_studio]: the catalog lookup of one studio. *)
Variable find_studio : value -> outcome value.

(** The [while] loop of [get_parent_studio_chain]: one lookup per hop. *)
Fixpoint parent_chain_loop (fuel : nat) (current_studio : value)
         (parent_chain : list value) : outcome (list value) :=
  let? parent := Py.get current_studio "parent_studio" JNull in
  if Py.truthy parent then
    match fuel with
    | O => OutOfFuel
    | S fuel' =>
        let? next := find_studio parent in
        let? name := Py.get next "name" JNull in
        parent_chain_loop fuel' next (parent_chain ++ [name])%list
    end
  else Ok parent_chain.

Definition get_parent_studio_chain (fuel : nat) (scene : value) : outcome value :=
  let? current_studio := Py.get scene "studio" (JObj []) in
  let? name := Py.get current_studio "name" (JStr EmptyString) in
  let? parent_chain := parent_chain_loop fuel current_studio [name] in
  let? joined := Py.join "/" (rev parent_chain) in
  Ok (JStr joined).

(** A resolver takes the fuel of the chain walk and the record. *)
Definition resolver : Type := nat -> value -> outcome value.

Definition key_getter (key : string) : resolver :=
  fun _ data => Py.get data key (JStr EmptyString).

Definition ext_of : resolver :=
  fun _ file =>
    let? basename := Py.get file "basename" (JStr EmptyString) in
    let? parts := Py.split basename "."%char in
    let? e := Str.last_item parts in
    Ok (JStr e).

(** The [month] and [year] lambdas: part [i] of the date split at [-]
    when the scene has a truthy date, the empty string otherwise. *)
Definition date_part (i : nat) : resolver :=
  fun _ scene =>
    let? cond := Py.get scene "date" JNull in
    if Py.truthy cond then
      let? date := Py.get scene "date" (JStr EmptyString) in
      let? parts := Py.split date "-"%char in
      let? part := Str.item parts i in
      Ok (JStr part)
    else Ok (JStr EmptyString).

Definition studio_name_of : resolver :=
  fun _ scene =>
    let? studio := Py.get scene "studio" (JObj []) in
    Py.get studio "name" (JStr EmptyString).

(** The list comprehension over the [stash_ids] of the studio *)
Fixpoint endpoints_of_ids (ids : list value) : outcome (list value) :=
  match ids with
  | [] => Ok []
  | sid :: rest =>
      let? e := Py.get sid "endpoint" (JStr EmptyString) in
      let? es := endpoints_of_ids rest in
      Ok (e :: es)
  end.

(** Iterating a string yields strings and iterating a dict yields its
    keys, none of which has [get]; other values cannot be iterated. *)
Definition endpoints_of : resolver :=
  fun _ scene =>
    let? studio := Py.get scene "studio" (JObj []) in
    let? ids := Py.get studio "stash_ids" (JArr []) in
    match ids with
    | JArr l => let? es := endpoints_of_ids l in Ok (JArr es)
    | JStr EmptyString | JObj [] => Ok (JArr [])
    | JStr _ | JObj _ => Raise AttributeError
    | _ => Raise TypeError
    end.

Definition FILE_VARIABLES : list (string * resolver) :=
  [ ("audio_codec", key_getter "audio_codec");
    ("ext", ext_of);
    ("format", key_getter "format");
    ("height", key_getter "height");
    ("index", key_getter "index");
    ("video_codec", key_getter "video_codec");
    ("width", key_getter "width") ].

Definition SCENE_VARIABLES : list (string * resolver) :=
  [ ("scene_id", key_getter "id");
    ("title", key_getter "title");
    ("date", key_getter "date");
    ("director", key_getter "director");
    ("month", date_part 1);
    ("parent_studio_chain", get_parent_studio_chain);
    ("studio_code", key_getter "code");
    ("studio_name", studio_name_of);
    ("year", date_part 0);
    ("endpoints", endpoints_of) ].

Fixpoint resolver_of (name : string) (table : list (string * resolver))
  : option resolver :=
  match table with
  | [] => None
  | (k, r) :: rest => if String.eqb name k then Some r else resolver_of name rest
  end.

(** [f"${variable}$"] *)
Definition token (variable : string) : string := "$" ++ variable ++ "$".

Definition present_in (format_template : string) (table : list (string * resolver))
  : list string :=
  List.filter (fun variable => Str.contains (token variable) format_template)
              (map fst table).

Definition find_variables (format_template : string) : list string :=
  (present_in format_template FILE_VARIABLES
   ++ present_in format_template SCENE_VARIABLES)%list.

Definition optional_section : Re.pattern :=
  [ Re.One (Re.chr "{"); Re.Many Re.dot;
    Re.One (Re.chr "$"); Re.One Re.word; Re.Many Re.word; Re.One (Re.chr "$");
    Re.Many Re.dot; Re.One (Re.chr "}") ].

Definition clean_optional_from_format (formatted_string : string) : string :=
  let formatted_string := Re.sub optional_section EmptyString formatted_string in
  Str.replace "}" EmptyString (Str.replace "{" EmptyString formatted_string).

(** The body of the [for] loop of [apply_format].  A name found by
    [find_variables] is a key of one of the two tables, so the last branch
    is never taken. *)
Definition substitute_one (fuel : nat) (scene_data file_data : value)
           (formatted_template variable : string) : outcome string :=
  let? value :=
    match resolver_of variable FILE_VARIABLES with
    | Some r => r fuel file_data
    | None =>
        match resolver_of variable SCENE_VARIABLES with
        | Some r => r fuel scene_data
        | None => Raise KeyError
        end
    end in
  if negb (Py.truthy value) then Ok formatted_template
  else Ok (Str.replace (token variable) (Py.str value) formatted_template).

Fixpoint substitute (fuel : nat) (scene_data file_data : value)
         (formatted_template : string) (variables : list string) : outcome string :=
  match variables with
  | [] => Ok formatted_template
  | variable :: rest =>
      let? t := substitute_one fuel scene_data file_data formatted_template variable in
      substitute fuel scene_data file_data t rest
  end.

Definition apply_format (fuel : nat) (format_template : string)
           (scene_data file_data : value) : outcome string :=
  let variables := find_variables format_template in
  let? formatted_template :=
    substitute fuel scene_data file_data format_template variables in
  Ok (clean_optional_from_format formatted_template).

End Formatter.

(** A catalog without studios, for the examples that follow no chain. *)
Definition no_studio : value -> outcome value := fun _ => Ok (JObj []).



(* ================================================================== *)
(** ** [pathlib] paths (POSIX flavour) *)

Record path : Type := MkPath { root : string; parts : list string }.

Module Path.

Definition keep_part (x : string) : bool :=
  negb (String.eqb x EmptyString) && negb (String.eqb x ".").

(** [pathlib.Path(s)]: exactly two leading slashes are kept apart, empty
    and [.] components are dropped. *)
Definition of_string (s : string) : path :=
  {| root :=
       if Str.starts_with "/" s then
         if Str.starts_with "//" s && negb (Str.starts_with "///" s) then "//" else "/"
       else EmptyString;
     parts := List.filter keep_part (Str.split "/" s) |}.

(** [pathlib.Path(v)] accepts a string only. *)
Definition of_value (v : value) : outcome path :=
  match v with
  | JStr s => Ok (of_string s)
  | _ => Raise TypeError
  end.

(** [str(p)] *)
Definition str (p : path) : string :=
  match parts p with
  | [] => if String.eqb (root p) EmptyString then "." else root p
  | _ => root p ++ Str.join "/" (parts p)
  end.

(** [p / q]: an anchored right operand replaces the left one. *)
Definition join (p q : path) : path :=
  if String.eqb (root q) EmptyString then {| root := root p; parts := (parts p ++ parts q)%list |}
  else q.

(** [p.absolute()] in the working directory [cwd] *)
Definition absolute (cwd p : path) : path :=
  if String.eqb (root p) EmptyString then join cwd p else p.

(** [p.parent] *)
Definition parent (p : path) : path :=
  {| root := root p; parts := removelast (parts p) |}.

(** [p.name] *)
Definition name (p : path) : string := last (parts p) EmptyString.

(** The split of [p.name] at its last dot, when the dot is neither the
    first nor the last character. *)
Definition stem_suffix (p : path) : string * string :=
  match Str.rsplit1 "." (name p) with
  | [base; ext] =>
      if negb (String.eqb base EmptyString) && negb (String.eqb ext EmptyString)
      then (base, "." ++ ext) else (name p, EmptyString)
  | _ => (name p, EmptyString)
  end.

Definition stem (p : path) : string := fst (stem_suffix p).
Definition suffix (p : path) : string := snd (stem_suffix p).

Definition eqb (p q : path) : bool :=
  String.eqb (root p) (root q)
  && if list_eq_dec string_dec (parts p) (parts q) then true else false.


End Path.


(* ================================================================== *)
(** ** Configuration *)

Record config : Type := MkConfig {
  default_directory_path_format : string;
  second_directory_path_format : string;
  default_file_name_format : string;
  duplicate_file_suffix : string;
  default_graphql_endpoint : string;
  allow_unsafe_characters : bool;
  remove_extra_spaces_from_file_name : bool;
  remove_and_replace_as_in_whisparr : bool;
  rename_related_files_enabled : bool;
  dry_run : bool
}.

(** Truth value of a configured string *)
Definition configured (s : string) : bool := negb (String.eqb s EmptyString).

(* ================================================================== *)
(** ** The path builder *)

Section PathBuilder.

Variable find_studio : value -> outcome value.
(** [os.getcwd()] *)
Variable cwd : path.
Variable cfg : config.
(** Fuel of the studio-chain walk *)
Variable hops : nat.
Variable scene_data file_data : value.

Definition get_old_file_path : outcome path :=
  let? raw := Py.index file_data "path" in
  let? p := Path.of_value raw in
  Ok (Path.absolute cwd p).

(** [endpoint in endpoints] for a string [endpoint] *)
Definition endpoint_in (endpoint : string) (endpoints : value) : bool :=
  match endpoints with
  | JArr l =>
      existsb (fun v => match v with JStr s => String.eqb endpoint s | _ => false end) l
  | _ => false
  end.

Definition whisparr_class (c : ascii) : bool := Str.mem c (":<>?*|" ++ String Py.dquote EmptyString).

Definition whisparr_replacement (matched : string) : string :=
  if String.eqb matched "?" then "!"
  else if String.eqb matched "*" then "-"
  else EmptyString.

Definition get_new_file_folder : outcome path :=
  let? directory_path :=
    if configured (default_directory_path_format cfg) then
      let? endpoints := endpoints_of hops scene_data in
      let directory_format :=
        if endpoint_in (default_graphql_endpoint cfg) endpoints
        then default_directory_path_format cfg
        else second_directory_path_format cfg in
      let? directory_path :=
        apply_format find_studio hops directory_format scene_data file_data in
      Ok (Path.absolute cwd (Path.of_string directory_path))
    else
      let? raw := Py.index file_data "path" in
      let? p := Path.of_value raw in
      Ok (Path.absolute cwd (Path.parent p)) in
  if remove_and_replace_as_in_whisparr cfg then
    Ok (Path.of_string
          (Re.sub_with [Re.One whisparr_class] whisparr_replacement
                       (Path.str directory_path)))
  else Ok directory_path.

Definition unsafe_character (c : ascii) : bool := Str.mem c ("<>:" ++ String Py.dquote "/\|?*").

(** The splice of the duplicate suffix before the final extension:
    [rsplit(".", 1)[0]], then [rsplit(".", 1)[1]]. *)
Definition splice_suffix (file_name duplicate_suffix : string) : outcome string :=
  let? base_name := Str.item (Str.rsplit1 "." file_name) 0 in
  let? extension := Str.item (Str.rsplit1 "." file_name) 1 in
  Ok (base_name ++ duplicate_suffix ++ "." ++ extension).

(** [re.sub] with the class of the characters a file name may not hold *)
Definition strip_unsafe (file_name : string) : string :=
  Re.sub [Re.One unsafe_character] EmptyString file_name.

(** [re.sub] of every run of white space by one space *)
Definition collapse_spaces (file_name : string) : string :=
  Re.sub [Re.One Re.space; Re.Many Re.space] " " file_name.

(** The two optional clean-ups that end [get_new_file_name]. *)
Definition tidy_file_name (file_name : string) : string :=
  let file_name :=
    if negb (allow_unsafe_characters cfg) then strip_unsafe file_name else file_name in
  if remove_extra_spaces_from_file_name cfg then collapse_spaces file_name else file_name.

(** [{**self.file_data, "index": self.duplicate_index}] *)
Definition indexed_file_data (duplicate_index : nat) : outcome value :=
  Py.with_field file_data "index" (JNum (Z.of_nat duplicate_index)).

(** The formatted file name, duplicate suffix included: what
    [get_new_file_name] holds in [file_name] before the clean-ups. *)
Definition format_file_name (duplicate_index : nat) : outcome string :=
  let? file_data' := indexed_file_data duplicate_index in
  let? file_name :=
    apply_format find_studio hops (default_file_name_format cfg) scene_data file_data' in
  if negb (Nat.eqb duplicate_index 0) then
    let? duplicate_suffix :=
      apply_format find_studio hops (duplicate_file_suffix cfg) scene_data file_data' in
    splice_suffix file_name duplicate_suffix
  else Ok file_name.

Definition get_new_file_name (duplicate_index : nat) : outcome value :=
  if negb (configured (default_file_name_format cfg)) then
    Py.index file_data "basename"
  else
    let? file_name := format_file_name duplicate_index in
    Ok (JStr (tidy_file_name file_name)).

(** [folder / name]: the name has to be a string. *)
Definition get_new_file_path (duplicate_index : nat) : outcome path :=
  let? folder := get_new_file_folder in
  let? name := get_new_file_name duplicate_index in
  match name with
  | JStr s => Ok (Path.join folder (Path.of_string s))
  | _ => Raise TypeError
  end.

End PathBuilder.

(* ================================================================== *)
(** ** The rename engine *)

Inductive level : Type := Debug | Info | Warning | Error.

(** What the engine asks of its collaborators, in the order it asks. *)
Inductive event : Type :=
  | Logged (l : level) (msg : string)
  | Exists (p : path)
  | Globbed (directory : path) (pattern : string)
  | Mkdir (p : path)
  | Renamed (source target : path)
  | MoveFiles (id : value) (destination_folder : path) (destination_basename : value).

Section Engine.

Variable find_studio : value -> outcome value.
Variable cwd : path.

(** The disk and the catalog.  [fs_exists] and [fs_glob] answer or raise
    ([Path.exists] raises the [OSError]s it does not take for an absent
    file, [Path.glob] raises [ValueError] on some patterns); [fs_mkdir] and
    [fs_rename] give the next world and, when the call raises [OSError],
    its message; [call_move_files] is the [MoveFiles] mutation sent with
    [call_GQL]. *)
Variable World : Type.
Variable fs_exists : World -> path -> reply bool.
Variable fs_glob : World -> path -> string -> reply (list path).
Variable fs_mkdir : World -> path -> World * option string.
Variable fs_rename : World -> path -> path -> World * option string.
Variable call_move_files : World -> value -> path -> value -> World * outcome value.

Variable cfg : config.
Variable hops : nat.
Variable scene_data file_data : value.

(** The world, the trace of calls, and the [duplicate_index] attribute of
    the [StashFile] object. *)
Record state : Type := MkState {
  world : World;
  trace : list event;
  duplicate_index : nat
}.

Definition M (A : Type) : Type := state -> outcome A * state.

Definition ret {A : Type} (a : A) : M A := fun st => (Ok a, st).

Definition mbind {A B : Type} (m : M A) (k : A -> M B) : M B :=
  fun st =>
    match m st with
    | (Ok a, st') => k a st'
    | (Raise e, st') => (Raise e, st')
    | (OutOfFuel, st') => (OutOfFuel, st')
    end.

Notation "'let!' x ':=' m 'in' k" := (mbind m (fun x => k))
  (at level 10, x name, m at level 100, k at level 200).
Notation "m ';;' k" := (mbind m (fun _ => k))
  (at level 100, right associativity).

Definition lift {A : Type} (o : outcome A) : M A := fun st => (o, st).

Definition emit (e : event) : M unit :=
  fun st => (Ok tt, MkState (world st) (trace st ++ [e])%list (duplicate_index st)).

Definition log (l : level) (msg : string) : M unit := emit (Logged l msg).

(** An answer of the filesystem, as the outcome of the call *)
Definition of_reply {A : Type} (r : reply A) : outcome A :=
  match r with
  | Returned a => Ok a
  | Raised e => Raise e
  end.

(** [p.exists()] *)
Definition path_exists (p : path) : M bool :=
  emit (Exists p) ;; fun st => (of_reply (fs_exists (world st) p), st).

(** [directory.glob(pattern)], listed at once *)
Definition glob (directory : path) (pattern : string) : M (list path) :=
  emit (Globbed directory pattern) ;;
  fun st => (of_reply (fs_glob (world st) directory pattern), st).

Definition set_world (w : World) : M unit :=
  fun st => (Ok tt, MkState w (trace st) (duplicate_index st)).

(** [p.mkdir(parents=True, exist_ok=True)] *)
Definition mkdir (p : path) : M unit :=
  emit (Mkdir p) ;;
  fun st =>
    let (w, err) := fs_mkdir (world st) p in
    (match err with Some msg => Raise (OSError msg) | None => Ok tt end,
     MkState w (trace st) (duplicate_index st)).

(** [source.rename(target)] inside [try]: the error, if any, is returned to
    the handler. *)
Definition try_rename (source target : path) : M (option string) :=
  emit (Renamed source target) ;;
  fun st =>
    let (w, err) := fs_rename (world st) source target in
    (Ok err, MkState w (trace st) (duplicate_index st)).

Definition move_files (id : value) (folder : path) (basename : value) : M value :=
  emit (MoveFiles id folder basename) ;;
  fun st =>
    let (w, r) := call_move_files (world st) id folder basename in
    (r, MkState w (trace st) (duplicate_index st)).

Definition get_duplicate_index : M nat := fun st => (Ok (duplicate_index st), st).

Definition increment_duplicate_index : M unit :=
  fun st => (Ok tt, MkState (world st) (trace st) (S (duplicate_index st))).

Fixpoint for_each {A : Type} (body : A -> M unit) (l : list A) : M unit :=
  match l with
  | [] => ret tt
  | x :: rest => body x ;; for_each body rest
  end.

(** The body of the [for] loop of [rename_related_files]. *)
Definition rename_related_file (new_directory new_path : path) (dry : bool)
           (related_file : path) : M unit :=
  let target_path :=
    Path.join new_directory
              (Path.of_string (Path.stem new_path ++ Path.suffix related_file)) in
  if Path.eqb related_file target_path then ret tt
  else
    let! present := path_exists target_path in
    if (present : bool) then
      log Warning ("Related file already exists at " ++ Path.str target_path
                   ++ ", skipping rename for " ++ Path.str related_file)
    else
      log Info ("Renaming related file from " ++ Path.str related_file
                ++ " to " ++ Path.str target_path) ;;
      if dry then ret tt
      else
        mkdir (Path.parent target_path) ;;
        let! error := try_rename related_file target_path in
        match error with
        | Some msg =>
            log Error ("Failed to rename related file from " ++ Path.str related_file
                       ++ " to " ++ Path.str target_path ++ ": " ++ msg)
        | None => ret tt
        end.

Definition rename_related_files (old_path new_path : path) (dry : bool) : M unit :=
  if negb (rename_related_files_enabled cfg) then ret tt
  else
    let old_directory := Path.parent old_path in
    let new_directory := Path.parent new_path in
    let! found := glob old_directory (Path.stem old_path ++ ".*") in
    let related_files := List.filter (fun p => negb (Path.eqb p old_path)) found in
    for_each (rename_related_file new_directory new_path dry) related_files.

Definition new_file_path : M path :=
  let! i := get_duplicate_index in
  lift (get_new_file_path find_studio cwd cfg hops scene_data file_data i).

(** The [while new_path.exists()] loop of [rename_file]: [Some] path when
    the loop ends on a free candidate, [None] when it returns from
    [rename_file] because the candidate is the old path. *)
Fixpoint collision_loop (fuel : nat) (old_path new_path : path) : M (option path) :=
  let! taken := path_exists new_path in
  if (taken : bool) then
    match fuel with
    | O => lift OutOfFuel
    | S fuel' =>
        increment_duplicate_index ;;
        let! i := get_duplicate_index in
        log Warning ("File already exists at " ++ Path.str new_path
                     ++ ", adding duplicate suffix: " ++ Str.of_Z (Z.of_nat i)) ;;
        let! new_path' := new_file_path in
        if Path.eqb old_path new_path' then
          log Info "File paths are the same after adding duplicate suffix, no renaming needed." ;;
          ret None
        else collision_loop fuel' old_path new_path'
    end
  else ret (Some new_path).

(** The end of [rename_file], from the log line that follows the loop:
    the dry run, or the [MoveFiles] mutation and the related files. *)
Definition commit_rename (old_path new_path : path) : M unit :=
  log Info ("Renaming file from " ++ Path.str old_path
            ++ " to " ++ Path.str new_path) ;;
  if dry_run cfg then
    log Info "Dry run enabled, not actually renaming the file." ;;
    rename_related_files old_path new_path true
  else
    let! id := lift (Py.index file_data "id") in
    let! i := get_duplicate_index in
    let! folder :=
      lift (get_new_file_folder find_studio cwd cfg hops scene_data file_data) in
    let! basename :=
      lift (get_new_file_name find_studio cfg hops scene_data file_data i) in
    let! moved_file := move_files id folder basename in
    log Info ("File renamed successfully: " ++ Py.str moved_file) ;;
    rename_related_files old_path new_path false.

Definition rename_file (fuel : nat) : M unit :=
  let! old_path := lift (get_old_file_path cwd file_data) in
  let! new_path := new_file_path in
  let! on_disk := path_exists old_path in
  if negb on_disk then
    log Warning ("File for scene does not exist on disk: " ++ Path.str old_path)
  else if Path.eqb old_path new_path then
    log Info "File paths are the same, no renaming needed."
  else
    log Debug ("Checking if a file exists at " ++ Path.str new_path) ;;
    let! converged := collision_loop fuel old_path new_path in
    match converged with
    | None => ret tt
    | Some new_path => commit_rename old_path new_path
    end.

(** A fresh [StashFile]: [duplicate_index = 0]. *)
Definition init (w : World) : state := MkState w [] 0.

End Engine.

(** *** Frames: what a computation may do to the state *)

Definition is_log_or_exists (e : event) : bool :=
  match e with
  | Logged _ _ | Exists _ => true
  | _ => false
  end.

Definition is_log_or_query (e : event) : bool :=
  match e with
  | Logged _ _ | Exists _ | Globbed _ _ => true
  | _ => false
  end.

Definition is_not_move (e : event) : bool :=
  match e with
  | MoveFiles _ _ _ => false
  | _ => true
  end.

Definition any_event (e : event) : bool := true.

(** From [st] to [st'] the trace only grew, by events of the class [P]; the
    world, respectively the duplicate index, stayed when the flag is set. *)
Definition only {World : Type} (P : event -> bool) (keep_world keep_index : bool)
           (st st' : state World) : Prop :=
  (keep_world = true -> world World st' = world World st)
  /\ (keep_index = true -> duplicate_index World st' = duplicate_index World st)
  /\ exists t, trace World st' = (trace World st ++ t)%list /\ forallb P t = true.

(** A computation that stays within a frame, whatever its outcome. *)
Definition within {World A : Type} (P : event -> bool) (keep_world keep_index : bool)
           (m : M World A) : Prop :=
  forall st, only P keep_world keep_index st (snd (m st)).

(* ================================================================== *)
(** ** A small disk and catalog, to run the engine on *)

Module Demo.

(** The files on disk, and those whose renaming the system refuses. *)
Record disk : Type := MkDisk { files : list path; locked : list path }.

Definition on_disk (w : disk) (p : path) : bool := existsb (Path.eqb p) (files w).

(** The siblings of a stem: [pattern] is the stem followed by [.*]. *)
Definition list_dir (w : disk) (directory : path) (pattern : string) : list path :=
  List.filter
    (fun p => Path.eqb (Path.parent p) directory
              && Str.starts_with (Str.take (String.length pattern - 1) pattern)
                                 (Path.name p))
    (files w).

(** On this disk the two queries always answer. *)
Definition test (w : disk) (p : path) : reply bool := Returned (on_disk w p).

Definition listing (w : disk) (directory : path) (pattern : string) : reply (list path) :=
  Returned (list_dir w directory pattern).

Definition make_dirs (w : disk) (p : path) : disk * option string := (w, None).

Definition replace_file (w : disk) (source target : path) : disk :=
  MkDisk (map (fun p => if Path.eqb p source then target else p) (files w)) (locked w).

Definition move (w : disk) (source target : path) : disk * option string :=
  if existsb (Path.eqb source) (locked w) then (w, Some "Permission denied")
  else (replace_file w source target, None).

(** The catalog holds one file, [primary], whatever the identifier. *)
Definition catalog_move (primary : path) (w : disk) (id : value) (folder : path)
           (basename : value) : disk * outcome value :=
  match basename with
  | JStr s =>
      (replace_file w primary (Path.join folder (Path.of_string s)),
       Ok (JObj [("moveFiles", JBool true)]))
  | _ => (w, Raise (CatalogError "destination_basename"))
  end.

Definition cwd : path := Path.of_string "/".

Definition run (primary : path) (cfg : config) (scene_data file_data : value)
           (fuel : nat) (w : disk) : outcome unit * state disk :=
  rename_file no_studio cwd disk test listing make_dirs move (catalog_move primary)
              cfg 0 scene_data file_data fuel (init disk w).

Definition cfg_title : config :=
  {| default_directory_path_format := EmptyString;
     second_directory_path_format := EmptyString;
     default_file_name_format := "$title$.$ext$";
     duplicate_file_suffix := " ($index$)";
     default_graphql_endpoint := EmptyString;
     allow_unsafe_characters := false;
     remove_extra_spaces_from_file_name := false;
     remove_and_replace_as_in_whisparr := false;
     rename_related_files_enabled := true;
     dry_run := false |}.


(** A file name template without extension. *)
Definition cfg_no_dot : config :=
  {| default_directory_path_format := EmptyString;
     second_directory_path_format := EmptyString;
     default_file_name_format := "$title$";
     duplicate_file_suffix := " ($index$)";
     default_graphql_endpoint := EmptyString;
     allow_unsafe_characters := false;
     remove_extra_spaces_from_file_name := false;
     remove_and_replace_as_in_whisparr := false;
     rename_related_files_enabled := true;
     dry_run := false |}.

Definition scene_show : value := JObj [("title", JStr "Show")].

Definition file_raw : value :=
  JObj [("id", JStr "7"); ("path", JStr "/m/raw.mp4"); ("basename", JStr "raw.mp4")].

Definition p (s : string) : path := Path.of_string s.

(** The same naming, as a dry run. *)
Definition cfg_dry : config :=
  {| default_directory_path_format := EmptyString;
     second_directory_path_format := EmptyString;
     default_file_name_format := "$title$.$ext$";
     duplicate_file_suffix := " ($index$)";
     default_graphql_endpoint := EmptyString;
     allow_unsafe_characters := false;
     remove_extra_spaces_from_file_name := false;
     remove_and_replace_as_in_whisparr := false;
     rename_related_files_enabled := true;
     dry_run := true |}.

(** A file that already carries the name of duplicate index 1. *)
Definition file_dup : value :=
  JObj [("id", JStr "8"); ("path", JStr "/m/Show (1).mp4");
        ("basename", JStr "Show (1).mp4")].

(** Two takers of the wanted name, and two siblings of [raw.mp4], the
    first of which cannot be renamed. *)
Definition crowded : disk :=
  MkDisk [p "/m/raw.mp4"; p "/m/Show.mp4"; p "/m/Show (1).mp4";
          p "/m/raw.srt"; p "/m/raw.jpg"]
         [p "/m/raw.srt"].

Definition related_step : path -> M disk unit :=
  rename_related_file disk test make_dirs move (p "/m") (p "/m/Show (2).mp4") false.

End Demo.

(* ================================================================== *)
(** ** Notions the properties are stated with *)

(** A [$name$] token: [\$\w+\$]. *)
Definition placeholder_token : Re.pattern :=
  [ Re.One (Re.chr "$"); Re.One Re.word; Re.Many Re.word; Re.One (Re.chr "$") ].

Definition has_placeholder (s : string) : bool := Re.search placeholder_token s.

(** The elision as the specification words it, to compare with
    [clean_optional_from_format]: an optional section runs from a [{] to the
    next [}] (non-greedy, one level); it is dropped when it still holds a
    token and keeps its content otherwise; braces never stay.  [inside] is
    the content of the section being read, if any. *)
Fixpoint elide_sections_spec (inside : option string) (s : string) : string :=
  match s with
  | EmptyString =>
      match inside with
      | Some content => content
      | None => EmptyString
      end
  | String c rest =>
      match inside with
      | None =>
          if Ascii.eqb c "{" then elide_sections_spec (Some EmptyString) rest
          else if Ascii.eqb c "}" then elide_sections_spec None rest
          else String c (elide_sections_spec None rest)
      | Some content =>
          if Ascii.eqb c "}" then
            (if has_placeholder content then EmptyString else content)
            ++ elide_sections_spec None rest
          else if Ascii.eqb c "{" then elide_sections_spec (Some content) rest
          else elide_sections_spec (Some (content ++ String c EmptyString)) rest
      end
  end.

(** A character a file name may keep *)
Definition safe (c : ascii) : bool := negb (unsafe_character c).

(** A studio whose record carries the name [n]. *)
Definition has_name (studio : value) (n : string) : Prop :=
  exists fields, studio = JObj fields /\ Py.lookup "name" fields = Some (JStr n).

(** A finite parent chain: the names from the studio up to its root, each
    hop answered by the catalog lookup. *)
Inductive studio_chain (find_studio : value -> outcome value)
  : value -> list string -> Prop :=
  | chain_root studio n parent :
      has_name studio n ->
      Py.get studio "parent_studio" JNull = Ok parent ->
      Py.truthy parent = false ->
      studio_chain find_studio studio [n]
  | chain_hop studio n parent next names :
      has_name studio n ->
      Py.get studio "parent_studio" JNull = Ok parent ->
      Py.truthy parent = true ->
      find_studio parent = Ok next ->
      studio_chain find_studio next names ->
      studio_chain find_studio studio (n :: names).

(** Three studios, [A] under [B] under [C], found by identifier. *)
Module Studios.

Definition C : value := JObj [("id", JStr "3"); ("name", JStr "C")].
Definition B : value :=
  JObj [("id", JStr "2"); ("name", JStr "B"); ("parent_studio", JObj [("id", JStr "3")])].
Definition A : value :=
  JObj [("id", JStr "1"); ("name", JStr "A"); ("parent_studio", JObj [("id", JStr "2")])].

Definition find_studio (ref : value) : outcome value :=
  let? id := Py.get ref "id" JNull in
  match id with
  | JStr "1" => Ok A
  | JStr "2" => Ok B
  | JStr "3" => Ok C
  | _ => Ok JNull
  end.

Definition scene : value := JObj [("title", JStr "Pilot"); ("studio", A)].

End Studios.

(* ================================================================== *)
(** ** Notions of the further properties *)

(** The keys the variables read in a file record and in a scene record. *)
Definition file_keys : list string :=
  ["audio_codec"; "basename"; "format"; "height"; "index"; "video_codec"; "width"].

Definition scene_keys : list string :=
  ["id"; "title"; "date"; "director"; "code"; "studio"].

(** An object without any of the keys [keys]. *)
Definition lacks (keys : list string) (record : value) : Prop :=
  exists fields, record = JObj fields
                 /\ forall k, In k keys -> Py.lookup k fields = None.

Definition is_brace (c : ascii) : bool := Ascii.eqb c "{" || Ascii.eqb c "}".

(** White space is collapsed: every blank is a space, and none follows
    another ([after_space] tells whether the previous character was one). *)
Fixpoint well_spaced (after_space : bool) (s : string) : bool :=
  match s with
  | EmptyString => true
  | String c s' =>
      if Re.space c
      then Ascii.eqb c " " && negb after_space && well_spaced true s'
      else well_spaced false s'
  end.

(** The length of the run of white space that opens [s]. *)
Fixpoint leading_spaces (s : string) : nat :=
  match s with
  | EmptyString => O
  | String c s' => if Re.space c then S (leading_spaces s') else O
  end.

(** Every run of white space replaced by one space, read character by
    character ([in_run]: the previous character was white space). *)
Fixpoint collapse_runs (in_run : bool) (s : string) : string :=
  match s with
  | EmptyString => EmptyString
  | String c s' =>
      if Re.space c
      then if in_run then collapse_runs true s' else String " " (collapse_runs true s')
      else String c (collapse_runs false s')
  end.

(** A library whose directory template carries the title, with the
    stricter character replacement. *)
Definition cfg_library : config :=
  {| default_directory_path_format := "/lib/$title$";
     second_directory_path_format := "/lib/$title$";
     default_file_name_format := EmptyString;
     duplicate_file_suffix := EmptyString;
     default_graphql_endpoint := EmptyString;
     allow_unsafe_characters := false;
     remove_extra_spaces_from_file_name := false;
     remove_and_replace_as_in_whisparr := true;
     rename_related_files_enabled := true;
     dry_run := false |}.

(** Nothing configured: no directory template, no file name template. *)
Definition cfg_none : config :=
  {| default_directory_path_format := EmptyString;
     second_directory_path_format := EmptyString;
     default_file_name_format := EmptyString;
     duplicate_file_suffix := EmptyString;
     default_graphql_endpoint := EmptyString;
     allow_unsafe_characters := false;
     remove_extra_spaces_from_file_name := false;
     remove_and_replace_as_in_whisparr := false;
     rename_related_files_enabled := true;
     dry_run := false |}.

(** A file name template with white space to collapse. *)
Definition cfg_spaced : config :=
  {| default_directory_path_format := EmptyString;
     second_directory_path_format := EmptyString;
     default_file_name_format := "$title$  -  $director$.mp4";
     duplicate_file_suffix := EmptyString;
     default_graphql_endpoint := EmptyString;
     allow_unsafe_characters := false;
     remove_extra_spaces_from_file_name := true;
     remove_and_replace_as_in_whisparr := false;
     rename_related_files_enabled := true;
     dry_run := false |}.

Definition is_log_exists_or_move (e : event) : bool :=
  match e with
  | Logged _ _ | Exists _ | MoveFiles _ _ _ => true
  | _ => false
  end.

(** The state [st] after the calls [l], none of which changed the world. *)
Definition after_calls {World : Type} (st : state World) (l : list event) : state World :=
  MkState World (world World st) (trace World st ++ l)%list (duplicate_index World st).

(** The [MoveFiles] mutation was sent at some point of the trace. *)
Definition move_sent {World : Type} (st : state World) : Prop :=
  exists id folder basename, In (MoveFiles id folder basename) (trace World st).

(** A set of studios the parent walk never leaves: each has a truthy parent
    reference that the catalog resolves to a studio of the set. *)
Definition endless (find_studio : value -> outcome value) (I : value -> Prop) : Prop :=
  forall studio, I studio ->
    exists parent next,
      Py.get studio "parent_studio" JNull = Ok parent
      /\ Py.truthy parent = true
      /\ find_studio parent = Ok next
      /\ (exists fields, next = JObj fields)
      /\ I next.

(** Two studios that name each other as parent. *)
Definition studio_ping : value :=
  JObj [("id", JStr "1"); ("name", JStr "Ping"); ("parent_studio", JObj [("id", JStr "2")])].
Definition studio_pong : value :=
  JObj [("id", JStr "2"); ("name", JStr "Pong"); ("parent_studio", JObj [("id", JStr "1")])].
Definition find_ping_pong (ref : value) : outcome value :=
  let? id := Py.get ref "id" JNull in
  match id with
  | JStr "1" => Ok studio_ping
  | _ => Ok studio_pong
  end.

(** Disks and a catalog for the further properties: one without the file,
    one where the library already holds a file of the same base name, one
    with three takers of the wanted name; and a catalog that refuses. *)
Definition vacant : Demo.disk := Demo.MkDisk [Demo.p "/m/Show.mp4"] [].

Definition doubled : Demo.disk :=
  Demo.MkDisk [Demo.p "/m/raw.mp4"; Demo.p "/lib/Show/raw.mp4"] [].

Definition packed : Demo.disk :=
  Demo.MkDisk [Demo.p "/m/raw.mp4"; Demo.p "/m/Show.mp4"; Demo.p "/m/Show (1).mp4";
               Demo.p "/m/Show (2).mp4"; Demo.p "/m/raw.srt"] [].

Definition refusing_catalog (w : Demo.disk) (id : value) (folder : path)
           (basename : value) : Demo.disk * outcome value :=
  (w, Raise (CatalogError "refused")).

Definition run_with (catalog : Demo.disk -> value -> path -> value -> Demo.disk * outcome value)
           (cfg : config) (scene_data file_data : value) (fuel : nat) (w : Demo.disk)
  : outcome unit * state Demo.disk :=
  rename_file no_studio Demo.cwd Demo.disk Demo.test Demo.listing Demo.make_dirs
              Demo.move catalog cfg 0 scene_data file_data fuel (init Demo.disk w).

(** A directory template for the studios of one endpoint, and no second
    template for the others. *)
Definition cfg_linked : config :=
  {| default_directory_path_format := "/lib/$studio_name$";
     second_directory_path_format := EmptyString;
     default_file_name_format := EmptyString;
     duplicate_file_suffix := EmptyString;
     default_graphql_endpoint := "https://db.example/graphql";
     allow_unsafe_characters := false;
     remove_extra_spaces_from_file_name := false;
     remove_and_replace_as_in_whisparr := false;
     rename_related_files_enabled := true;
     dry_run := false |}.

(** A disk on which no directory can be made. *)
Definition read_only (w : Demo.disk) (p : path) : Demo.disk * option string :=
  (w, Some "Read-only file system").

(** Where a match of [.*\}] ends: one past the last closing brace of the
    first line of [s], if that line has one. *)
Fixpoint last_close (s : string) : option nat :=
  match s with
  | EmptyString => None
  | String c s' =>
      if Re.dot c then
        match last_close s' with
        | Some n => Some (S n)
        | None => if Re.chr "}" c then Some 1 else None
        end
      else None
  end.

(** Text without braces, and text without line feed. *)
Definition plain (s : string) : Prop := Str.forallb (fun c => negb (is_brace c)) s = true.
Definition one_line (s : string) : Prop := Str.forallb Re.dot s = true.

(** The same library with a second template, relative, for the studios of
    the other endpoints. *)
Definition cfg_second : config :=
  {| default_directory_path_format := "/lib/$studio_name$";
     second_directory_path_format := "unsorted/$title$";
     default_file_name_format := EmptyString;
     duplicate_file_suffix := EmptyString;
     default_graphql_endpoint := "https://db.example/graphql";
     allow_unsafe_characters := false;
     remove_extra_spaces_from_file_name := false;
     remove_and_replace_as_in_whisparr := false;
     rename_related_files_enabled := true;
     dry_run := false |}.

(* ================================================================== *)
(** * The primitives on examples *)

Example replace_ex : Str.replace "$title$" "Show" "a$title$b$title$" = "aShowbShow".
Proof. reflexivity. Qed.

Example split_ex : Str.split "-" "2021-05-01" = ["2021"; "05"; "01"].
Proof. reflexivity. Qed.

Example rsplit_ex : Str.rsplit1 "." "a.b.mp4" = ["a.b"; "mp4"].
Proof. reflexivity. Qed.

Example rsplit_ex2 : Str.rsplit1 "." "abmp4" = ["abmp4"].
Proof. reflexivity. Qed.

Example of_Z_ex : Str.of_Z 1080 = "1080" /\ Str.of_Z (-3) = "-3" /\ Str.of_Z 0 = "0".
Proof. repeat split; reflexivity. Qed.

Example repr_ex :
  Py.str (JArr [JStr "http://a"; JStr "it's"; JNum 3; JNull])
  = "['http://a', " ++ String Py.dquote ("it's" ++ String Py.dquote ", 3, None]").
Proof. reflexivity. Qed.

(** The classes of [re] on the code points below 256: 134 word characters,
    12 blanks, and every character but the line feed for the dot. *)
Example classes_ex :
  let all := map ascii_of_nat (seq 0 256) in
  List.length (filter Re.word all) = 134
  /\ map nat_of_ascii (filter Re.space all) = [9; 10; 11; 12; 13; 28; 29; 30; 31; 32; 133; 160]%nat
  /\ map nat_of_ascii (filter (fun c => negb (Re.dot c)) all) = [10]%nat.
Proof. vm_compute. repeat split. Qed.

(** A token between two optional sections of one line goes with them. *)
Example elision_between_ex :
  apply_format no_studio 0 "{$title$}$director${$date$}" (JObj []) (JObj [])
  = Ok EmptyString.
Proof. reflexivity. Qed.

Example elision_ex :
  apply_format no_studio 0 "{$director$ - }$title$"
               (JObj [("director", JStr EmptyString); ("title", JStr "Show")]) (JObj [])
  = Ok "Show".
Proof. reflexivity. Qed.

Example substitution_ex :
  apply_format no_studio 0 "$year$/$studio_name$/$title$"
               (JObj [("date", JStr "2021-05-01"); ("title", JStr "Pilot");
                      ("studio", JObj [("name", JStr "Acme")])]) (JObj [])
  = Ok "2021/Acme/Pilot".
Proof. reflexivity. Qed.

Example path_ex :
  Path.str (Path.join (Path.of_string "/media//a/./b/") (Path.of_string "c.mp4"))
  = "/media/a/b/c.mp4"
  /\ Path.stem (Path.of_string "/m/a.b.mp4") = "a.b"
  /\ Path.suffix (Path.of_string "/m/a.b.mp4") = ".mp4"
  /\ Path.suffix (Path.of_string "/m/.hidden") = EmptyString
  /\ Path.str (Path.parent (Path.of_string "/m/a.mp4")) = "/m".
Proof. repeat split; reflexivity. Qed.

(* ================================================================== *)
(** * Paths *)

Lemma path_eqb_eq (p q : path) : Path.eqb p q = true <-> p = q.
Proof.
  unfold Path.eqb. destruct p as [r1 l1], q as [r2 l2]; simpl.
  destruct (list_eq_dec string_dec l1 l2) as [El | El];
    rewrite ?andb_true_r, ?andb_false_r, ?String.eqb_eq; split; intros H.
  - now subst.
  - now inversion H.
  - discriminate.
  - inversion H. contradiction.
Qed.

Lemma path_eqb_refl (p : path) : Path.eqb p p = true.
Proof. now apply path_eqb_eq. Qed.

Lemma path_eqb_neq (p q : path) : Path.eqb p q = false <-> p <> q.
Proof.
  split.
  - intros H E. apply path_eqb_eq in E. congruence.
  - intros H. destruct (Path.eqb p q) eqn:E; [apply path_eqb_eq in E; contradiction | reflexivity].
Qed.

(* ================================================================== *)
(** * Facts about the string and pattern primitives *)

Section StringFacts.

Lemma mem_filter_false (f : ascii -> bool) (c : ascii) (s : string) :
  f c = false -> Str.mem c (Str.filter f s) = false.
Proof.
  intros Hc. induction s as [| a s IH]; simpl; [reflexivity |].
  destruct (f a) eqn:Ha; simpl; [| exact IH].
  rewrite IH, orb_false_r.
  destruct (Ascii.eqb c a) eqn:E; [| reflexivity].
  apply Ascii.eqb_eq in E. congruence.
Qed.

Lemma mem_filter_keeps (f : ascii -> bool) (c : ascii) (s : string) :
  Str.mem c s = false -> Str.mem c (Str.filter f s) = false.
Proof.
  induction s as [| a s IH]; simpl; [reflexivity |].
  intros H. apply orb_false_iff in H as [H1 H2].
  destruct (f a); simpl; [rewrite H1, (IH H2); reflexivity | exact (IH H2)].
Qed.

Lemma filter_absent (c : ascii) (s : string) :
  Str.mem c s = false -> Str.filter (fun a => negb (Ascii.eqb c a)) s = s.
Proof.
  induction s as [| a s IH]; simpl; [reflexivity |].
  intros H. apply orb_false_iff in H as [H1 H2].
  rewrite H1; simpl. now rewrite (IH H2).
Qed.

Lemma mem_app (c : ascii) (s t : string) :
  Str.mem c (s ++ t) = Str.mem c s || Str.mem c t.
Proof.
  induction s as [| a s IH]; simpl; [reflexivity |].
  now rewrite IH, orb_assoc.
Qed.

Lemma match_here_one (p : ascii -> bool) (pat : Re.pattern) (a : ascii) (r : string) :
  Re.match_here (Re.One p :: pat) (String a r)
  = if p a then option_map S (Re.match_here pat r) else None.
Proof. reflexivity. Qed.

(** Substituting the empty string for a one-character class filters. *)
Lemma sub_class_filter (p : ascii -> bool) (s : string) :
  Re.sub [Re.One p] EmptyString s = Str.filter (fun c => negb (p c)) s.
Proof.
  unfold Re.sub, Re.sub_with.
  induction s as [| a s IH]; simpl; [reflexivity |].
  destruct (p a); simpl; [exact IH | f_equal; exact IH].
Qed.

(** [s.replace(c, "")] for a one-character [c] filters as well. *)
Lemma replace_char_filter (c : ascii) (s : string) :
  Str.replace (String c EmptyString) EmptyString s
  = Str.filter (fun a => negb (Ascii.eqb c a)) s.
Proof.
  unfold Str.replace.
  induction s as [| a s IH]; simpl; [reflexivity |].
  rewrite andb_true_r. destruct (Ascii.eqb c a); simpl; [exact IH | f_equal; exact IH].
Qed.

Lemma forallb_app (f : ascii -> bool) (s t : string) :
  Str.forallb f (s ++ t) = Str.forallb f s && Str.forallb f t.
Proof.
  induction s as [| a s IH]; simpl; [reflexivity |].
  now rewrite IH, andb_assoc.
Qed.

(** A scan whose replacements satisfy [f] keeps a string within [f]. *)
Lemma scan_forallb (f : ascii -> bool) (m : string -> option nat)
      (repl : string -> string) :
  (forall t, Str.forallb f (repl t) = true) ->
  forall s skip, Str.forallb f s = true -> Str.forallb f (Str.scan m repl skip s) = true.
Proof.
  intros Hrepl. induction s as [| a s IH]; intros skip Hs; simpl.
  - destruct skip; [destruct (m EmptyString) |]; simpl; auto.
  - simpl in Hs. apply andb_true_iff in Hs as [Ha Hs].
    destruct skip as [| k]; [| now apply IH].
    destruct (m (String a s)) as [[| n] |]; simpl.
    + rewrite forallb_app, Hrepl; simpl. now rewrite Ha, IH.
    + rewrite forallb_app, Hrepl; simpl. now apply IH.
    + now rewrite Ha, IH.
Qed.

Lemma forallb_filter (f : ascii -> bool) (s : string) :
  Str.forallb f (Str.filter f s) = true.
Proof.
  induction s as [| a s IH]; simpl; [reflexivity |].
  destruct (f a) eqn:Ha; simpl; [now rewrite Ha |]; exact IH.
Qed.

Lemma forallb_mem (f : ascii -> bool) (c : ascii) (s : string) :
  Str.forallb f s = true -> f c = false -> Str.mem c s = false.
Proof.
  induction s as [| a s IH]; simpl; [reflexivity |].
  intros H Hc. apply andb_true_iff in H as [Ha Hs].
  rewrite (IH Hs Hc), orb_false_r.
  destruct (Ascii.eqb c a) eqn:E; [| reflexivity].
  apply Ascii.eqb_eq in E. congruence.
Qed.

(** A scan that finds no match anywhere returns its input. *)
Lemma scan_no_match (m : string -> option nat) (repl : string -> string)
      (first : ascii) :
  m EmptyString = None ->
  (forall a r, Ascii.eqb first a = false -> m (String a r) = None) ->
  forall s, Str.mem first s = false -> Str.scan m repl O s = s.
Proof.
  intros Hnil Hm. induction s as [| a s IH]; simpl; intros H.
  - now rewrite Hnil.
  - apply orb_false_iff in H as [H1 H2].
    rewrite (Hm a s H1). now rewrite (IH H2).
Qed.

Lemma rsplit1_no_sep (sep : ascii) (s : string) :
  Str.mem sep s = false -> Str.rsplit1 sep s = [s].
Proof.
  destruct s as [| a s]; simpl; [reflexivity |].
  intros H. apply orb_false_iff in H as [H1 H2].
  rewrite H2. rewrite Ascii.eqb_sym in H1. now rewrite H1.
Qed.

Lemma rsplit1_last (sep : ascii) (base ext : string) :
  Str.mem sep ext = false ->
  Str.rsplit1 sep (base ++ String sep ext) = [base; ext].
Proof.
  intros H. induction base as [| a base IH]; simpl.
  - now rewrite H, Ascii.eqb_refl.
  - rewrite mem_app; simpl. rewrite Ascii.eqb_refl, orb_true_r; simpl.
    now rewrite IH.
Qed.

(** With a separator in the string, [rsplit] gives exactly two parts. *)
Lemma rsplit1_sep (sep : ascii) (s : string) :
  Str.mem sep s = true ->
  exists base ext, Str.rsplit1 sep s = [base; ext]
                   /\ s = base ++ String sep ext /\ Str.mem sep ext = false.
Proof.
  induction s as [| a s IH]; simpl; [discriminate |].
  intros H. destruct (Str.mem sep s) eqn:Hs.
  - destruct (IH eq_refl) as (base & ext & E & Es & Hext).
    rewrite E. exists (String a base), ext. simpl. now rewrite Es at 1.
  - rewrite orb_false_r in H. rewrite Ascii.eqb_sym, H.
    exists EmptyString, s. apply Ascii.eqb_eq in H. subst. auto.
Qed.

End StringFacts.

(* ================================================================== *)
(** * The formatter *)

Section FormatterFacts.

Lemma clean_no_braces (s : string) :
  Str.mem "{" (clean_optional_from_format s) = false
  /\ Str.mem "}" (clean_optional_from_format s) = false.
Proof.
  unfold clean_optional_from_format. rewrite !replace_char_filter. split.
  - apply mem_filter_keeps, mem_filter_false. reflexivity.
  - apply mem_filter_false. reflexivity.
Qed.

Lemma clean_without_braces (s : string) :
  Str.mem "{" s = false -> Str.mem "}" s = false -> clean_optional_from_format s = s.
Proof.
  intros Hopen Hclose. unfold clean_optional_from_format, Re.sub, Re.sub_with.
  rewrite (scan_no_match _ _ "{"%char); try assumption.
  - rewrite !replace_char_filter, (filter_absent "{" s Hopen). now apply filter_absent.
  - reflexivity.
  - intros a r Ha. unfold optional_section.
    rewrite match_here_one. unfold Re.chr. now rewrite Ha.
Qed.

(** The joined names of a chain, once the walk has enough fuel. *)
Lemma parent_chain_loop_names (find_studio : value -> outcome value) :
  forall studio names, studio_chain find_studio studio names ->
  forall fuel acc, List.length names <= S fuel ->
    parent_chain_loop find_studio fuel studio acc
    = Ok (acc ++ map JStr (tl names))%list.
Proof.
  induction 1 as [studio n parent Hn Hp Ht | studio n parent next names Hn Hp Ht Hf Hc IH];
    intros fuel acc Hlen.
  - destruct fuel; simpl; rewrite Hp; simpl; rewrite Ht; now rewrite app_nil_r.
  - simpl in Hlen. destruct fuel as [| fuel]; simpl.
    + inversion Hc; subst; simpl in Hlen; lia.
    + rewrite Hp; simpl. rewrite Ht, Hf; simpl.
      assert (Hname : exists n' rest, names = n' :: rest /\ has_name next n').
      { inversion Hc; subst; eauto. }
      destruct Hname as (n' & rest & -> & (fields & -> & Hl)).
      simpl. rewrite Hl; simpl.
      rewrite IH by (simpl in *; lia). simpl.
      now rewrite <- app_assoc.
Qed.

Lemma join_strings (sep : string) (l : list string) :
  Py.join sep (map JStr l) = Ok (Str.join sep l).
Proof.
  induction l as [| a l IH]; simpl; [reflexivity |].
  destruct l as [| b l]; [reflexivity |].
  change (map JStr (b :: l)) with (JStr b :: map JStr l) in *.
  cbv beta iota. simpl in IH. simpl. rewrite IH. reflexivity.
Qed.

End FormatterFacts.

(* ================================================================== *)
(** * Properties of the formatter *)

(** C1 (the code departs from the claim).  On a template with two optional
    sections of one level each, the first resolved and the second not, the
    formatter erases both: the pattern of [clean_optional_from_format] is
    greedy and runs from the first opening brace to the last closing brace
    of the line, where the claim has the resolved section keep its content
    ([elide_sections_spec] returns it). *)
Theorem C1_greedy_elision_erases_resolved_section :
  let scene := JObj [("title", JStr "Show"); ("director", JStr EmptyString)] in
  apply_format no_studio 0 "{$title$ }{$director$}" scene (JObj []) = Ok EmptyString
  /\ clean_optional_from_format "{Show }{$director$}" = EmptyString
  /\ elide_sections_spec None "{Show }{$director$}" = "Show ".
Proof. repeat split; vm_compute; reflexivity. Qed.

(** C3, as stated, fails: a known placeholder that resolved to the empty
    string outside any optional section is still in the result. *)
Lemma C3_placeholder_left_outside_sections :
  ~ (forall find_studio hops format_template scene_data file_data s,
        apply_format find_studio hops format_template scene_data file_data = Ok s ->
        has_placeholder s = false).
Proof.
  intros H.
  specialize (H no_studio 0 "$director$ - $title$"
                (JObj [("title", JStr "Show")]) (JObj []) _ eq_refl).
  vm_compute in H. discriminate H.
Qed.

(** C4 (the code departs from the claim).  On a date that is not empty and
    holds no [-], the [month] resolver indexes past the end of the split and
    raises [IndexError], which [apply_format] lets through; [year], its
    sibling, degrades as claimed. *)
Theorem C4_month_raises_on_date_without_separator :
  let scene := JObj [("date", JStr "2021")] in
  (exists r, resolver_of "month" (SCENE_VARIABLES no_studio) = Some r
             /\ r 0 scene = Raise IndexError)
  /\ (exists r, resolver_of "year" (SCENE_VARIABLES no_studio) = Some r
                /\ r 0 scene = Ok (JStr "2021"))
  /\ apply_format no_studio 0 "$year$-$month$" scene (JObj []) = Raise IndexError.
Proof.
  repeat split.
  - eexists; split; reflexivity.
  - eexists; split; reflexivity.
Qed.

(** C9.  For a scene whose studio heads a finite parent chain, the
    [parent_studio_chain] variable resolves, given one unit of fuel per hop,
    to the names of the chain joined with [/] from the root to the leaf. *)
Theorem C9_parent_studio_chain_root_to_leaf
        (find_studio : value -> outcome value) (hops : nat)
        (scene studio : value) (names : list string) :
  Py.get scene "studio" (JObj []) = Ok studio ->
  studio_chain find_studio studio names ->
  List.length names <= S hops ->
  exists r, resolver_of "parent_studio_chain" (SCENE_VARIABLES find_studio) = Some r
            /\ r hops scene = Ok (JStr (Str.join "/" (rev names))).
Proof.
  intros Hscene Hchain Hlen.
  exists (get_parent_studio_chain find_studio). split; [reflexivity |].
  unfold get_parent_studio_chain. rewrite Hscene; cbn [obind].
  assert (Hhead : exists n rest, names = n :: rest /\ has_name studio n).
  { inversion Hchain; subst; eauto. }
  destruct Hhead as (n & rest & Hnames & (fields & Hstudio & Hl)).
  assert (Hget : Py.get studio "name" (JStr EmptyString) = Ok (JStr n)).
  { subst studio. simpl. now rewrite Hl. }
  rewrite Hget; cbn [obind].
  rewrite (parent_chain_loop_names find_studio studio names Hchain hops _ Hlen).
  cbn [obind]. subst names. cbn [tl app].
  change (JStr n :: map JStr rest) with (map JStr (n :: rest)).
  rewrite <- map_rev, join_strings. reflexivity.
Qed.

Lemma C9_parent_studio_chain_root_to_leaf_witness :
  exists r, resolver_of "parent_studio_chain" (SCENE_VARIABLES Studios.find_studio) = Some r
            /\ r 2 Studios.scene = Ok (JStr "C/B/A").
Proof.
  apply (C9_parent_studio_chain_root_to_leaf
           Studios.find_studio 2 Studios.scene Studios.A ["A"; "B"; "C"]).
  - reflexivity.
  - eapply chain_hop; [eexists; split; reflexivity | reflexivity | reflexivity | reflexivity |].
    eapply chain_hop; [eexists; split; reflexivity | reflexivity | reflexivity | reflexivity |].
    eapply chain_root; [eexists; split; reflexivity | reflexivity | reflexivity].
  - simpl. lia.
Defined.

(* ================================================================== *)
(** * The path builder *)

Section PathBuilderFacts.

Variable find_studio : value -> outcome value.
Variable cfg : config.
Variable hops : nat.
Variable scene_data file_data : value.

Lemma strip_unsafe_filter (s : string) : strip_unsafe s = Str.filter safe s.
Proof. apply sub_class_filter. Qed.

Lemma collapse_spaces_safe (s : string) :
  Str.forallb safe s = true -> Str.forallb safe (collapse_spaces s) = true.
Proof. intros H. apply scan_forallb; [intros _; reflexivity | exact H]. Qed.

(** The splice: [IndexError] without a dot, the suffix before the last
    dot otherwise. *)
Lemma splice_suffix_no_dot (file_name suffix : string) :
  Str.mem "." file_name = false -> splice_suffix file_name suffix = Raise IndexError.
Proof.
  intros H. unfold splice_suffix. now rewrite (rsplit1_no_sep _ _ H).
Qed.

Lemma splice_suffix_dot (base ext suffix : string) :
  Str.mem "." ext = false ->
  splice_suffix (base ++ "." ++ ext) suffix = Ok (base ++ suffix ++ "." ++ ext).
Proof.
  intros H. unfold splice_suffix.
  change (base ++ "." ++ ext) with (base ++ String "."%char ext).
  now rewrite (rsplit1_last _ _ _ H).
Qed.

Lemma splice_suffix_inv (file_name suffix spliced : string) :
  splice_suffix file_name suffix = Ok spliced ->
  exists base ext, file_name = base ++ "." ++ ext /\ Str.mem "." ext = false
                   /\ spliced = base ++ suffix ++ "." ++ ext.
Proof.
  intros H. destruct (Str.mem "." file_name) eqn:Hdot.
  - destruct (rsplit1_sep _ _ Hdot) as (base & ext & _ & E & Hext).
    exists base, ext. subst file_name.
    change (base ++ String "."%char ext) with (base ++ "." ++ ext) in H.
    rewrite (splice_suffix_dot _ _ _ Hext) in H. injection H as <-. auto.
  - rewrite (splice_suffix_no_dot _ _ Hdot) in H. discriminate.
Qed.

(** With a template configured and a duplicate index above zero, a file
    name that is returned went through the splice. *)
Lemma get_new_file_name_spliced (i : nat) (name : value) :
  configured (default_file_name_format cfg) = true ->
  i <> 0 ->
  get_new_file_name find_studio cfg hops scene_data file_data i = Ok name ->
  exists file_data' file_name suffix base ext,
    indexed_file_data file_data i = Ok file_data'
    /\ apply_format find_studio hops (default_file_name_format cfg)
                    scene_data file_data' = Ok file_name
    /\ apply_format find_studio hops (duplicate_file_suffix cfg)
                    scene_data file_data' = Ok suffix
    /\ file_name = base ++ "." ++ ext /\ Str.mem "." ext = false
    /\ name = JStr (tidy_file_name cfg (base ++ suffix ++ "." ++ ext)).
Proof.
  intros Hcfg Hi. unfold get_new_file_name, format_file_name. rewrite Hcfg; simpl negb.
  cbv iota.
  destruct (indexed_file_data file_data i) as [fd | |] eqn:Efd; cbn [obind];
    try discriminate.
  destruct (apply_format find_studio hops (default_file_name_format cfg) scene_data fd)
    as [fname | |] eqn:Ename; cbn [obind]; try discriminate.
  apply Nat.eqb_neq in Hi. rewrite Hi; simpl negb; cbv iota.
  destruct (apply_format find_studio hops (duplicate_file_suffix cfg) scene_data fd)
    as [suffix | |] eqn:Esuffix; cbn [obind]; try discriminate.
  destruct (splice_suffix fname suffix) as [spliced | |] eqn:Es; cbn [obind];
    try discriminate.
  intros H. injection H as <-.
  destruct (splice_suffix_inv _ _ _ Es) as (base & ext & -> & Hext & ->).
  exists fd, (base ++ "." ++ ext), suffix, base, ext. auto 10.
Qed.

(** Without a template the file name does not depend on the index. *)
Lemma get_new_file_name_unconfigured (i j : nat) :
  configured (default_file_name_format cfg) = false ->
  get_new_file_name find_studio cfg hops scene_data file_data i
  = get_new_file_name find_studio cfg hops scene_data file_data j.
Proof. intros H. unfold get_new_file_name. now rewrite H. Qed.

End PathBuilderFacts.



(** C10.  With a template configured and [duplicate_index] above zero,
    once both templates are formatted: a formatted name without a dot makes
    [get_new_file_name] raise [IndexError]; a name with a dot gets the
    suffix between the part before its last dot and the part after it. *)
Theorem C10_duplicate_suffix_needs_a_dot
        (find_studio : value -> outcome value) (cfg : config) (hops : nat)
        (scene_data file_data file_data' : value) (i : nat)
        (file_name duplicate_suffix : string) :
  configured (default_file_name_format cfg) = true ->
  i <> 0 ->
  indexed_file_data file_data i = Ok file_data' ->
  apply_format find_studio hops (default_file_name_format cfg) scene_data file_data'
  = Ok file_name ->
  apply_format find_studio hops (duplicate_file_suffix cfg) scene_data file_data'
  = Ok duplicate_suffix ->
  (Str.mem "." file_name = false ->
   get_new_file_name find_studio cfg hops scene_data file_data i = Raise IndexError)
  /\ (forall base ext,
         file_name = base ++ "." ++ ext -> Str.mem "." ext = false ->
         get_new_file_name find_studio cfg hops scene_data file_data i
         = Ok (JStr (tidy_file_name cfg (base ++ duplicate_suffix ++ "." ++ ext)))).
Proof.
  intros Hcfg Hi Hfd Hname Hsuffix.
  apply Nat.eqb_neq in Hi.
  assert (E : get_new_file_name find_studio cfg hops scene_data file_data i
              = (let? spliced := splice_suffix file_name duplicate_suffix in
                 Ok (JStr (tidy_file_name cfg spliced)))).
  { unfold get_new_file_name, format_file_name.
    rewrite Hcfg, Hfd; simpl negb; cbv iota; cbn [obind].
    rewrite Hname; cbn [obind]. rewrite Hi; simpl negb; cbv iota.
    rewrite Hsuffix; cbn [obind]. reflexivity. }
  split.
  - intros Hdot. rewrite E, (splice_suffix_no_dot _ _ Hdot). reflexivity.
  - intros base ext -> Hext. rewrite E, (splice_suffix_dot _ _ _ Hext). reflexivity.
Qed.

Lemma C10_duplicate_suffix_needs_a_dot_witness :
  get_new_file_name no_studio Demo.cfg_no_dot 0 Demo.scene_show Demo.file_raw 1
  = Raise IndexError.
Proof.
  refine (proj1 (C10_duplicate_suffix_needs_a_dot
                   no_studio Demo.cfg_no_dot 0 Demo.scene_show Demo.file_raw
                   (JObj [("id", JStr "7"); ("path", JStr "/m/raw.mp4");
                          ("basename", JStr "raw.mp4"); ("index", JNum 1)])
                   1 "Show" " (1)" eq_refl _ eq_refl eq_refl eq_refl) eq_refl).
  discriminate.
Defined.

(* ================================================================== *)
(** * The rename engine *)

Section EngineFacts.

Variable find_studio : value -> outcome value.
Variable cwd : path.
Variable World : Type.
Variable fs_exists : World -> path -> reply bool.
Variable fs_glob : World -> path -> string -> reply (list path).
Variable fs_mkdir : World -> path -> World * option string.
Variable fs_rename : World -> path -> path -> World * option string.
Variable call_move_files : World -> value -> path -> value -> World * outcome value.
Variable cfg : config.
Variable hops : nat.
Variable scene_data file_data : value.

Arguments world {World} _.
Arguments trace {World} _.
Arguments duplicate_index {World} _.

Section Frames.

Variable P : event -> bool.
Variables keep_world keep_index : bool.

Lemma only_refl (st : state World) : only P keep_world keep_index st st.
Proof.
  repeat split; try reflexivity. exists []. now rewrite app_nil_r.
Qed.

Lemma only_trans (a b c : state World) :
  only P keep_world keep_index a b -> only P keep_world keep_index b c ->
  only P keep_world keep_index a c.
Proof.
  intros (Hw & Hi & t & Ht & Pt) (Hw' & Hi' & t' & Ht' & Pt').
  split; [| split].
  - intros H. now rewrite (Hw' H), (Hw H).
  - intros H. now rewrite (Hi' H), (Hi H).
  - exists (t ++ t')%list. split.
    + now rewrite Ht', Ht, app_assoc.
    + now rewrite List.forallb_app, Pt, Pt'.
Qed.

Lemma within_ret {A : Type} (a : A) : within P keep_world keep_index (ret World a).
Proof. intros st. apply only_refl. Qed.

Lemma within_lift {A : Type} (o : outcome A) :
  within P keep_world keep_index (lift World o).
Proof. intros st. apply only_refl. Qed.

Lemma within_bind {A B : Type} (m : M World A) (k : A -> M World B) :
  within P keep_world keep_index m ->
  (forall a, within P keep_world keep_index (k a)) ->
  within P keep_world keep_index (mbind World m k).
Proof.
  intros Hm Hk st. unfold mbind. specialize (Hm st).
  destruct (m st) as [[a | e |] st']; simpl in *; try exact Hm.
  eapply only_trans; [exact Hm | apply Hk].
Qed.

Lemma within_emit (e : event) :
  P e = true -> within P keep_world keep_index (emit World e).
Proof.
  intros He st. repeat split; simpl; try reflexivity.
  exists [e]. simpl. now rewrite He.
Qed.

Lemma within_log (l : level) (msg : string) :
  P (Logged l msg) = true -> within P keep_world keep_index (log World l msg).
Proof. apply within_emit. Qed.

Lemma within_path_exists (p : path) :
  P (Exists p) = true ->
  within P keep_world keep_index (path_exists World fs_exists p).
Proof.
  intros H. apply within_bind; [now apply within_emit |].
  intros _ st. apply only_refl.
Qed.

Lemma within_glob (directory : path) (pattern : string) :
  P (Globbed directory pattern) = true ->
  within P keep_world keep_index (glob World fs_glob directory pattern).
Proof.
  intros H. apply within_bind; [now apply within_emit |].
  intros _ st. apply only_refl.
Qed.

Lemma within_get_duplicate_index :
  within P keep_world keep_index (get_duplicate_index World).
Proof. intros st. apply only_refl. Qed.

Lemma within_new_file_path :
  within P keep_world keep_index
         (new_file_path find_studio cwd World cfg hops scene_data file_data).
Proof.
  apply within_bind; [apply within_get_duplicate_index | intros i; apply within_lift].
Qed.

Lemma within_for_each {A : Type} (body : A -> M World unit) (l : list A) :
  (forall a, within P keep_world keep_index (body a)) ->
  within P keep_world keep_index (for_each World body l).
Proof.
  intros Hbody. induction l as [| a l IH]; simpl.
  - apply within_ret.
  - apply within_bind; [apply Hbody | intros _; exact IH].
Qed.

Lemma within_mkdir (p : path) :
  keep_world = false -> P (Mkdir p) = true ->
  within P keep_world keep_index (mkdir World fs_mkdir p).
Proof.
  intros Hw H. apply within_bind; [now apply within_emit |].
  intros _ st. unfold only. cbv beta.
  destruct (fs_mkdir (world st) p) as [w err]. simpl. repeat split; try congruence.
  exists []. now rewrite app_nil_r.
Qed.

Lemma within_try_rename (source target : path) :
  keep_world = false -> P (Renamed source target) = true ->
  within P keep_world keep_index (try_rename World fs_rename source target).
Proof.
  intros Hw H. apply within_bind; [now apply within_emit |].
  intros _ st. unfold only. cbv beta.
  destruct (fs_rename (world st) source target) as [w err]. simpl. repeat split; try congruence.
  exists []. now rewrite app_nil_r.
Qed.

Lemma within_move_files (id : value) (folder : path) (basename : value) :
  keep_world = false -> P (MoveFiles id folder basename) = true ->
  within P keep_world keep_index
         (move_files World call_move_files id folder basename).
Proof.
  intros Hw H. apply within_bind; [now apply within_emit |].
  intros _ st. unfold only. cbv beta.
  destruct (call_move_files (world st) id folder basename) as [w r]. simpl.
  repeat split; try congruence.
  exists []. now rewrite app_nil_r.
Qed.

Lemma within_increment :
  keep_index = false ->
  within P keep_world keep_index (increment_duplicate_index World).
Proof.
  intros Hi st. unfold only; simpl. repeat split; try congruence.
  exists []. now rewrite app_nil_r.
Qed.

End Frames.

Ltac frame_side := solve [reflexivity | auto].

Ltac frame :=
  repeat first
    [ apply within_ret
    | apply within_lift
    | apply within_log; frame_side
    | apply within_path_exists; frame_side
    | apply within_glob; frame_side
    | apply within_get_duplicate_index
    | apply within_new_file_path
    | apply within_increment; frame_side
    | apply within_mkdir; frame_side
    | apply within_try_rename; frame_side
    | apply within_move_files; frame_side
    | apply within_bind; [| intros ?]
    | match goal with
      | |- within _ _ _ (if ?b then _ else _) => destruct b
      | |- within _ _ _ (match ?x with _ => _ end) => destruct x
      end ].

Local Abbreviation related_file_step :=
  (rename_related_file World fs_exists fs_mkdir fs_rename).
Local Abbreviation related_files :=
  (rename_related_files World fs_exists fs_glob fs_mkdir fs_rename cfg).
Local Abbreviation loop :=
  (collision_loop find_studio cwd World fs_exists cfg hops scene_data file_data).
Local Abbreviation run_rename_file :=
  (rename_file find_studio cwd World fs_exists fs_glob fs_mkdir fs_rename
               call_move_files cfg hops scene_data file_data).
Local Abbreviation commit :=
  (commit_rename find_studio cwd World fs_exists fs_glob fs_mkdir fs_rename
                 call_move_files cfg hops scene_data file_data).
Local Abbreviation candidate :=
  (get_new_file_path find_studio cwd cfg hops scene_data file_data).

(** A dry run of the related files asks and logs, nothing else. *)
Lemma within_related_file_dry (new_directory new_path related_file : path) :
  within is_log_or_query true true
         (related_file_step new_directory new_path true related_file).
Proof. unfold rename_related_file. frame. Qed.

Lemma within_related_files_dry (old_path new_path : path) :
  within is_log_or_query true true (related_files old_path new_path true).
Proof.
  unfold rename_related_files. frame.
  apply within_for_each. intros r. apply within_related_file_dry.
Qed.

(** Whatever the mode, the related files are handled without the catalog
    and without a change of the duplicate index. *)
Lemma within_related_file (P : event -> bool) (dry : bool)
      (new_directory new_path related_file : path) :
  (forall e, is_not_move e = true -> P e = true) ->
  within P false true (related_file_step new_directory new_path dry related_file).
Proof. intros HP. unfold rename_related_file. frame. Qed.

Lemma within_related_files (P : event -> bool) (dry : bool) (old_path new_path : path) :
  (forall e, is_not_move e = true -> P e = true) ->
  within P false true (related_files old_path new_path dry).
Proof.
  intros HP. unfold rename_related_files. frame.
  apply within_for_each. intros r. now apply within_related_file.
Qed.

(** The collision loop asks, logs and counts; the world is not touched. *)
Lemma within_collision_loop (fuel : nat) :
  forall old_path new_path,
    within is_log_or_exists true false (loop fuel old_path new_path).
Proof.
  induction fuel as [| fuel IH]; intros old_path new_path; simpl; frame.
  apply IH.
Qed.

Lemma only_weaken (P Q : event -> bool) (w w' i i' : bool) (a b : state World) :
  (forall e, P e = true -> Q e = true) ->
  (w' = true -> w = true) -> (i' = true -> i = true) ->
  only P w i a b -> only Q w' i' a b.
Proof.
  intros HPQ Hw Hi (H1 & H2 & t & Ht & Pt). repeat split; auto.
  exists t. split; [exact Ht |].
  rewrite forallb_forall in *. auto.
Qed.

Lemma within_weaken {A : Type} (P Q : event -> bool) (w w' i i' : bool) (m : M World A) :
  (forall e, P e = true -> Q e = true) ->
  (w' = true -> w = true) -> (i' = true -> i = true) ->
  within P w i m -> within Q w' i' m.
Proof. intros HPQ Hw Hi H st. eapply only_weaken; eauto. Qed.

(** C5.  With the dry-run flag set, a run of [rename_file], however it
    ends, leaves the disk and the catalog as they were, and all it does is
    log, test existence and list siblings: no [MoveFiles], no [Mkdir], no
    [Renamed]. *)
Theorem C5_dry_run_mutates_nothing (fuel : nat) (st : state World) :
  dry_run cfg = true ->
  world (snd (run_rename_file fuel st)) = world st
  /\ exists t, trace (snd (run_rename_file fuel st)) = (trace st ++ t)%list
               /\ forallb is_log_or_query t = true.
Proof.
  intros Hdry.
  assert (H : within is_log_or_query true false (run_rename_file fuel)).
  { unfold rename_file, commit_rename. rewrite Hdry. frame.
    - eapply within_weaken; [| | | apply within_collision_loop]; auto.
      intros [] He; simpl in *; congruence.
    - eapply within_weaken; [| | | apply within_related_files_dry]; auto. }
  destruct (H st) as (Hw & _ & Ht). split; [now apply Hw | exact Ht].
Qed.

Section Convergence.

(** The candidates below index [k] are other files on disk; the candidate
    at [k] is free, or is the old path itself. *)
Variable w0 : World.
Variable old_path : path.
Variable k : nat.
Variable ck : path.
Hypothesis Htaken :
  forall i, i < k ->
    exists c, candidate i = Ok c /\ c <> old_path /\ fs_exists w0 c = Returned true.
Hypothesis Hk : candidate k = Ok ck.
Hypothesis Hend : ck = old_path \/ fs_exists w0 ck = Returned false.

Lemma collision_loop_converges :
  forall d j c st fuel,
    world st = w0 -> duplicate_index st = j -> j + d = k ->
    candidate j = Ok c -> c <> old_path -> d <= fuel ->
    fst (loop fuel old_path c st) = Ok (if Path.eqb old_path ck then None else Some ck)
    /\ duplicate_index (snd (loop fuel old_path c st)) = k.
Proof.
  induction d as [| d IH]; intros j c st fuel Hw Hj Hjk Hc Hne Hfuel.
  - assert (j = k) by lia. subst j. rewrite <- H in Hk.
    rewrite Hk in Hc. injection Hc as <-.
    destruct Hend as [-> | Hfree]; [contradiction |].
    assert (E : Path.eqb old_path ck = false) by (apply path_eqb_neq; congruence).
    rewrite E.
    destruct fuel; simpl; unfold mbind, path_exists, emit, mbind; simpl;
      rewrite Hw, Hfree; simpl; auto.
  - destruct fuel as [| fuel]; [lia |].
    destruct (Htaken j ltac:(lia)) as (c' & Hc' & _ & Hex).
    rewrite Hc in Hc'. injection Hc' as <-.
    assert (Hnext : exists c2, candidate (S j) = Ok c2
                               /\ (c2 = old_path -> S j = k /\ ck = old_path)).
    { destruct (Nat.eq_dec (S j) k) as [E | E].
      - exists ck. rewrite E. split; [exact Hk | auto].
      - destruct (Htaken (S j) ltac:(lia)) as (c2 & Hc2 & Hne2 & _).
        exists c2. split; [exact Hc2 | contradiction]. }
    destruct Hnext as (c2 & Hc2 & Hsame).
    simpl.
    unfold mbind, path_exists, emit, increment_duplicate_index, get_duplicate_index,
      log, emit, new_file_path, lift, mbind, get_duplicate_index; cbn.
    rewrite Hw, Hex; cbn. rewrite Hj, Hc2; cbn.
    destruct (Path.eqb old_path c2) eqn:E.
    + apply path_eqb_eq in E. symmetry in E. destruct (Hsame E) as [Hkj Hck].
      simpl. subst ck. rewrite path_eqb_refl. auto.
    + apply path_eqb_neq in E.
      apply (IH (S j)); simpl; try assumption; try reflexivity; try lia.
      intros Hc2'. apply E. now symmetry.
Qed.

(** A run of [rename_file] on such candidates, from a fresh object whose
    file is on disk and is not the first candidate: the loop stops at index
    [k] after existence tests and log lines only; the run ends there when
    the candidate is the old path, and goes on to the move otherwise. *)
Lemma rename_file_after_loop (st : state World) (fuel : nat) :
  get_old_file_path cwd file_data = Ok old_path ->
  world st = w0 -> duplicate_index st = 0 -> k <= fuel ->
  fs_exists w0 old_path = Returned true ->
  (k = 0 -> ck <> old_path) ->
  exists st_loop,
    only is_log_or_exists true false st st_loop
    /\ duplicate_index st_loop = k
    /\ run_rename_file fuel st
       = if Path.eqb old_path ck then (Ok tt, st_loop) else commit old_path ck st_loop.
Proof.
  intros Hold Hw Hi Hfuel Hdisk Hfirst.
  assert (H0 : exists c0, candidate 0 = Ok c0 /\ c0 <> old_path).
  { destruct k as [| k'] eqn:Ek.
    - exists ck. split; [exact Hk | now apply Hfirst].
    - destruct (Htaken 0 ltac:(lia)) as (c0 & Hc0 & Hne & _). eauto. }
  destruct H0 as (c0 & Hc0 & Hne0).
  assert (E0 : Path.eqb old_path c0 = false) by (apply path_eqb_neq; congruence).
  unfold rename_file, new_file_path, path_exists, log, emit, get_duplicate_index,
    lift, mbind.
  rewrite Hold, Hi, Hc0. cbn -[collision_loop commit_rename].
  rewrite Hw, Hdisk. cbn -[collision_loop commit_rename].
  rewrite E0.
  match goal with
  | |- context [collision_loop _ _ _ _ _ _ _ _ _ _ _ ?s] => set (st2 := s)
  end.
  pose proof (within_collision_loop fuel old_path c0 st2) as Hframe.
  destruct (collision_loop_converges k 0 c0 st2 fuel eq_refl eq_refl
              ltac:(lia) Hc0 Hne0 Hfuel) as [Hres Hidx].
  destruct (loop fuel old_path c0 st2) as [r st3]. simpl in Hres, Hidx, Hframe.
  subst r. exists st3. split; [| split; [exact Hidx |]].
  - eapply only_trans; [| exact Hframe].
    repeat split; try (simpl; congruence).
    eexists. split; [subst st2; simpl; rewrite <- app_assoc; reflexivity | reflexivity].
  - destruct (Path.eqb old_path ck); reflexivity.
Qed.

End Convergence.

Lemma within_commit (old_path new_path : path) :
  within any_event false true (commit old_path new_path).
Proof.
  unfold commit_rename. frame; apply within_related_files; auto.
Qed.

Lemma in_trace_bind {A B : Type} (m : M World A) (k : A -> M World B)
      (st st1 : state World) (a : A) (e : event) :
  m st = (Ok a, st1) ->
  In e (trace (snd (k a st1))) ->
  In e (trace (snd (mbind World m k st))).
Proof. intros Hm Hin. unfold mbind. now rewrite Hm. Qed.

Lemma in_trace_stays {A : Type} (m : M World A) (st : state World) (e : event) :
  within any_event false true m ->
  In e (trace st) -> In e (trace (snd (m st))).
Proof.
  intros Hm Hin. destruct (Hm st) as (_ & _ & t & -> & _).
  apply in_or_app. now left.
Qed.

(** The line logged first by [commit_rename] is in the trace at the end,
    and the duplicate index is as before. *)
Lemma commit_logs (old_path new_path : path) (st : state World) :
  duplicate_index (snd (commit old_path new_path st)) = duplicate_index st
  /\ In (Logged Info ("Renaming file from " ++ Path.str old_path
                      ++ " to " ++ Path.str new_path))
        (trace (snd (commit old_path new_path st))).
Proof.
  split.
  - now apply (within_commit old_path new_path st).
  - unfold commit_rename. eapply in_trace_bind; [reflexivity |].
    apply in_trace_stays.
    + frame; apply within_related_files; auto.
    + simpl. apply in_or_app. right. now left.
Qed.

Lemma in_trace_move (id : value) (folder : path) (name : value)
      (rest : value -> M World unit) (st : state World) :
  (forall a, within any_event false true (rest a)) ->
  In (MoveFiles id folder name)
     (trace (snd (mbind World (move_files World call_move_files id folder name) rest st))).
Proof.
  intros Hrest. unfold move_files, mbind, emit. cbn [world trace duplicate_index].
  destruct (call_move_files (world st) id folder name) as [w [a | err |]].
  - apply in_trace_stays; [apply Hrest |].
    simpl. apply in_or_app. right. now left.
  - simpl. apply in_or_app. right. now left.
  - simpl. apply in_or_app. right. now left.
Qed.

(** Outside a dry run, with an identifier in the file record, the mutation
    is sent with the folder and the name of the current duplicate index. *)
Lemma commit_moves (old_path new_path folder : path) (id name : value)
      (st : state World) :
  dry_run cfg = false ->
  Py.index file_data "id" = Ok id ->
  get_new_file_folder find_studio cwd cfg hops scene_data file_data = Ok folder ->
  get_new_file_name find_studio cfg hops scene_data file_data (duplicate_index st)
  = Ok name ->
  In (MoveFiles id folder name) (trace (snd (commit old_path new_path st))).
Proof.
  intros Hdry Hid Hfolder Hname.
  unfold commit_rename. rewrite Hdry, Hid, Hfolder.
  eapply in_trace_bind; [reflexivity |].
  eapply in_trace_bind; [reflexivity |].
  eapply in_trace_bind; [reflexivity |].
  eapply in_trace_bind; [reflexivity |].
  eapply in_trace_bind; [unfold lift; cbn [duplicate_index]; rewrite Hname; reflexivity |].
  apply in_trace_move. intros a. frame; apply within_related_files; auto.
Qed.

(** C2.  A fresh [StashFile] whose file is on disk, whose candidates of
    index 0 and 1 are other files on disk and whose candidate of index 2 is
    free: [rename_file] leaves the loop with [duplicate_index = 2] and goes
    on with the third candidate (it logs the rename to it and, outside a dry
    run, sends the mutation with the folder and name of index 2); that
    candidate is the folder joined with the name formatted at index 2, the
    suffix formatted at index 2 sitting before its last dot. *)
Theorem C2_third_candidate_after_two_collisions
        (st : state World) (fuel : nat) (old_path c0 c1 c2 : path) :
  duplicate_index st = 0 ->
  get_old_file_path cwd file_data = Ok old_path ->
  fs_exists (world st) old_path = Returned true ->
  candidate 0 = Ok c0 -> candidate 1 = Ok c1 -> candidate 2 = Ok c2 ->
  c0 <> old_path -> c1 <> old_path -> c2 <> old_path ->
  fs_exists (world st) c0 = Returned true ->
  fs_exists (world st) c1 = Returned true ->
  fs_exists (world st) c2 = Returned false ->
  2 <= fuel ->
  duplicate_index (snd (run_rename_file fuel st)) = 2
  /\ In (Logged Info ("Renaming file from " ++ Path.str old_path
                      ++ " to " ++ Path.str c2))
        (trace (snd (run_rename_file fuel st)))
  /\ (exists folder file_data' file_name suffix base ext,
         get_new_file_folder find_studio cwd cfg hops scene_data file_data = Ok folder
         /\ indexed_file_data file_data 2 = Ok file_data'
         /\ apply_format find_studio hops (default_file_name_format cfg)
                         scene_data file_data' = Ok file_name
         /\ apply_format find_studio hops (duplicate_file_suffix cfg)
                         scene_data file_data' = Ok suffix
         /\ file_name = base ++ "." ++ ext /\ Str.mem "." ext = false
         /\ c2 = Path.join folder
                           (Path.of_string
                              (tidy_file_name cfg (base ++ suffix ++ "." ++ ext))))
  /\ (dry_run cfg = false ->
      forall id, Py.index file_data "id" = Ok id ->
      exists folder name,
        get_new_file_folder find_studio cwd cfg hops scene_data file_data = Ok folder
        /\ get_new_file_name find_studio cfg hops scene_data file_data 2 = Ok name
        /\ In (MoveFiles id folder name) (trace (snd (run_rename_file fuel st)))).
Proof.
  intros Hi Hold Hdisk H0 H1 H2 Hn0 Hn1 Hn2 He0 He1 He2 Hfuel.
  assert (Htaken : forall i, i < 2 ->
            exists c, candidate i = Ok c /\ c <> old_path /\ fs_exists (world st) c = Returned true).
  { intros [| [| i]] Hlt; [eauto | eauto | lia]. }
  destruct (rename_file_after_loop (world st) old_path 2 c2 Htaken H2 (or_intror He2)
              st fuel Hold eq_refl Hi Hfuel Hdisk ltac:(discriminate))
    as (st_loop & _ & Hidx & Hrun).
  assert (E : Path.eqb old_path c2 = false) by (apply path_eqb_neq; congruence).
  rewrite E in Hrun. rewrite Hrun.
  destruct (commit_logs old_path c2 st_loop) as [Hkeep Hlog].
  (* the candidate of index 2, taken apart *)
  pose proof H2 as Hparts. unfold get_new_file_path in Hparts.
  destruct (get_new_file_folder find_studio cwd cfg hops scene_data file_data)
    as [folder | |] eqn:Hfolder; cbn [obind] in Hparts; try discriminate.
  destruct (get_new_file_name find_studio cfg hops scene_data file_data 2)
    as [name | |] eqn:Hname; cbn [obind] in Hparts; try discriminate.
  split; [now rewrite Hkeep | split; [exact Hlog | split]].
  - assert (Hcfg : configured (default_file_name_format cfg) = true).
    { destruct (configured (default_file_name_format cfg)) eqn:Hc; [reflexivity |].
      exfalso.
      assert (Esame : candidate 0 = candidate 2).
      { unfold get_new_file_path.
        now rewrite (get_new_file_name_unconfigured find_studio cfg hops scene_data
                       file_data 0 2 Hc). }
      rewrite H0, H2 in Esame. injection Esame as ->. congruence. }
    destruct (get_new_file_name_spliced find_studio cfg hops scene_data file_data 2 name
                Hcfg ltac:(discriminate) Hname)
      as (fd & fname & suffix & base & ext & Hfd & Hfmt & Hsuf & Hsplit & Hext & ->).
    injection Hparts as <-.
    exists folder, fd, fname, suffix, base, ext. auto 10.
  - intros Hdry id Hid. exists folder, name. repeat split.
    apply commit_moves; try assumption. now rewrite Hidx.
Qed.

(** C6.  When the path computed at some duplicate index is the old path,
    the candidates before it being other files on disk, [rename_file]
    returns normally (the existence test of the old path having answered;
    what that test raises is raised), the world is as it was, and nothing
    but existence tests and log lines happened: no [MoveFiles], no
    [Globbed], no [Mkdir], no [Renamed]. *)
Theorem C6_same_path_is_a_no_op
        (st : state World) (fuel k : nat) (old_path : path) :
  duplicate_index st = 0 ->
  get_old_file_path cwd file_data = Ok old_path ->
  (forall i, i < k ->
     exists c, candidate i = Ok c /\ c <> old_path /\ fs_exists (world st) c = Returned true) ->
  candidate k = Ok old_path ->
  k <= fuel ->
  ((exists b, fs_exists (world st) old_path = Returned b) ->
   fst (run_rename_file fuel st) = Ok tt)
  /\ (forall e, fs_exists (world st) old_path = Raised e ->
                fst (run_rename_file fuel st) = Raise e)
  /\ world (snd (run_rename_file fuel st)) = world st
  /\ exists t, trace (snd (run_rename_file fuel st)) = (trace st ++ t)%list
               /\ forallb is_log_or_exists t = true.
Proof.
  intros Hi Hold Htaken Hk Hfuel.
  assert (H0 : exists c0, candidate 0 = Ok c0 /\ (k = 0 -> c0 = old_path)).
  { destruct k as [| k'].
    - exists old_path. auto.
    - destruct (Htaken 0 ltac:(lia)) as (c0 & Hc0 & _). exists c0. split; [exact Hc0 | lia]. }
  destruct H0 as (c0 & Hc0 & Hzero).
  destruct (fs_exists (world st) old_path) as [[|] | e0] eqn:Hdisk.
  - destruct k as [| k'] eqn:Ek.
    + rewrite (Hzero eq_refl) in Hc0.
      unfold rename_file, new_file_path, path_exists, log, emit, get_duplicate_index,
        lift, mbind.
      rewrite Hold, Hi, Hc0. cbn -[collision_loop commit_rename].
      rewrite Hdisk. cbn -[collision_loop commit_rename].
      rewrite path_eqb_refl. cbn.
      repeat split; try discriminate.
      eexists. split; [rewrite <- app_assoc; reflexivity | reflexivity].
    + destruct (rename_file_after_loop (world st) old_path (S k') old_path Htaken Hk
                  (or_introl eq_refl) st fuel Hold eq_refl Hi Hfuel Hdisk
                  ltac:(discriminate))
        as (st_loop & (Hw & _ & Ht) & _ & Hrun).
      rewrite path_eqb_refl in Hrun. rewrite Hrun. simpl.
      split; [reflexivity | split; [discriminate | split; [now apply Hw | exact Ht]]].
  - unfold rename_file, new_file_path, path_exists, log, emit, get_duplicate_index,
      lift, mbind.
    rewrite Hold, Hi, Hc0. cbn -[collision_loop commit_rename].
    rewrite Hdisk. cbn.
    repeat split; try discriminate.
    eexists. split; [rewrite <- app_assoc; reflexivity | reflexivity].
  - unfold rename_file, new_file_path, path_exists, log, emit, get_duplicate_index,
      lift, mbind.
    rewrite Hold, Hi, Hc0. cbn -[collision_loop commit_rename].
    rewrite Hdisk. cbn.
    split; [intros [b Hb]; discriminate Hb |].
    split; [intros e He; now injection He as -> |].
    split; [reflexivity |]. exists [Exists old_path]. split; reflexivity.
Qed.

Section RelatedFiles.

Variables new_directory new_path : path.

Local Abbreviation step := (related_file_step new_directory new_path false).
Local Abbreviation target r :=
  (Path.join new_directory (Path.of_string (Path.stem new_path ++ Path.suffix r))).

(** The step for a sibling whose target differs and is free, when the
    directory is made: the renaming is attempted, and whether it fails or
    not the step returns. *)
Lemma related_file_renamed (r : path) (st : state World) (w1 w2 : World)
      (err : option string) :
  r <> target r ->
  fs_exists (world st) (target r) = Returned false ->
  fs_mkdir (world st) (Path.parent (target r)) = (w1, None) ->
  fs_rename w1 r (target r) = (w2, err) ->
  step r st
  = (Ok tt,
     MkState World w2
       (trace st
        ++ [ Exists (target r);
             Logged Info ("Renaming related file from " ++ Path.str r
                          ++ " to " ++ Path.str (target r));
             Mkdir (Path.parent (target r));
             Renamed r (target r) ]
        ++ match err with
           | Some msg =>
               [ Logged Error ("Failed to rename related file from " ++ Path.str r
                               ++ " to " ++ Path.str (target r) ++ ": " ++ msg) ]
           | None => []
           end)%list
       (duplicate_index st)).
Proof.
  intros Hne Hfree Hmk Hrn. unfold rename_related_file.
  assert (E : Path.eqb r (target r) = false) by now apply path_eqb_neq.
  rewrite E.
  unfold mbind, path_exists, mkdir, try_rename, log, emit, ret, mbind.
  cbn [world trace duplicate_index fst snd]. rewrite Hfree.
  cbn [of_reply world trace duplicate_index fst snd]. rewrite Hmk.
  cbn [world trace duplicate_index fst snd]. rewrite Hrn.
  destruct err; cbn [world trace duplicate_index fst snd]; now rewrite <- !app_assoc.
Qed.

(** The same step when the directory cannot be made: the error is raised. *)
Lemma related_file_mkdir_fails (r : path) (st : state World) (w1 : World) (msg : string) :
  r <> target r ->
  fs_exists (world st) (target r) = Returned false ->
  fs_mkdir (world st) (Path.parent (target r)) = (w1, Some msg) ->
  step r st
  = (Raise (OSError msg),
     MkState World w1
       (trace st
        ++ [ Exists (target r);
             Logged Info ("Renaming related file from " ++ Path.str r
                          ++ " to " ++ Path.str (target r));
             Mkdir (Path.parent (target r)) ])%list
       (duplicate_index st)).
Proof.
  intros Hne Hfree Hmk. unfold rename_related_file.
  assert (E : Path.eqb r (target r) = false) by now apply path_eqb_neq.
  rewrite E.
  unfold mbind, path_exists, mkdir, try_rename, log, emit, ret, mbind.
  cbn [world trace duplicate_index fst snd]. rewrite Hfree.
  cbn [of_reply world trace duplicate_index fst snd]. rewrite Hmk.
  cbn [world trace duplicate_index fst snd]. now rewrite <- !app_assoc.
Qed.

(** And when the existence test of the target raises. *)
Lemma related_file_test_raises (r : path) (st : state World) (e : exn) :
  r <> target r ->
  fs_exists (world st) (target r) = Raised e ->
  step r st = (Raise e, after_calls st [Exists (target r)]).
Proof.
  intros Hne Hex. unfold rename_related_file.
  assert (E : Path.eqb r (target r) = false) by now apply path_eqb_neq.
  rewrite E.
  unfold mbind, path_exists, emit, mbind.
  cbn [world trace duplicate_index fst snd]. now rewrite Hex.
Qed.

Lemma for_each_reached {A : Type} (body : A -> M World unit) (l1 l2 : list A)
      (st : state World) :
  fst (for_each World body l1 st) = Ok tt ->
  for_each World body (l1 ++ l2)%list st
  = for_each World body l2 (snd (for_each World body l1 st)).
Proof.
  revert st. induction l1 as [| a l1 IH]; intros st; cbn [for_each app]; [reflexivity |].
  unfold mbind. destruct (body a st) as [[[] | e |] st1]; cbn [fst snd];
    try discriminate.
  apply IH.
Qed.

Lemma for_each_stops {A : Type} (body : A -> M World unit) (a : A) (l : list A)
      (st st1 : state World) (e : exn) :
  body a st = (Raise e, st1) ->
  for_each World body (a :: l) st = (Raise e, st1).
Proof. intros H. cbn [for_each]. unfold mbind. now rewrite H. Qed.

Lemma for_each_next {A : Type} (body : A -> M World unit) (a : A) (l : list A)
      (st st1 : state World) :
  body a st = (Ok tt, st1) ->
  for_each World body (a :: l) st = for_each World body l st1.
Proof. intros H. cbn [for_each]. unfold mbind. now rewrite H. Qed.

End RelatedFiles.

(** [rename_related_files], once the siblings are listed. *)
Lemma related_files_listed (old_path new_path : path) (dry : bool)
      (found : list path) (st : state World) :
  rename_related_files_enabled cfg = true ->
  fs_glob (world st) (Path.parent old_path) (Path.stem old_path ++ ".*") = Returned found ->
  related_files old_path new_path dry st
  = for_each World (related_file_step (Path.parent new_path) new_path dry)
             (List.filter (fun p => negb (Path.eqb p old_path)) found)
             (after_calls st [Globbed (Path.parent old_path) (Path.stem old_path ++ ".*")]).
Proof.
  intros Hon Hglob. unfold rename_related_files. rewrite Hon. cbn [negb].
  unfold mbind at 1. unfold glob, mbind, emit.
  cbn [world trace duplicate_index fst snd]. now rewrite Hglob.
Qed.

(** C7, amended.  Outside a dry run, with the siblings listed and the loop
    arrived at the sibling [r], whose target differs from it: when the
    target is reported free and its directory is made, the renaming of [r]
    is attempted, and whether it fails or not [rename_related_files] goes on
    with the remaining siblings, a failure leaving one error line in the
    log; when the making of the directory or the existence test of the
    target raises, the error is not caught: [rename_related_files] raises it
    and the remaining siblings are not looked at.  The catalog is never
    called. *)
Theorem C7_related_file_failure_is_isolated
        (old_path new_path : path) (found pre post : list path) (r : path)
        (st : state World) :
  let step := related_file_step (Path.parent new_path) new_path false in
  let target_path :=
    Path.join (Path.parent new_path)
              (Path.of_string (Path.stem new_path ++ Path.suffix r)) in
  let listed :=
    after_calls st [Globbed (Path.parent old_path) (Path.stem old_path ++ ".*")] in
  let st_pre := snd (for_each World step pre listed) in
  rename_related_files_enabled cfg = true ->
  fs_glob (world st) (Path.parent old_path) (Path.stem old_path ++ ".*") = Returned found ->
  List.filter (fun p => negb (Path.eqb p old_path)) found = (pre ++ r :: post)%list ->
  fst (for_each World step pre listed) = Ok tt ->
  r <> target_path ->
  (forall w1 w2 err,
      fs_exists (world st_pre) target_path = Returned false ->
      fs_mkdir (world st_pre) (Path.parent target_path) = (w1, None) ->
      fs_rename w1 r target_path = (w2, err) ->
      related_files old_path new_path false st
      = for_each World step post
          (MkState World w2
             (trace st_pre
              ++ [ Exists target_path;
                   Logged Info ("Renaming related file from " ++ Path.str r
                                ++ " to " ++ Path.str target_path);
                   Mkdir (Path.parent target_path);
                   Renamed r target_path ]
              ++ match err with
                 | Some msg =>
                     [ Logged Error ("Failed to rename related file from "
                                     ++ Path.str r ++ " to " ++ Path.str target_path
                                     ++ ": " ++ msg) ]
                 | None => []
                 end)%list
             (duplicate_index st_pre)))
  /\ (forall w1 msg,
         fs_exists (world st_pre) target_path = Returned false ->
         fs_mkdir (world st_pre) (Path.parent target_path) = (w1, Some msg) ->
         related_files old_path new_path false st
         = (Raise (OSError msg),
            MkState World w1
              (trace st_pre
               ++ [ Exists target_path;
                    Logged Info ("Renaming related file from " ++ Path.str r
                                 ++ " to " ++ Path.str target_path);
                    Mkdir (Path.parent target_path) ])%list
              (duplicate_index st_pre)))
  /\ (forall e,
         fs_exists (world st_pre) target_path = Raised e ->
         related_files old_path new_path false st
         = (Raise e, after_calls st_pre [Exists target_path]))
  /\ (exists t,
         trace (snd (related_files old_path new_path false st)) = (trace st ++ t)%list
         /\ forallb is_not_move t = true).
Proof.
  intros step target_path listed st_pre Hon Hglob Hlist Hpre Hne.
  assert (Hrun : related_files old_path new_path false st
                 = for_each World step (r :: post) st_pre).
  { rewrite (related_files_listed old_path new_path false found st Hon Hglob), Hlist.
    now apply for_each_reached. }
  split; [| split; [| split]].
  - intros w1 w2 err Hfree Hmk Hrn. rewrite Hrun.
    apply for_each_next. now apply (related_file_renamed _ _ r st_pre w1 w2 err).
  - intros w1 msg Hfree Hmk. rewrite Hrun.
    apply for_each_stops. now apply (related_file_mkdir_fails _ _ r st_pre w1 msg).
  - intros e Hex. rewrite Hrun.
    apply for_each_stops. now apply related_file_test_raises.
  - destruct (within_related_files is_not_move false old_path new_path
                (fun e H => H) st) as (_ & _ & Ht).
    exact Ht.
Qed.

End EngineFacts.

(* ================================================================== *)
(** * The engine on the small disk *)

Lemma C2_third_candidate_after_two_collisions_witness :
  duplicate_index Demo.disk
    (snd (Demo.run (Demo.p "/m/raw.mp4") Demo.cfg_title Demo.scene_show Demo.file_raw
                   5 Demo.crowded)) = 2.
Proof.
  refine (proj1 (C2_third_candidate_after_two_collisions
                   no_studio Demo.cwd Demo.disk Demo.test Demo.listing Demo.make_dirs
                   Demo.move (Demo.catalog_move (Demo.p "/m/raw.mp4"))
                   Demo.cfg_title 0 Demo.scene_show Demo.file_raw
                   (init Demo.disk Demo.crowded) 5
                   (Demo.p "/m/raw.mp4") (Demo.p "/m/Show.mp4")
                   (Demo.p "/m/Show (1).mp4") (Demo.p "/m/Show (2).mp4")
                   eq_refl eq_refl eq_refl eq_refl eq_refl eq_refl _ _ _
                   eq_refl eq_refl eq_refl _));
    [ intros H; vm_compute in H; discriminate H
    | intros H; vm_compute in H; discriminate H
    | intros H; vm_compute in H; discriminate H
    | lia ].
Defined.

Lemma C5_dry_run_mutates_nothing_witness :
  world Demo.disk
    (snd (Demo.run (Demo.p "/m/raw.mp4") Demo.cfg_dry Demo.scene_show Demo.file_raw
                   5 Demo.crowded)) = Demo.crowded.
Proof.
  exact (proj1 (C5_dry_run_mutates_nothing
                  no_studio Demo.cwd Demo.disk Demo.test Demo.listing Demo.make_dirs
                  Demo.move (Demo.catalog_move (Demo.p "/m/raw.mp4"))
                  Demo.cfg_dry 0 Demo.scene_show Demo.file_raw 5
                  (init Demo.disk Demo.crowded) eq_refl)).
Defined.

Lemma C6_same_path_is_a_no_op_witness :
  fst (Demo.run (Demo.p "/m/Show (1).mp4") Demo.cfg_title Demo.scene_show Demo.file_dup
                5 Demo.crowded) = Ok tt.
Proof.
  refine (proj1 (C6_same_path_is_a_no_op
                   no_studio Demo.cwd Demo.disk Demo.test Demo.listing Demo.make_dirs
                   Demo.move (Demo.catalog_move (Demo.p "/m/Show (1).mp4"))
                   Demo.cfg_title 0 Demo.scene_show Demo.file_dup
                   (init Demo.disk Demo.crowded) 5 1 (Demo.p "/m/Show (1).mp4")
                   eq_refl eq_refl _ eq_refl _) (ex_intro _ true eq_refl)); [| lia].
  intros i Hi. assert (i = 0) as -> by lia.
  exists (Demo.p "/m/Show.mp4"). split; [reflexivity | split; [| reflexivity]].
  intros H; vm_compute in H; discriminate H.
Defined.

(** C7 as stated fails: with the queries answering, a directory that
    cannot be made ends the loop on an [OSError]. *)
Lemma C7_mkdir_failure_aborts_the_loop :
  ~ (forall (World : Type)
            (fs_exists : World -> path -> reply bool)
            (fs_glob : World -> path -> string -> reply (list path))
            (fs_mkdir : World -> path -> World * option string)
            (fs_rename : World -> path -> path -> World * option string)
            (cfg : config) (old_path new_path : path) (st : state World),
        (forall w p, exists b, fs_exists w p = Returned b) ->
        (forall w d pat, exists l, fs_glob w d pat = Returned l) ->
        fst (rename_related_files World fs_exists fs_glob fs_mkdir fs_rename cfg
                                  old_path new_path false st) = Ok tt).
Proof.
  intros H.
  specialize (H Demo.disk Demo.test Demo.listing read_only Demo.move Demo.cfg_title
                (Demo.p "/m/raw.mp4") (Demo.p "/lib/Show.mp4")
                (init Demo.disk Demo.crowded)
                (fun w p => ex_intro _ _ eq_refl) (fun w d pat => ex_intro _ _ eq_refl)).
  vm_compute in H. discriminate H.
Qed.

Lemma C7_related_file_failure_is_isolated_witness :
  let run :=
    rename_related_files Demo.disk Demo.test Demo.listing Demo.make_dirs Demo.move
                         Demo.cfg_title (Demo.p "/m/raw.mp4") (Demo.p "/m/Show (2).mp4")
                         false (init Demo.disk Demo.crowded) in
  fst run = Ok tt
  /\ In (Logged Error "Failed to rename related file from /m/raw.srt to /m/Show (2).srt: Permission denied")
        (trace Demo.disk (snd run))
  /\ In (Renamed (Demo.p "/m/raw.jpg") (Demo.p "/m/Show (2).jpg")) (trace Demo.disk (snd run))
  /\ Demo.on_disk (world Demo.disk (snd run)) (Demo.p "/m/Show (2).jpg") = true.
Proof.
  intros run.
  pose proof (C7_related_file_failure_is_isolated
                Demo.disk Demo.test Demo.listing Demo.make_dirs Demo.move Demo.cfg_title
                (Demo.p "/m/raw.mp4") (Demo.p "/m/Show (2).mp4")
                [Demo.p "/m/raw.mp4"; Demo.p "/m/raw.srt"; Demo.p "/m/raw.jpg"]
                [] [Demo.p "/m/raw.jpg"] (Demo.p "/m/raw.srt")
                (init Demo.disk Demo.crowded)) as H.
  cbv zeta in H.
  assert (Hne : Demo.p "/m/raw.srt" <> Demo.p "/m/Show (2).srt")
    by (intros E; vm_compute in E; discriminate E).
  destruct (H eq_refl eq_refl eq_refl eq_refl Hne) as (Hgoes & _).
  specialize (Hgoes Demo.crowded Demo.crowded (Some "Permission denied")
                    eq_refl eq_refl eq_refl).
  unfold run. rewrite Hgoes. vm_compute. tauto.
Defined.

(* ================================================================== *)
(** * Further properties of the formatter *)

Section FormatterMore.

Variable find_studio : value -> outcome value.

Lemma starts_with_mem (c : ascii) (p s : string) :
  Str.starts_with p s = true -> Str.mem c p = true -> Str.mem c s = true.
Proof.
  revert s. induction p as [| a p IH]; intros s Hp Hc; simpl in *; [discriminate |].
  destruct s as [| b s]; [discriminate |].
  apply andb_true_iff in Hp as [Hab Hp]. apply Ascii.eqb_eq in Hab. subst b.
  simpl. destruct (Ascii.eqb c a); [reflexivity |]. simpl in *. now apply IH.
Qed.

Lemma contains_needs (c : ascii) (needle s : string) :
  Str.mem c needle = true -> Str.mem c s = false -> Str.contains needle s = false.
Proof.
  intros Hn. induction s as [| a s IH]; intros Hs.
  - simpl. destruct (Str.starts_with needle EmptyString) eqn:E; [| reflexivity].
    now rewrite (starts_with_mem c _ _ E Hn) in Hs.
  - simpl in Hs. apply orb_false_iff in Hs as [Ha Hs].
    simpl. rewrite (IH Hs), orb_false_r.
    destruct (Str.starts_with needle (String a s)) eqn:E; [| reflexivity].
    pose proof (starts_with_mem c _ _ E Hn) as H. simpl in H. now rewrite Ha, Hs in H.
Qed.

Lemma token_has_dollar (variable : string) : Str.mem "$" (token variable) = true.
Proof. reflexivity. Qed.

Lemma present_in_none (format_template : string) (table : list (string * resolver)) :
  Str.mem "$" format_template = false -> present_in format_template table = [].
Proof.
  intros H. unfold present_in. induction (map fst table) as [| v l IH]; simpl; [reflexivity |].
  now rewrite (contains_needs "$" _ _ (token_has_dollar v) H).
Qed.

(** A match of a pattern that demands the character [c] needs [c]. *)
Lemma match_here_needs (c : ascii) (pat : Re.pattern) :
  In (Re.One (Re.chr c)) pat ->
  forall s, Str.mem c s = false -> Re.match_here pat s = None.
Proof.
  induction pat as [| [p | p] pat IH]; intros Hin s Hs; [contradiction | |].
  - destruct s as [| a s]; [reflexivity |]. rewrite match_here_one.
    simpl in Hs. apply orb_false_iff in Hs as [Ha Hs].
    destruct Hin as [E | Hin].
    + injection E as ->. unfold Re.chr. now rewrite Ha.
    + destruct (p a); [| reflexivity]. now rewrite (IH Hin s Hs).
  - destruct Hin as [E | Hin]; [discriminate |].
    induction s as [| a s IHs]; simpl.
    + now apply IH.
    + simpl in Hs. apply orb_false_iff in Hs as [Ha Hs'].
      specialize (IHs Hs'). simpl in IHs. rewrite IHs.
      assert (Hrest : Re.match_here pat (String a s) = None).
      { apply IH; [exact Hin |]. simpl. now rewrite Ha, Hs'. }
      rewrite Hrest. now destruct (p a).
Qed.

Lemma scan_needs (c : ascii) (m : string -> option nat) (repl : string -> string) :
  (forall r, Str.mem c r = false -> m r = None) ->
  forall s, Str.mem c s = false -> Str.scan m repl O s = s.
Proof.
  intros Hm. induction s as [| a s IH]; intros Hs; simpl.
  - now rewrite (Hm EmptyString).
  - rewrite (Hm _ Hs). simpl in Hs. apply orb_false_iff in Hs as [_ Hs].
    now rewrite (IH Hs).
Qed.

Lemma clean_is_filter (s : string) :
  Str.mem "$" s = false ->
  clean_optional_from_format s = Str.filter (fun c => negb (is_brace c)) s.
Proof.
  intros H. unfold clean_optional_from_format, Re.sub, Re.sub_with.
  rewrite (scan_needs "$"); [| | exact H].
  - rewrite !replace_char_filter. clear H.
    induction s as [| a s IH]; [reflexivity |].
    cbn [Str.filter]. unfold is_brace at 1.
    destruct (Ascii.eqb "{" a) eqn:E1.
    + apply Ascii.eqb_eq in E1. subst a. cbn. exact IH.
    + rewrite (Ascii.eqb_sym a "{"), E1. cbn [negb Str.filter orb].
      rewrite (Ascii.eqb_sym a "}").
      destruct (Ascii.eqb "}" a); cbn [negb]; [exact IH | now rewrite IH].
  - intros r Hr. apply (match_here_needs "$"); [| exact Hr].
    unfold optional_section. simpl. auto.
Qed.

(** X1.  A template without [$] is never substituted into nor elided: all
    it loses is its braces, whatever the records are (they are not read). *)
Theorem X1_template_without_dollar_loses_braces_only
        (hops : nat) (format_template : string) (scene_data file_data : value) :
  Str.mem "$" format_template = false ->
  apply_format find_studio hops format_template scene_data file_data
  = Ok (Str.filter (fun c => negb (is_brace c)) format_template).
Proof.
  intros H. unfold apply_format, find_variables.
  rewrite !present_in_none by exact H. simpl.
  now rewrite clean_is_filter.
Qed.

(** X3.  Cleaning twice is cleaning once. *)
Theorem X3_clean_optional_idempotent (s : string) :
  clean_optional_from_format (clean_optional_from_format s)
  = clean_optional_from_format s.
Proof.
  destruct (clean_no_braces s) as [Ho Hc]. now apply clean_without_braces.
Qed.

End FormatterMore.

Lemma X1_template_without_dollar_loses_braces_only_witness :
  apply_format no_studio 0 "{Season 1} - Pilot" JNull JNull = Ok "Season 1 - Pilot".
Proof.
  exact (X1_template_without_dollar_loses_braces_only
           no_studio 0 "{Season 1} - Pilot" JNull JNull eq_refl).
Defined.

Section ResolverMore.

Variable find_studio : value -> outcome value.

Lemma present_in_known (format_template : string) (table : list (string * resolver))
      (v : string) :
  In v (present_in format_template table) -> In v (map fst table).
Proof. unfold present_in. intros H. now apply filter_In in H. Qed.

Lemma parent_chain_loop_no_parent (fuel : nat) (fields : list (string * value))
      (acc : list value) :
  Py.lookup "parent_studio" fields = None ->
  parent_chain_loop find_studio fuel (JObj fields) acc = Ok acc.
Proof. intros H. destruct fuel; simpl; now rewrite H. Qed.

(** No variable is substituted when the records hold none of the keys. *)
Lemma substitute_one_absent (fuel : nat) (scene_data file_data : value)
      (t v : string) :
  lacks file_keys file_data -> lacks scene_keys scene_data ->
  In v (map fst FILE_VARIABLES ++ map fst (SCENE_VARIABLES find_studio))%list ->
  substitute_one find_studio fuel scene_data file_data t v = Ok t.
Proof.
  intros (ff & -> & Hf) (sf & -> & Hs) Hin.
  assert (F : forall k, In k file_keys -> Py.get (JObj ff) k (JStr EmptyString)
                                          = Ok (JStr EmptyString)).
  { intros k Hk. simpl. now rewrite (Hf k Hk). }
  assert (G : forall k d, In k scene_keys -> Py.get (JObj sf) k d = Ok d).
  { intros k d Hk. simpl. now rewrite (Hs k Hk). }
  simpl in Hin.
  repeat (destruct Hin as [<- | Hin]); try contradiction;
    unfold substitute_one;
    cbn [resolver_of FILE_VARIABLES SCENE_VARIABLES String.eqb Ascii.eqb Bool.eqb];
    unfold key_getter, ext_of, date_part, studio_name_of, endpoints_of,
      get_parent_studio_chain;
    rewrite ?F, ?G by (simpl; tauto); try reflexivity.
  cbn [obind Py.get Py.lookup].
  rewrite parent_chain_loop_no_parent by reflexivity. reflexivity.
Qed.

Lemma substitute_absent (fuel : nat) (scene_data file_data : value) (t : string)
      (variables : list string) :
  lacks file_keys file_data -> lacks scene_keys scene_data ->
  (forall v, In v variables ->
             In v (map fst FILE_VARIABLES ++ map fst (SCENE_VARIABLES find_studio))%list) ->
  substitute find_studio fuel scene_data file_data t variables = Ok t.
Proof.
  intros Hf Hs. induction variables as [| v l IH]; intros Hin; simpl; [reflexivity |].
  rewrite substitute_one_absent by (auto; apply Hin; now left). simpl.
  apply IH. intros w Hw. apply Hin. now right.
Qed.

(** X2.  On records that are objects holding none of the keys the
    variables read, no variable resolves to anything: formatting raises
    nothing, needs no fuel and no catalog lookup, and returns the template
    with its optional sections cleaned. *)
Theorem X2_missing_data_only_elides
        (hops : nat) (format_template : string) (scene_data file_data : value) :
  lacks file_keys file_data -> lacks scene_keys scene_data ->
  apply_format find_studio hops format_template scene_data file_data
  = Ok (clean_optional_from_format format_template).
Proof.
  intros Hf Hs. unfold apply_format.
  rewrite substitute_absent; try assumption; [reflexivity |].
  intros v Hv. unfold find_variables in Hv.
  apply in_app_or in Hv as [Hv | Hv]; apply in_or_app;
    [left | right]; eapply present_in_known; exact Hv.
Qed.

End ResolverMore.

Lemma X2_missing_data_only_elides_witness :
  apply_format no_studio 0 "{$studio_name$ - }untitled $title$"
               (JObj [("rating", JNum 5)]) (JObj [("size", JNum 1024)])
  = Ok "untitled $title$".
Proof.
  refine (X2_missing_data_only_elides
            no_studio 0 "{$studio_name$ - }untitled $title$"
            (JObj [("rating", JNum 5)]) (JObj [("size", JNum 1024)]) _ _).
  - eexists; split; [reflexivity |].
    intros k Hk. simpl in Hk.
    repeat (destruct Hk as [<- | Hk]; [reflexivity |]). contradiction.
  - eexists; split; [reflexivity |].
    intros k Hk. simpl in Hk.
    repeat (destruct Hk as [<- | Hk]; [reflexivity |]). contradiction.
Defined.

Section SplitFacts.

Lemma split_not_nil (sep : ascii) (s : string) : Str.split sep s <> [].
Proof.
  destruct s as [| a s]; simpl; [discriminate |].
  destruct (Ascii.eqb a sep); [discriminate |].
  destruct (Str.split sep s); discriminate.
Qed.

Lemma split_no_sep (sep : ascii) (s : string) :
  Str.mem sep s = false -> Str.split sep s = [s].
Proof.
  induction s as [| a s IH]; simpl; [reflexivity |].
  intros H. apply orb_false_iff in H as [Ha Hs].
  rewrite Ascii.eqb_sym, Ha, (IH Hs). reflexivity.
Qed.

Lemma split_app (sep : ascii) (x y : string) :
  Str.split sep (x ++ String sep y) = (Str.split sep x ++ Str.split sep y)%list.
Proof.
  induction x as [| a x IH]; simpl.
  - now rewrite Ascii.eqb_refl.
  - destruct (Ascii.eqb a sep); [now rewrite IH |].
    rewrite IH. pose proof (split_not_nil sep x) as Hx.
    destruct (Str.split sep x); [contradiction | reflexivity].
Qed.

(** The pieces of a split hold no separator. *)
Lemma split_pieces (sep : ascii) (s : string) :
  Forall (fun piece => Str.mem sep piece = false) (Str.split sep s).
Proof.
  induction s as [| a s IH]; simpl; [repeat constructor |].
  destruct (Ascii.eqb a sep) eqn:E; [constructor; [reflexivity | exact IH] |].
  destruct (Str.split sep s) as [| h t]; [repeat constructor; simpl |].
  - now rewrite Ascii.eqb_sym, E.
  - inversion IH; subst. constructor; [| assumption].
    simpl. rewrite Ascii.eqb_sym, E. assumption.
Qed.


Lemma last_item_app (l : list string) (e : string) :
  Str.last_item (l ++ [e])%list = Ok e.
Proof. unfold Str.last_item. now rewrite rev_app_distr. Qed.

End SplitFacts.

Section VariableValues.

Variable find_studio : value -> outcome value.
Variable fuel : nat.

(** X4.  The [ext] variable of a file record whose base name is the string
    [b]: the part of [b] after its last dot, and all of [b] when it has no
    dot.  A base name that is not a string makes the resolver raise
    [AttributeError]; a record without base name gives the empty string. *)
Theorem X4_ext_is_the_part_after_the_last_dot (fields : list (string * value)) :
  exists r, resolver_of "ext" FILE_VARIABLES = Some r
    /\ (forall b, Py.lookup "basename" fields = Some (JStr b) ->
          (Str.mem "." b = false -> r fuel (JObj fields) = Ok (JStr b))
          /\ (forall base e, b = base ++ "." ++ e -> Str.mem "." e = false ->
                r fuel (JObj fields) = Ok (JStr e)))
    /\ (Py.lookup "basename" fields = None -> r fuel (JObj fields) = Ok (JStr EmptyString))
    /\ (forall v, Py.lookup "basename" fields = Some v ->
          (forall b, v <> JStr b) -> r fuel (JObj fields) = Raise AttributeError).
Proof.
  exists ext_of. split; [reflexivity |]. unfold ext_of. cbn [Py.get].
  split; [| split].
  - intros b Hb. rewrite Hb. cbn [obind Py.split]. split.
    + intros Hdot. now rewrite (split_no_sep _ _ Hdot).
    + intros base e -> He.
      change (base ++ "." ++ e) with (base ++ String "."%char e).
      rewrite split_app, (split_no_sep _ _ He), last_item_app. reflexivity.
  - intros Hb. now rewrite Hb.
  - intros v Hv Hns. rewrite Hv. cbn [obind].
    destruct v; try reflexivity. now destruct (Hns s).
Qed.

(** X5.  On a date made of three parts joined by dashes, [year] is the
    first part and [month] the second; without a date, or with an empty
    one, both are the empty string. *)
Theorem X5_year_and_month_of_a_date (fields : list (string * value)) :
  exists year month,
    resolver_of "year" (SCENE_VARIABLES find_studio) = Some year
    /\ resolver_of "month" (SCENE_VARIABLES find_studio) = Some month
    /\ (forall y m d,
          Py.lookup "date" fields = Some (JStr (y ++ "-" ++ m ++ "-" ++ d)) ->
          Str.mem "-" y = false -> Str.mem "-" m = false ->
          year fuel (JObj fields) = Ok (JStr y) /\ month fuel (JObj fields) = Ok (JStr m))
    /\ (Py.lookup "date" fields = None \/ Py.lookup "date" fields = Some (JStr EmptyString) ->
          year fuel (JObj fields) = Ok (JStr EmptyString)
          /\ month fuel (JObj fields) = Ok (JStr EmptyString)).
Proof.
  exists (date_part 0), (date_part 1). split; [reflexivity | split; [reflexivity |]].
  unfold date_part. cbn [Py.get]. split.
  - intros y m d Hd Hy Hm. rewrite Hd. cbn [obind].
    assert (Ht : Py.truthy (JStr (y ++ "-" ++ m ++ "-" ++ d)) = true).
    { simpl. now destruct y. }
    rewrite Ht. cbn [Py.split obind].
    change (y ++ "-" ++ m ++ "-" ++ d)
      with (y ++ String "-"%char (m ++ String "-"%char d)).
    rewrite !split_app, (split_no_sep _ _ Hy), (split_no_sep _ _ Hm). split; reflexivity.
  - intros [H | H]; rewrite H; split; reflexivity.
Qed.

Lemma lookup_set_same (k : string) (v : value) (fields : list (string * value)) :
  Py.lookup k (Py.set_field k v fields) = Some v.
Proof.
  induction fields as [| [k' v'] l IH]; simpl.
  - now rewrite String.eqb_refl.
  - destruct (String.eqb k k') eqn:E; simpl; now rewrite E.
Qed.

Lemma lookup_set_other (k k' : string) (v : value) (fields : list (string * value)) :
  k' <> k -> Py.lookup k' (Py.set_field k v fields) = Py.lookup k' fields.
Proof.
  intros Hne. induction fields as [| [k0 v0] l IH]; simpl.
  - apply String.eqb_neq in Hne. now rewrite Hne.
  - destruct (String.eqb k k0) eqn:E; simpl.
    + apply String.eqb_eq in E. subst k0.
      apply String.eqb_neq in Hne. now rewrite Hne.
    + now rewrite IH.
Qed.

(** X6.  The file record handed to the formatter carries the duplicate
    index under [index], whatever it held there before, and is otherwise
    the file record; so [$index$] is replaced by the decimal index, except
    at index 0, which is falsy and leaves the token in place. *)
Theorem X6_index_variable_is_the_duplicate_index
        (scene_data : value) (fields : list (string * value))
        (i : nat) (t : string) :
  exists file_data',
    indexed_file_data (JObj fields) i = Ok file_data'
    /\ (forall k d, k <> "index" -> Py.get file_data' k d = Py.get (JObj fields) k d)
    /\ substitute_one find_studio fuel scene_data file_data' t "index"
       = Ok (if Nat.eqb i 0 then t
             else Str.replace "$index$" (Str.of_Z (Z.of_nat i)) t).
Proof.
  eexists. split; [reflexivity | split].
  - intros k d Hk. simpl. now rewrite lookup_set_other.
  - unfold substitute_one. cbn [resolver_of FILE_VARIABLES String.eqb Ascii.eqb Bool.eqb].
    unfold key_getter. cbn [Py.get]. rewrite lookup_set_same. cbn [obind Py.truthy].
    destruct i as [| i]; [reflexivity |].
    replace (Z.eqb (Z.of_nat (S i)) 0) with false by (symmetry; apply Z.eqb_neq; lia).
    reflexivity.
Qed.

End VariableValues.

Lemma X4_ext_is_the_part_after_the_last_dot_witness :
  exists r, resolver_of "ext" FILE_VARIABLES = Some r
            /\ r 0 (JObj [("basename", JStr "a.b.mp4")]) = Ok (JStr "mp4").
Proof.
  destruct (X4_ext_is_the_part_after_the_last_dot 0 [("basename", JStr "a.b.mp4")])
    as (r & Hr & Hb & _).
  exists r. split; [exact Hr |].
  exact (proj2 (Hb "a.b.mp4" eq_refl) "a.b" "mp4" eq_refl eq_refl).
Defined.

Lemma X5_year_and_month_of_a_date_witness :
  exists year month,
    resolver_of "year" (SCENE_VARIABLES no_studio) = Some year
    /\ resolver_of "month" (SCENE_VARIABLES no_studio) = Some month
    /\ year 0 (JObj [("date", JStr "2021-05-01")]) = Ok (JStr "2021")
    /\ month 0 (JObj [("date", JStr "2021-05-01")]) = Ok (JStr "05").
Proof.
  destruct (X5_year_and_month_of_a_date no_studio 0 [("date", JStr "2021-05-01")])
    as (year & month & Hy & Hm & Hparts & _).
  exists year, month. split; [exact Hy | split; [exact Hm |]].
  exact (Hparts "2021" "05" "01" eq_refl eq_refl eq_refl).
Defined.

(* ================================================================== *)
(** * Further properties of the path builder *)

Section PathBuilderMore.

Variable find_studio : value -> outcome value.
Variable cwd : path.
Variable cfg : config.
Variable hops : nat.
Variable scene_data file_data : value.




Lemma tidy_file_name_safe (file_name : string) :
  allow_unsafe_characters cfg = false ->
  Str.forallb safe (tidy_file_name cfg file_name) = true.
Proof.
  intros H. unfold tidy_file_name. rewrite H. cbn [negb].
  rewrite strip_unsafe_filter.
  destruct (remove_extra_spaces_from_file_name cfg).
  - apply collapse_spaces_safe, forallb_filter.
  - apply forallb_filter.
Qed.

Lemma of_string_single (name : string) :
  Str.mem "/" name = false ->
  Path.of_string name
  = {| root := EmptyString;
       parts := if Path.keep_part name then [name] else [] |}.
Proof.
  intros H. unfold Path.of_string.
  rewrite (split_no_sep _ _ H). cbn [List.filter].
  replace (Str.starts_with "/" name) with false; [reflexivity |].
  destruct name as [| a name]; [reflexivity |].
  simpl in H. apply orb_false_iff in H as [Ha _]. simpl. now rewrite Ha.
Qed.

(** X8.  With unsafe characters disallowed and a file name template
    configured, the new path is the folder itself or a direct entry of it:
    the name holds no slash, so it can neither add directories below the
    folder nor replace it. *)
Theorem X8_sanitized_name_stays_in_the_folder (i : nat) (new_path : path) :
  allow_unsafe_characters cfg = false ->
  configured (default_file_name_format cfg) = true ->
  get_new_file_path find_studio cwd cfg hops scene_data file_data i = Ok new_path ->
  exists folder name,
    get_new_file_folder find_studio cwd cfg hops scene_data file_data = Ok folder
    /\ get_new_file_name find_studio cfg hops scene_data file_data i = Ok (JStr name)
    /\ Str.mem "/" name = false
    /\ new_path = {| root := root folder;
                     parts := (parts folder
                               ++ if Path.keep_part name then [name] else [])%list |}.
Proof.
  intros Hallow Hcfg. unfold get_new_file_path.
  destruct (get_new_file_folder find_studio cwd cfg hops scene_data file_data)
    as [folder | |]; cbn [obind]; try discriminate.
  unfold get_new_file_name. rewrite Hcfg. cbn [negb].
  destruct (format_file_name find_studio cfg hops scene_data file_data i)
    as [formatted | |]; cbn [obind]; try discriminate.
  intros H. injection H as <-.
  assert (Hslash : Str.mem "/" (tidy_file_name cfg formatted) = false).
  { apply (forallb_mem safe); [now apply tidy_file_name_safe | reflexivity]. }
  exists folder, (tidy_file_name cfg formatted).
  repeat split; try assumption.
  rewrite (of_string_single _ Hslash). reflexivity.
Qed.

End PathBuilderMore.


Lemma X8_sanitized_name_stays_in_the_folder_witness :
  exists folder name,
    get_new_file_folder no_studio Demo.cwd Demo.cfg_title 0
                        (JObj [("title", JStr "../AC/DC")]) Demo.file_raw = Ok folder
    /\ get_new_file_name no_studio Demo.cfg_title 0
                         (JObj [("title", JStr "../AC/DC")]) Demo.file_raw 0
       = Ok (JStr name)
    /\ Str.mem "/" name = false
    /\ MkPath "/" ["m"; "..ACDC.mp4"]
       = {| root := root folder;
            parts := (parts folder ++ if Path.keep_part name then [name] else [])%list |}.
Proof.
  exact (X8_sanitized_name_stays_in_the_folder
           no_studio Demo.cwd Demo.cfg_title 0
           (JObj [("title", JStr "../AC/DC")]) Demo.file_raw 0
           (MkPath "/" ["m"; "..ACDC.mp4"]) eq_refl eq_refl eq_refl).
Defined.

Section SpacesMore.

Lemma match_many_spaces (s : string) :
  Re.match_here [Re.Many Re.space] s = Some (leading_spaces s).
Proof.
  induction s as [| a s IH]; [reflexivity |].
  simpl in *. destruct (Re.space a); [| reflexivity]. now rewrite IH.
Qed.

Lemma match_spaces (s : string) :
  Re.match_here [Re.One Re.space; Re.Many Re.space] s
  = match s with
    | EmptyString => None
    | String c s' => if Re.space c then Some (S (leading_spaces s')) else None
    end.
Proof.
  destruct s as [| c s]; [reflexivity |]. rewrite match_here_one.
  destruct (Re.space c); [| reflexivity]. now rewrite match_many_spaces.
Qed.

(** The scan of [collapse_spaces] reads as [collapse_runs], outside a run
    and when it has the rest of a run to skip. *)
Lemma scan_spaces (s : string) :
  Str.scan (Re.match_here [Re.One Re.space; Re.Many Re.space]) (fun _ => " ") O s
  = collapse_runs false s
  /\ Str.scan (Re.match_here [Re.One Re.space; Re.Many Re.space]) (fun _ => " ")
              (leading_spaces s) s
     = collapse_runs true s.
Proof.
  induction s as [| c s [IH0 IH1]]; [split; reflexivity |].
  assert (H0 : Str.scan (Re.match_here [Re.One Re.space; Re.Many Re.space])
                        (fun _ => " ") O (String c s)
               = collapse_runs false (String c s)).
  { cbn [Str.scan]. rewrite match_spaces. cbn [collapse_runs].
    destruct (Re.space c).
    - now rewrite IH1.
    - now rewrite IH0. }
  split; [exact H0 |].
  cbn [leading_spaces]. destruct (Re.space c) eqn:E.
  - cbn [Str.scan collapse_runs]. now rewrite E.
  - rewrite H0. cbn [collapse_runs]. now rewrite E.
Qed.

Lemma collapse_spaces_runs (s : string) : collapse_spaces s = collapse_runs false s.
Proof. apply scan_spaces. Qed.

Lemma collapse_runs_well_spaced (s : string) :
  well_spaced false (collapse_runs false s) = true
  /\ well_spaced true (collapse_runs true s) = true.
Proof.
  induction s as [| c s [IH0 IH1]]; [split; reflexivity |].
  cbn [collapse_runs]. destruct (Re.space c) eqn:E.
  - split; [| exact IH1]. cbn [well_spaced]. now rewrite IH1.
  - split; cbn [well_spaced]; now rewrite E.
Qed.

Lemma collapse_runs_keeps (b : bool) (s : string) :
  Str.filter (fun c => negb (Re.space c)) (collapse_runs b s)
  = Str.filter (fun c => negb (Re.space c)) s.
Proof.
  revert b. induction s as [| c s IH]; intros b; [reflexivity |].
  cbn [collapse_runs Str.filter]. destruct (Re.space c) eqn:E; cbn [negb].
  - destruct b; [apply IH |]. cbn [Str.filter]. apply IH.
  - cbn [Str.filter]. rewrite E. cbn [negb]. now rewrite IH.
Qed.

(** X15.  With the collapse of white space switched on and a file name
    template configured, the name [get_new_file_name] returns is the
    formatted name (after the removal of the unsafe characters, unless they
    are allowed) with every run of white space replaced by one space: in it
    every blank is a plain space and no space follows another, and its other
    characters are those of the name before the collapse, in order. *)
Theorem X15_collapsed_name_is_single_spaced
        (find_studio : value -> outcome value) (cfg : config) (hops : nat)
        (scene_data file_data : value) (i : nat) (name : string) :
  remove_extra_spaces_from_file_name cfg = true ->
  configured (default_file_name_format cfg) = true ->
  get_new_file_name find_studio cfg hops scene_data file_data i = Ok (JStr name) ->
  exists formatted,
    format_file_name find_studio cfg hops scene_data file_data i = Ok formatted
    /\ let before :=
         if allow_unsafe_characters cfg then formatted else strip_unsafe formatted in
       name = collapse_runs false before
       /\ well_spaced false name = true
       /\ Str.filter (fun c => negb (Re.space c)) name
          = Str.filter (fun c => negb (Re.space c)) before.
Proof.
  intros Hflag Hcfg. unfold get_new_file_name, tidy_file_name.
  rewrite Hcfg, Hflag. cbn [negb].
  destruct (format_file_name find_studio cfg hops scene_data file_data i)
    as [formatted | |]; cbn [obind]; try discriminate.
  intros H. injection H as <-. exists formatted. split; [reflexivity |].
  cbv zeta. rewrite collapse_spaces_runs.
  destruct (allow_unsafe_characters cfg); cbn [negb];
    (split; [reflexivity | split;
                           [apply collapse_runs_well_spaced | apply collapse_runs_keeps]]).
Qed.

End SpacesMore.

Lemma X15_collapsed_name_is_single_spaced_witness :
  get_new_file_name no_studio cfg_spaced 0
                    (JObj [("title", JStr "A  B"); ("director", JStr "C")])
                    Demo.file_raw 0
  = Ok (JStr "A B - C.mp4")
  /\ exists formatted,
    format_file_name no_studio cfg_spaced 0
                     (JObj [("title", JStr "A  B"); ("director", JStr "C")])
                     Demo.file_raw 0 = Ok formatted
    /\ let before :=
         if allow_unsafe_characters cfg_spaced then formatted
         else strip_unsafe formatted in
       "A B - C.mp4" = collapse_runs false before
       /\ well_spaced false "A B - C.mp4" = true
       /\ Str.filter (fun c => negb (Re.space c)) "A B - C.mp4"
          = Str.filter (fun c => negb (Re.space c)) before.
Proof.
  split; [reflexivity |].
  exact (X15_collapsed_name_is_single_spaced
           no_studio cfg_spaced 0
           (JObj [("title", JStr "A  B"); ("director", JStr "C")])
           Demo.file_raw 0 "A B - C.mp4" eq_refl eq_refl eq_refl).
Defined.

Section ChainMore.

Variable find_studio : value -> outcome value.

(** X19.  A parent chain that never ends (a cycle, for one) is walked for
    ever: whatever the fuel, the walk has not returned, and so neither has
    the [parent_studio_chain] variable. *)
Theorem X19_endless_chain_never_resolves
        (I : value -> Prop) (scene studio : value) (fuel : nat) :
  endless find_studio I ->
  Py.get scene "studio" (JObj []) = Ok studio ->
  (exists fields, studio = JObj fields) ->
  I studio ->
  get_parent_studio_chain find_studio fuel scene = OutOfFuel.
Proof.
  intros Hend Hscene Hobj HI.
  assert (Hloop : forall fuel studio acc,
             I studio -> parent_chain_loop find_studio fuel studio acc = OutOfFuel).
  { clear - Hend. induction fuel as [| fuel IH]; intros studio acc HI;
      destruct (Hend studio HI) as (parent & next & Hp & Ht & Hf & (fields & ->) & Hnext);
      cbn [parent_chain_loop]; rewrite Hp; cbn [obind]; rewrite Ht; [reflexivity |].
    rewrite Hf. cbn [obind Py.get].
    destruct (Py.lookup "name" fields); cbn [obind]; apply IH; exact Hnext. }
  unfold get_parent_studio_chain. rewrite Hscene. cbn [obind].
  destruct Hobj as (fields & ->). cbn [Py.get].
  destruct (Py.lookup "name" fields); cbn [obind]; now rewrite Hloop.
Qed.

End ChainMore.

Lemma X19_endless_chain_never_resolves_witness :
  get_parent_studio_chain find_ping_pong 1000 (JObj [("studio", studio_ping)]) = OutOfFuel.
Proof.
  apply (X19_endless_chain_never_resolves
           find_ping_pong (fun s => s = studio_ping \/ s = studio_pong)
           (JObj [("studio", studio_ping)]) studio_ping 1000).
  - intros s [-> | ->].
    + exists (JObj [("id", JStr "2")]), studio_pong.
      repeat split; try reflexivity; [eexists; reflexivity | now right].
    + exists (JObj [("id", JStr "1")]), studio_ping.
      repeat split; try reflexivity; [eexists; reflexivity | now left].
  - reflexivity.
  - eexists; reflexivity.
  - now left.
Defined.

Section UnconfiguredPath.

Variable find_studio : value -> outcome value.
Variable cwd : path.
Variable cfg : config.
Variable hops : nat.
Variable scene_data : value.

Lemma of_string_parts (s : string) :
  Forall (fun part => Str.mem "/" part = false /\ Path.keep_part part = true)
         (parts (Path.of_string s)).
Proof.
  unfold Path.of_string. cbn [parts]. apply Forall_forall. intros part Hin.
  apply filter_In in Hin as [Hin Hkeep]. split; [| exact Hkeep].
  pose proof (split_pieces "/" s) as H. rewrite Forall_forall in H. now apply H.
Qed.

Lemma of_string_name (s : string) :
  parts (Path.of_string s) <> [] ->
  Path.of_string (Path.name (Path.of_string s))
  = {| root := EmptyString; parts := [Path.name (Path.of_string s)] |}.
Proof.
  intros Hne. pose proof (of_string_parts s) as H. rewrite Forall_forall in H.
  assert (Hin : In (Path.name (Path.of_string s)) (parts (Path.of_string s))).
  { unfold Path.name.
    rewrite (app_removelast_last EmptyString Hne) at 2.
    apply in_or_app. right. now left. }
  destruct (H _ Hin) as [Hslash Hkeep].
  now rewrite (of_string_single _ Hslash), Hkeep.
Qed.

Lemma join_parent_name (p : path) :
  parts p <> [] ->
  Path.join (Path.absolute cwd (Path.parent p))
            {| root := EmptyString; parts := [Path.name p] |}
  = Path.absolute cwd p.
Proof.
  intros Hne. unfold Path.absolute, Path.join, Path.parent, Path.name. cbn [root parts].
  destruct p as [r l]. cbn [root parts] in *.
  destruct (String.eqb r EmptyString); cbn [root parts].
  - rewrite <- app_assoc, <- (app_removelast_last EmptyString Hne). reflexivity.
  - rewrite <- (app_removelast_last EmptyString Hne). reflexivity.
Qed.

(** X16.  With no directory template, no file name template and no
    character replacement, for a file record whose [basename] is the last
    component of its [path], the new path is the old path at every
    duplicate index: there is nothing to rename. *)
Theorem X16_nothing_configured_keeps_the_path
        (fields : list (string * value)) (s : string) (i : nat) :
  configured (default_directory_path_format cfg) = false ->
  configured (default_file_name_format cfg) = false ->
  remove_and_replace_as_in_whisparr cfg = false ->
  Py.lookup "path" fields = Some (JStr s) ->
  parts (Path.of_string s) <> [] ->
  Py.lookup "basename" fields = Some (JStr (Path.name (Path.of_string s))) ->
  get_old_file_path cwd (JObj fields) = Ok (Path.absolute cwd (Path.of_string s))
  /\ get_new_file_path find_studio cwd cfg hops scene_data (JObj fields) i
     = Ok (Path.absolute cwd (Path.of_string s)).
Proof.
  intros Hdir Hname Hw Hpath Hne Hbase. split.
  - unfold get_old_file_path. cbn [Py.index]. now rewrite Hpath.
  - unfold get_new_file_path, get_new_file_folder, get_new_file_name.
    rewrite Hdir, Hname, Hw. cbn [negb Py.index]. rewrite Hpath, Hbase.
    cbn [obind Path.of_value]. rewrite (of_string_name _ Hne).
    now rewrite join_parent_name.
Qed.

End UnconfiguredPath.

Lemma X16_nothing_configured_keeps_the_path_witness :
  get_new_file_path no_studio Demo.cwd cfg_none 0 Demo.scene_show Demo.file_raw 3
  = Ok (Demo.p "/m/raw.mp4").
Proof.
  refine (proj2 (X16_nothing_configured_keeps_the_path
                   no_studio Demo.cwd cfg_none 0 Demo.scene_show
                   [("id", JStr "7"); ("path", JStr "/m/raw.mp4");
                    ("basename", JStr "raw.mp4")]
                   "/m/raw.mp4" 3 eq_refl eq_refl eq_refl eq_refl _ eq_refl)).
  discriminate.
Defined.

(* ================================================================== *)
(** * Further properties of the rename engine *)

Section EngineMore.

Variable find_studio : value -> outcome value.
Variable cwd : path.
Variable World : Type.
Variable fs_exists : World -> path -> reply bool.
Variable fs_glob : World -> path -> string -> reply (list path).
Variable fs_mkdir : World -> path -> World * option string.
Variable fs_rename : World -> path -> path -> World * option string.
Variable call_move_files : World -> value -> path -> value -> World * outcome value.
Variable cfg : config.
Variable hops : nat.
Variable scene_data file_data : value.

Arguments world {World} _.
Arguments trace {World} _.
Arguments duplicate_index {World} _.

Local Abbreviation related_file_step :=
  (rename_related_file World fs_exists fs_mkdir fs_rename).
Local Abbreviation related_files :=
  (rename_related_files World fs_exists fs_glob fs_mkdir fs_rename cfg).
Local Abbreviation loop :=
  (collision_loop find_studio cwd World fs_exists cfg hops scene_data file_data).
Local Abbreviation run_rename_file :=
  (rename_file find_studio cwd World fs_exists fs_glob fs_mkdir fs_rename
               call_move_files cfg hops scene_data file_data).
Local Abbreviation commit :=
  (commit_rename find_studio cwd World fs_exists fs_glob fs_mkdir fs_rename
                 call_move_files cfg hops scene_data file_data).
Local Abbreviation candidate :=
  (get_new_file_path find_studio cwd cfg hops scene_data file_data).

(** The start of [rename_file], up to the collision loop. *)
Lemma rename_file_start (fuel : nat) (st : state World) (old_path c0 : path) :
  get_old_file_path cwd file_data = Ok old_path ->
  candidate (duplicate_index st) = Ok c0 ->
  run_rename_file fuel st
  = match fs_exists (world st) old_path with
    | Returned true =>
        if Path.eqb old_path c0 then
          (Ok tt, after_calls st [Exists old_path;
                                  Logged Info "File paths are the same, no renaming needed."])
        else
          mbind World (loop fuel old_path c0)
                (fun converged =>
                   match converged with
                   | None => ret World tt
                   | Some new_path => commit old_path new_path
                   end)
                (after_calls st [Exists old_path;
                                 Logged Debug ("Checking if a file exists at "
                                               ++ Path.str c0)])
    | Returned false =>
        (Ok tt, after_calls st [Exists old_path;
                                Logged Warning ("File for scene does not exist on disk: "
                                                ++ Path.str old_path)])
    | Raised e => (Raise e, after_calls st [Exists old_path])
    end.
Proof.
  intros Hold Hc0.
  unfold rename_file, new_file_path, path_exists, log, emit, get_duplicate_index, lift.
  unfold mbind at 1. rewrite Hold. unfold mbind at 1. unfold mbind at 1. rewrite Hc0.
  unfold mbind at 1. unfold mbind at 1. cbn [world trace duplicate_index fst snd].
  unfold after_calls.
  destruct (fs_exists (world st) old_path) as [[|] | e]; cbn [of_reply negb].
  - destruct (Path.eqb old_path c0).
    + cbn. now rewrite <- app_assoc.
    + unfold mbind at 1. cbn [world trace duplicate_index]. now rewrite <- app_assoc.
  - cbn. now rewrite <- app_assoc.
  - reflexivity.
Qed.

(** X9.  A file that is not on disk is logged and skipped: one existence
    test, one warning, a normal return, nothing else.  The new path is
    computed first all the same. *)
Theorem X9_absent_file_is_skipped
        (fuel : nat) (st : state World) (old_path c0 : path) :
  get_old_file_path cwd file_data = Ok old_path ->
  candidate (duplicate_index st) = Ok c0 ->
  fs_exists (world st) old_path = Returned false ->
  run_rename_file fuel st
  = (Ok tt, after_calls st [Exists old_path;
                            Logged Warning ("File for scene does not exist on disk: "
                                            ++ Path.str old_path)]).
Proof.
  intros Hold Hc0 Hdisk. rewrite (rename_file_start fuel st old_path c0 Hold Hc0).
  now rewrite Hdisk.
Qed.

(** X10.  What the computation of the old path or of the first new path
    raises, [rename_file] raises at once, before it asks the disk
    anything: [KeyError] for a file record without [path], [TypeError] for
    a path that is not a string, and any error of the templates even when
    the file is not on disk. *)
Theorem X10_path_errors_come_first (fuel : nat) (st : state World) :
  (forall fields, file_data = JObj fields -> Py.lookup "path" fields = None ->
     run_rename_file fuel st = (Raise KeyError, st))
  /\ (forall fields v, file_data = JObj fields -> Py.lookup "path" fields = Some v ->
        (forall s, v <> JStr s) -> run_rename_file fuel st = (Raise TypeError, st))
  /\ (forall old_path e, get_old_file_path cwd file_data = Ok old_path ->
        candidate (duplicate_index st) = Raise e ->
        run_rename_file fuel st = (Raise e, st)).
Proof.
  split; [| split].
  - intros fields -> Hp. unfold rename_file, mbind, lift, get_old_file_path.
    cbn [Py.index]. now rewrite Hp.
  - intros fields v -> Hp Hv. unfold rename_file, mbind, lift, get_old_file_path.
    cbn [Py.index]. rewrite Hp. cbn [obind].
    destruct v; try reflexivity. now destruct (Hv s).
  - intros old_path e Hold Hc.
    unfold rename_file, new_file_path, get_duplicate_index, lift.
    unfold mbind at 1. rewrite Hold. unfold mbind at 1. unfold mbind at 1.
    now rewrite Hc.
Qed.

(** The loop starves when the candidate never changes and is taken. *)
Lemma collision_loop_starves (old_path c : path) (w0 : World) :
  (forall i, candidate i = Ok c) -> c <> old_path -> fs_exists w0 c = Returned true ->
  forall fuel st, world st = w0 -> fst (loop fuel old_path c st) = OutOfFuel.
Proof.
  intros Hc Hne Hex.
  assert (E : Path.eqb old_path c = false) by (apply path_eqb_neq; congruence).
  induction fuel as [| fuel IH]; intros st Hw.
  - simpl. unfold mbind, path_exists, emit, mbind, lift. cbn.
    now rewrite Hw, Hex.
  - simpl.
    unfold mbind, path_exists, emit, increment_duplicate_index, get_duplicate_index,
      log, emit, new_file_path, lift, mbind, get_duplicate_index; cbn.
    rewrite Hw, Hex; cbn. rewrite Hc; cbn. rewrite E. now apply IH.
Qed.

(** X11.  Without a file name template the candidate does not depend on
    the duplicate index; when it is another file on disk, the collision
    loop never ends: whatever the fuel, [rename_file] has not returned, and
    has changed nothing. *)
Theorem X11_unchanging_candidate_loops_for_ever
        (fuel : nat) (st : state World) (old_path c : path) :
  configured (default_file_name_format cfg) = false ->
  get_old_file_path cwd file_data = Ok old_path ->
  candidate 0 = Ok c ->
  c <> old_path ->
  fs_exists (world st) old_path = Returned true ->
  fs_exists (world st) c = Returned true ->
  fst (run_rename_file fuel st) = OutOfFuel
  /\ world (snd (run_rename_file fuel st)) = world st
  /\ exists t, trace (snd (run_rename_file fuel st)) = (trace st ++ t)%list
               /\ forallb is_log_or_exists t = true.
Proof.
  intros Hcfg Hold Hc Hne Hdisk Hex.
  assert (Hall : forall i, candidate i = Ok c).
  { intros i. rewrite <- Hc. unfold get_new_file_path.
    now rewrite (get_new_file_name_unconfigured find_studio cfg hops scene_data
                   file_data i 0 Hcfg). }
  rewrite (rename_file_start fuel st old_path c Hold (Hall _)), Hdisk.
  assert (E : Path.eqb old_path c = false) by (apply path_eqb_neq; congruence).
  rewrite E.
  set (st2 := after_calls st _).
  pose proof (collision_loop_starves old_path c (world st) Hall Hne Hex fuel st2 eq_refl)
    as Hloop.
  pose proof (within_collision_loop find_studio cwd World fs_exists cfg hops scene_data
                file_data fuel old_path c st2) as (Hw & _ & t & Ht & Pt).
  unfold mbind.
  destruct (loop fuel old_path c st2) as [r st3]. cbn [fst snd] in *. subst r.
  cbn [fst snd]. split; [reflexivity | split; [now rewrite Hw |]].
  eexists. split.
  - rewrite Ht. unfold st2, after_calls. cbn [trace]. rewrite <- app_assoc. reflexivity.
  - cbn [forallb app]. exact Pt.
Qed.

Ltac frame_more special :=
  repeat first
    [ special
    | apply within_ret
    | apply within_lift
    | apply within_log; solve [reflexivity | auto]
    | apply within_path_exists; solve [reflexivity | auto]
    | apply within_glob; solve [reflexivity | auto]
    | apply within_get_duplicate_index
    | apply within_new_file_path
    | apply within_increment; solve [reflexivity | auto]
    | apply within_mkdir; solve [reflexivity | auto]
    | apply within_try_rename; solve [reflexivity | auto]
    | apply within_bind; [| intros ?]
    | match goal with
      | |- within _ _ _ (if ?b then _ else _) => destruct b
      | |- within _ _ _ (match ?x with _ => _ end) => destruct x
      end ].

(** X12.  The loop stops at the first free candidate, whatever its index
    [k]: from a fresh object whose file is on disk, with the candidates
    below [k] other files on disk and the candidate at [k] free and not the
    old path, [rename_file] ends with [duplicate_index = k] and goes on
    with that candidate. *)
Theorem X12_loop_stops_at_the_first_free_candidate
        (st : state World) (fuel k : nat) (old_path ck : path) :
  duplicate_index st = 0 ->
  get_old_file_path cwd file_data = Ok old_path ->
  fs_exists (world st) old_path = Returned true ->
  (forall i, i < k ->
     exists c, candidate i = Ok c /\ c <> old_path /\ fs_exists (world st) c = Returned true) ->
  candidate k = Ok ck ->
  ck <> old_path ->
  fs_exists (world st) ck = Returned false ->
  k <= fuel ->
  duplicate_index (snd (run_rename_file fuel st)) = k
  /\ In (Logged Info ("Renaming file from " ++ Path.str old_path
                      ++ " to " ++ Path.str ck))
        (trace (snd (run_rename_file fuel st))).
Proof.
  intros Hi Hold Hdisk Htaken Hk Hne Hfree Hfuel.
  destruct (rename_file_after_loop find_studio cwd World fs_exists fs_glob fs_mkdir
              fs_rename call_move_files cfg hops scene_data file_data
              (world st) old_path k ck Htaken Hk (or_intror Hfree)
              st fuel Hold eq_refl Hi Hfuel Hdisk (fun _ => Hne))
    as (st_loop & _ & Hidx & Hrun).
  assert (E : Path.eqb old_path ck = false) by (apply path_eqb_neq; congruence).
  rewrite E in Hrun. rewrite Hrun.
  destruct (commit_logs find_studio cwd World fs_exists fs_glob fs_mkdir fs_rename
              call_move_files cfg hops scene_data file_data old_path ck st_loop)
    as [Hkeep Hlog].
  split; [now rewrite Hkeep | exact Hlog].
Qed.

(** A mutation the catalog refuses ends the run where it is sent. *)
Lemma within_move_refused {B : Type} (P : event -> bool) (keep_index : bool)
      (id : value) (folder : path) (basename : value) (k : value -> M World B) :
  (forall w i f b, exists e, snd (call_move_files w i f b) = Raise e) ->
  P (MoveFiles id folder basename) = true ->
  within P false keep_index
         (mbind World (move_files World call_move_files id folder basename) k).
Proof.
  intros Hdown HP st. unfold mbind, move_files, emit, mbind.
  cbn [world trace duplicate_index fst snd].
  destruct (Hdown (world st) id folder basename) as [e He].
  destruct (call_move_files (world st) id folder basename) as [w r].
  cbn [snd] in He. subst r. cbn.
  repeat split; try discriminate.
  exists [MoveFiles id folder basename]. cbn. now rewrite HP.
Qed.

(** X13.  When the catalog refuses the mutation (the call raises), outside
    a dry run, [rename_file] does not touch the related files: all it did
    is log, test existence and send the mutation; no sibling is listed, no
    directory made, no file renamed. *)
Theorem X13_refused_move_leaves_the_related_files (fuel : nat) (st : state World) :
  dry_run cfg = false ->
  (forall w i f b, exists e, snd (call_move_files w i f b) = Raise e) ->
  exists t, trace (snd (run_rename_file fuel st)) = (trace st ++ t)%list
            /\ forallb is_log_exists_or_move t = true.
Proof.
  intros Hdry Hdown.
  assert (H : within is_log_exists_or_move false false (run_rename_file fuel)).
  { unfold rename_file, commit_rename. rewrite Hdry.
    frame_more ltac:(apply within_move_refused; [exact Hdown | reflexivity]).
    eapply within_weaken; [| | | apply within_collision_loop]; auto.
    intros [] He; simpl in *; congruence. }
  destruct (H st) as (_ & _ & Ht). exact Ht.
Qed.

(** X14.  A related file is renamed only onto a target that differs from
    it and that the disk reported free just before, and never in a dry
    run: the step for the sibling [r] attempts at most the renaming of [r]
    onto its target, under these conditions. *)
Theorem X14_related_file_is_never_written_over
        (new_directory new_path r : path) (dry : bool) (st : state World) :
  let target_path :=
    Path.join new_directory (Path.of_string (Path.stem new_path ++ Path.suffix r)) in
  exists t,
    trace (snd (related_file_step new_directory new_path dry r st)) = (trace st ++ t)%list
    /\ forall e, In e t ->
         match e with
         | Renamed a b =>
             a = r /\ b = target_path /\ dry = false /\ r <> target_path
             /\ fs_exists (world st) target_path = Returned false
         | Mkdir p =>
             p = Path.parent target_path /\ dry = false /\ r <> target_path
             /\ fs_exists (world st) target_path = Returned false
         | MoveFiles _ _ _ | Globbed _ _ => False
         | Logged _ _ | Exists _ => True
         end.
Proof.
  intros target_path. unfold rename_related_file. fold target_path.
  destruct (Path.eqb r target_path) eqn:E.
  - exists []. split; [cbn; now rewrite app_nil_r | contradiction].
  - apply path_eqb_neq in E.
    unfold mbind, path_exists, mkdir, try_rename, log, emit, ret, mbind.
    cbn [world trace duplicate_index fst snd].
    destruct (fs_exists (world st) target_path) as [[|] | e0] eqn:Hex;
      cbn [of_reply world trace duplicate_index fst snd];
      [| destruct dry; cbn [world trace duplicate_index fst snd];
         [| destruct (fs_mkdir (world st) (Path.parent target_path)) as [w1 [msg |]];
            cbn [world trace duplicate_index fst snd];
            [| destruct (fs_rename w1 r target_path) as [w2 [msg |]];
               cbn [world trace duplicate_index fst snd] ] ] |];
      (eexists; split; [rewrite <- ?app_assoc; reflexivity |]);
      intros e Hin; cbn in Hin;
      repeat (destruct Hin as [<- | Hin]; [cbn; auto 10 |]); contradiction.
Qed.

(** A run that either stayed quiet or sent the mutation. *)
Lemma quiet_or_moved_bind {A B : Type} (m : M World A) (k : A -> M World B) :
  within is_log_or_query true false m ->
  (forall a st, only is_log_or_query true false st (snd (k a st))
                \/ move_sent (snd (k a st))) ->
  forall st, only is_log_or_query true false st (snd (mbind World m k st))
             \/ move_sent (snd (mbind World m k st)).
Proof.
  intros Hm Hk st. unfold mbind. specialize (Hm st).
  destruct (m st) as [[a | e |] st1]; cbn [snd] in *; try (now left).
  destruct (Hk a st1) as [H | H]; [left | now right].
  eapply only_trans; eassumption.
Qed.

Lemma commit_quiet_or_moved (old_path new_path : path) (st : state World) :
  only is_log_or_query true false st (snd (commit old_path new_path st))
  \/ move_sent (snd (commit old_path new_path st)).
Proof.
  revert st. unfold commit_rename.
  apply quiet_or_moved_bind; [frame_more fail |]. intros _.
  destruct (dry_run cfg).
  - intros st. left. revert st.
    change (within is_log_or_query true false
              (mbind World (log World Info "Dry run enabled, not actually renaming the file.")
                     (fun _ => related_files old_path new_path true))).
    frame_more fail.
    eapply within_weaken; [| | | apply within_related_files_dry]; auto.
  - apply quiet_or_moved_bind; [frame_more fail |]. intros id.
    apply quiet_or_moved_bind; [frame_more fail |]. intros i.
    apply quiet_or_moved_bind; [frame_more fail |]. intros folder.
    apply quiet_or_moved_bind; [frame_more fail |]. intros basename.
    intros st. right. exists id, folder, basename.
    apply in_trace_move. intros a.
    frame_more fail; apply within_related_files; auto.
Qed.

(** X20.  Nothing changes unless the mutation is sent: in a run of
    [rename_file], whatever its outcome, whose trace holds no [MoveFiles]
    call, the world is as before and all that happened is logging,
    existence tests and the listing of siblings.  In particular no related
    file is renamed before the catalog has been asked to move the file. *)
Theorem X20_no_change_unless_the_move_is_sent (fuel : nat) (st : state World) :
  ~ move_sent (snd (run_rename_file fuel st)) ->
  world (snd (run_rename_file fuel st)) = world st
  /\ exists t, trace (snd (run_rename_file fuel st)) = (trace st ++ t)%list
               /\ forallb is_log_or_query t = true.
Proof.
  intros Hno.
  assert (H : forall st0, only is_log_or_query true false st0 (snd (run_rename_file fuel st0))
                          \/ move_sent (snd (run_rename_file fuel st0))).
  { unfold rename_file.
    apply quiet_or_moved_bind; [frame_more fail |]. intros old_path.
    apply quiet_or_moved_bind; [frame_more fail |]. intros new_path.
    apply quiet_or_moved_bind; [frame_more fail |]. intros on_disk.
    destruct (negb on_disk); [intros st0; left; revert st0; frame_more fail |].
    destruct (Path.eqb old_path new_path);
      [intros st0; left; revert st0; frame_more fail |].
    apply quiet_or_moved_bind; [frame_more fail |]. intros _.
    apply quiet_or_moved_bind.
    - eapply within_weaken; [| | | apply within_collision_loop]; auto.
      intros [] He; simpl in *; congruence.
    - intros [c |] st0; [apply commit_quiet_or_moved | left; apply only_refl]. }
  destruct (H st) as [(Hw & _ & Ht) | Hmoved]; [| contradiction].
  split; [now apply Hw | exact Ht].
Qed.

End EngineMore.

(* ================================================================== *)
(** * The further properties on the small disk *)

Lemma X9_absent_file_is_skipped_witness :
  run_with refusing_catalog Demo.cfg_title Demo.scene_show Demo.file_raw 5 vacant
  = (Ok tt,
     after_calls (init Demo.disk vacant)
       [Exists (Demo.p "/m/raw.mp4");
        Logged Warning "File for scene does not exist on disk: /m/raw.mp4"]).
Proof.
  exact (X9_absent_file_is_skipped
           no_studio Demo.cwd Demo.disk Demo.test Demo.listing Demo.make_dirs
           Demo.move refusing_catalog Demo.cfg_title 0 Demo.scene_show Demo.file_raw
           5 (init Demo.disk vacant) (Demo.p "/m/raw.mp4") (Demo.p "/m/Show.mp4")
           eq_refl eq_refl eq_refl).
Defined.

Lemma X10_path_errors_come_first_witness :
  run_with refusing_catalog Demo.cfg_title Demo.scene_show
           (JObj [("id", JStr "7"); ("basename", JStr "raw.mp4")]) 5 vacant
  = (Raise KeyError, init Demo.disk vacant).
Proof.
  exact (proj1 (X10_path_errors_come_first
                  no_studio Demo.cwd Demo.disk Demo.test Demo.listing Demo.make_dirs
                  Demo.move refusing_catalog Demo.cfg_title 0 Demo.scene_show
                  (JObj [("id", JStr "7"); ("basename", JStr "raw.mp4")])
                  5 (init Demo.disk vacant))
               _ eq_refl eq_refl).
Defined.

Lemma X11_unchanging_candidate_loops_for_ever_witness :
  fst (run_with refusing_catalog cfg_library Demo.scene_show Demo.file_raw 50 doubled)
  = OutOfFuel.
Proof.
  refine (proj1 (X11_unchanging_candidate_loops_for_ever
                   no_studio Demo.cwd Demo.disk Demo.test Demo.listing Demo.make_dirs
                   Demo.move refusing_catalog cfg_library 0 Demo.scene_show Demo.file_raw
                   50 (init Demo.disk doubled)
                   (Demo.p "/m/raw.mp4") (Demo.p "/lib/Show/raw.mp4")
                   eq_refl eq_refl eq_refl _ eq_refl eq_refl)).
  intros H; vm_compute in H; discriminate H.
Defined.

Lemma X12_loop_stops_at_the_first_free_candidate_witness :
  duplicate_index Demo.disk
    (snd (run_with refusing_catalog Demo.cfg_title Demo.scene_show Demo.file_raw 5 packed))
  = 3.
Proof.
  refine (proj1 (X12_loop_stops_at_the_first_free_candidate
                   no_studio Demo.cwd Demo.disk Demo.test Demo.listing Demo.make_dirs
                   Demo.move refusing_catalog Demo.cfg_title 0 Demo.scene_show
                   Demo.file_raw (init Demo.disk packed) 5 3
                   (Demo.p "/m/raw.mp4") (Demo.p "/m/Show (3).mp4")
                   eq_refl eq_refl eq_refl _ eq_refl _ eq_refl _)); [| | lia].
  - intros i Hi.
    destruct i as [| [| [| i]]]; [| | | lia].
    + exists (Demo.p "/m/Show.mp4"). split; [reflexivity | split; [| reflexivity]].
      intros H; vm_compute in H; discriminate H.
    + exists (Demo.p "/m/Show (1).mp4"). split; [reflexivity | split; [| reflexivity]].
      intros H; vm_compute in H; discriminate H.
    + exists (Demo.p "/m/Show (2).mp4"). split; [reflexivity | split; [| reflexivity]].
      intros H; vm_compute in H; discriminate H.
  - intros H; vm_compute in H; discriminate H.
Defined.

Lemma X13_refused_move_leaves_the_related_files_witness :
  exists t,
    trace Demo.disk
      (snd (run_with refusing_catalog Demo.cfg_title Demo.scene_show Demo.file_raw 5 packed))
    = ([] ++ t)%list
    /\ forallb is_log_exists_or_move t = true.
Proof.
  refine (X13_refused_move_leaves_the_related_files
            no_studio Demo.cwd Demo.disk Demo.test Demo.listing Demo.make_dirs
            Demo.move refusing_catalog Demo.cfg_title 0 Demo.scene_show Demo.file_raw
            5 (init Demo.disk packed) eq_refl _).
  intros w i f b. eexists. reflexivity.
Defined.

Lemma X20_no_change_unless_the_move_is_sent_witness :
  world Demo.disk
    (snd (run_with refusing_catalog Demo.cfg_dry Demo.scene_show Demo.file_raw 5 packed))
  = packed.
Proof.
  refine (proj1 (X20_no_change_unless_the_move_is_sent
                   no_studio Demo.cwd Demo.disk Demo.test Demo.listing Demo.make_dirs
                   Demo.move refusing_catalog Demo.cfg_dry 0 Demo.scene_show Demo.file_raw
                   5 (init Demo.disk packed) _)).
  intros (id & folder & basename & Hin). vm_compute in Hin.
  repeat (destruct Hin as [Hin | Hin]; [discriminate Hin |]). exact Hin.
Defined.

Section FolderMore.

Variable find_studio : value -> outcome value.
Variable cwd : path.
Variable cfg : config.
Variable hops : nat.
Variable scene_data file_data : value.

Lemma join_empty (p : path) :
  Path.join p (Path.of_string EmptyString) = p.
Proof.
  unfold Path.join. cbn. destruct p as [r l]. cbn. now rewrite app_nil_r.
Qed.

(** X17.  With a directory template configured, for a scene whose studio
    is not linked to the configured endpoint, the second template is the
    one formatted, whatever the first one is: what it raises is raised, and
    the string it gives, made absolute from the working directory of the
    process (and passed through the character replacement when that is
    switched on), is the folder; left empty, the second template sends the
    file to the working directory itself. *)
Theorem X17_unlinked_scene_takes_the_second_template (endpoints : value) :
  configured (default_directory_path_format cfg) = true ->
  endpoints_of hops scene_data = Ok endpoints ->
  endpoint_in (default_graphql_endpoint cfg) endpoints = false ->
  (forall e,
      apply_format find_studio hops (second_directory_path_format cfg)
                   scene_data file_data = Raise e ->
      get_new_file_folder find_studio cwd cfg hops scene_data file_data = Raise e)
  /\ (forall directory_path,
         apply_format find_studio hops (second_directory_path_format cfg)
                      scene_data file_data = Ok directory_path ->
         get_new_file_folder find_studio cwd cfg hops scene_data file_data
         = Ok (let folder := Path.absolute cwd (Path.of_string directory_path) in
               if remove_and_replace_as_in_whisparr cfg
               then Path.of_string
                      (Re.sub_with [Re.One whisparr_class] whisparr_replacement
                                   (Path.str folder))
               else folder))
  /\ (second_directory_path_format cfg = EmptyString ->
      remove_and_replace_as_in_whisparr cfg = false ->
      get_new_file_folder find_studio cwd cfg hops scene_data file_data = Ok cwd).
Proof.
  intros Hdir Hends Hin.
  unfold get_new_file_folder. rewrite Hdir, Hends. cbn [obind]. rewrite Hin.
  repeat split.
  - intros e ->. reflexivity.
  - intros directory_path ->. cbn [obind].
    now destruct (remove_and_replace_as_in_whisparr cfg).
  - intros -> ->.
    assert (Hfmt : apply_format find_studio hops EmptyString scene_data file_data
                   = Ok EmptyString) by reflexivity.
    rewrite Hfmt. cbn [obind]. f_equal.
    unfold Path.absolute. cbn [root Path.of_string Str.starts_with].
    cbn [String.eqb]. apply join_empty.
Qed.

Lemma absolute_is_rooted (p : path) :
  Str.starts_with "/" (root cwd) = true ->
  (root p = EmptyString \/ Str.starts_with "/" (root p) = true) ->
  Str.starts_with "/" (root (Path.absolute cwd p)) = true.
Proof.
  intros Hcwd [Hp | Hp]; unfold Path.absolute, Path.join.
  - rewrite Hp. cbn. exact Hcwd.
  - destruct (String.eqb (root p) EmptyString) eqn:E; [| exact Hp].
    apply String.eqb_eq in E. rewrite E in Hp. discriminate Hp.
Qed.

Lemma of_string_root (s : string) :
  root (Path.of_string s) = EmptyString
  \/ Str.starts_with "/" (root (Path.of_string s)) = true.
Proof.
  unfold Path.of_string. cbn [root].
  destruct (Str.starts_with "/" s); [right | now left].
  destruct (Str.starts_with "//" s && negb (Str.starts_with "///" s)); reflexivity.
Qed.

Lemma parent_root (p : path) : root (Path.parent p) = root p.
Proof. reflexivity. Qed.

Lemma str_of_rooted (p : path) :
  Str.starts_with "/" (root p) = true -> Str.starts_with "/" (Path.str p) = true.
Proof.
  intros H. unfold Path.str. destruct (root p) as [| a r] eqn:E; [discriminate |].
  cbn [Str.starts_with] in H. apply andb_true_iff in H as [Ha _].
  destruct (parts p);
    cbn [Str.starts_with String.append String.eqb]; now rewrite Ha.
Qed.

Lemma sub_with_class_head (p : ascii -> bool) (repl : string -> string) (s : string) :
  p "/"%char = false ->
  Str.starts_with "/" s = true ->
  Str.starts_with "/" (Re.sub_with [Re.One p] repl s) = true.
Proof.
  intros Hp Hs. destruct s as [| a s]; [discriminate |].
  cbn [Str.starts_with] in Hs. apply andb_true_iff in Hs as [Ha _].
  apply Ascii.eqb_eq in Ha. subst a.
  unfold Re.sub_with. cbn [Str.scan]. rewrite match_here_one, Hp. reflexivity.
Qed.

Lemma of_string_rooted (s : string) :
  Str.starts_with "/" s = true -> Str.starts_with "/" (root (Path.of_string s)) = true.
Proof.
  intros H. unfold Path.of_string. cbn [root]. rewrite H.
  destruct (Str.starts_with "//" s && negb (Str.starts_with "///" s)); reflexivity.
Qed.

(** X18.  In an absolute working directory, every path the builder
    returns is absolute: the old path, the new folder (with or without the
    character replacement) and the new path, whatever the templates
    produce. *)
Theorem X18_built_paths_are_absolute (i : nat) :
  Str.starts_with "/" (root cwd) = true ->
  (forall p, get_old_file_path cwd file_data = Ok p ->
             Str.starts_with "/" (root p) = true)
  /\ (forall p, get_new_file_folder find_studio cwd cfg hops scene_data file_data = Ok p ->
                Str.starts_with "/" (root p) = true)
  /\ (forall p, get_new_file_path find_studio cwd cfg hops scene_data file_data i = Ok p ->
                Str.starts_with "/" (root p) = true).
Proof.
  intros Hcwd.
  assert (Hfolder : forall p,
             get_new_file_folder find_studio cwd cfg hops scene_data file_data = Ok p ->
             Str.starts_with "/" (root p) = true).
  { intros p. unfold get_new_file_folder.
    match goal with
    | |- obind ?m _ = _ -> _ => destruct m as [d | |] eqn:Ed
    end; cbn [obind]; try discriminate.
    assert (Hd : Str.starts_with "/" (root d) = true).
    { destruct (configured (default_directory_path_format cfg)).
      - destruct (endpoints_of hops scene_data); cbn [obind] in Ed; try discriminate.
        destruct (apply_format find_studio hops _ scene_data file_data);
          cbn [obind] in Ed; try discriminate.
        injection Ed as <-. apply absolute_is_rooted; [exact Hcwd | apply of_string_root].
      - destruct (Py.index file_data "path"); cbn [obind] in Ed; try discriminate.
        destruct a; cbn [obind Path.of_value] in Ed; try discriminate.
        injection Ed as <-. apply absolute_is_rooted; [exact Hcwd |].
        rewrite parent_root. apply of_string_root. }
    destruct (remove_and_replace_as_in_whisparr cfg); intros H; injection H as <-;
      [| exact Hd].
    apply of_string_rooted, sub_with_class_head; [reflexivity |].
    now apply str_of_rooted. }
  split; [| split; [exact Hfolder |]].
  - intros p. unfold get_old_file_path.
    destruct (Py.index file_data "path"); cbn [obind]; try discriminate.
    destruct a; cbn [obind Path.of_value]; try discriminate.
    intros H. injection H as <-. apply absolute_is_rooted; [exact Hcwd | apply of_string_root].
  - intros p. unfold get_new_file_path.
    destruct (get_new_file_folder find_studio cwd cfg hops scene_data file_data)
      as [folder | |] eqn:Ef; cbn [obind]; try discriminate.
    destruct (get_new_file_name find_studio cfg hops scene_data file_data i)
      as [[| | | s | |] | |]; cbn [obind]; try discriminate.
    intros H. injection H as <-. unfold Path.join.
    destruct (of_string_root s) as [Hr | Hr].
    + rewrite Hr. cbn. now apply Hfolder.
    + destruct (String.eqb (root (Path.of_string s)) EmptyString) eqn:E; [| exact Hr].
      apply String.eqb_eq in E. rewrite E in Hr. discriminate Hr.
Qed.

End FolderMore.

Lemma X17_unlinked_scene_takes_the_second_template_witness :
  get_new_file_folder no_studio (Demo.p "/srv/stash") cfg_second
                      0 Demo.scene_show Demo.file_raw
  = Ok (Demo.p "/srv/stash/unsorted/Show")
  /\ get_new_file_folder no_studio (Demo.p "/srv/stash") cfg_linked
                         0 Demo.scene_show Demo.file_raw
     = Ok (Demo.p "/srv/stash").
Proof.
  split.
  - exact (proj1 (proj2 (X17_unlinked_scene_takes_the_second_template
                           no_studio (Demo.p "/srv/stash") cfg_second 0
                           Demo.scene_show Demo.file_raw
                           (JArr []) eq_refl eq_refl eq_refl))
                 "unsorted/Show" eq_refl).
  - exact (proj2 (proj2 (X17_unlinked_scene_takes_the_second_template
                           no_studio (Demo.p "/srv/stash") cfg_linked 0
                           Demo.scene_show Demo.file_raw
                           (JArr []) eq_refl eq_refl eq_refl))
                 eq_refl eq_refl).
Defined.

Lemma X18_built_paths_are_absolute_witness :
  Str.starts_with "/" (root (Demo.p "/m/Show (2).mp4")) = true.
Proof.
  exact (proj2 (proj2 (X18_built_paths_are_absolute
                         no_studio Demo.cwd Demo.cfg_title 0 Demo.scene_show
                         Demo.file_raw 2 eq_refl))
               (Demo.p "/m/Show (2).mp4") eq_refl).
Defined.

(* ================================================================== *)
(** * Optional sections: what the elision erases *)

Section Elision.

Let tail_pattern : Re.pattern := [Re.Many Re.dot; Re.One (Re.chr "}")].
Let word_pattern : Re.pattern :=
  [Re.Many Re.word; Re.One (Re.chr "$"); Re.Many Re.dot; Re.One (Re.chr "}")].
Let token_pattern : Re.pattern :=
  [Re.One (Re.chr "$"); Re.One Re.word; Re.Many Re.word; Re.One (Re.chr "$");
   Re.Many Re.dot; Re.One (Re.chr "}")].

Lemma last_close_shift (c : ascii) (s : string) (n : nat) :
  Re.dot c = true -> last_close s = Some n -> last_close (String c s) = Some (S n).
Proof. intros Hc Hs. cbn [last_close]. now rewrite Hc, Hs. Qed.

Lemma word_is_dot (c : ascii) : Re.word c = true -> Re.dot c = true.
Proof.
  intros H. unfold Re.dot. destruct (Ascii.eqb c "010") eqn:E; [| reflexivity].
  apply Ascii.eqb_eq in E. subst c. discriminate H.
Qed.

Lemma dollar_is_dot (c : ascii) : Re.chr "$" c = true -> Re.dot c = true.
Proof.
  unfold Re.chr. intros H. apply Ascii.eqb_eq in H. now subst c.
Qed.

(** The closing part of the pattern ends where [last_close] says. *)
Lemma match_tail (s : string) : Re.match_here tail_pattern s = last_close s.
Proof.
  unfold tail_pattern. induction s as [| c s IH]; [reflexivity |].
  cbn [last_close]. simpl in *. rewrite IH.
  destruct (Re.dot c) eqn:Ed.
  - destruct (last_close s); [reflexivity |]. now destruct (Re.chr "}" c).
  - unfold Re.dot in Ed. apply negb_false_iff, Ascii.eqb_eq in Ed. now subst c.
Qed.

Lemma match_here_many (p : ascii -> bool) (pat : Re.pattern) (c : ascii) (s : string) :
  Re.match_here (Re.Many p :: pat) (String c s)
  = if p c then
      match Re.match_here (Re.Many p :: pat) s with
      | Some n => Some (S n)
      | None => Re.match_here pat (String c s)
      end
    else Re.match_here pat (String c s).
Proof. reflexivity. Qed.

Lemma match_here_many_end (p : ascii -> bool) (pat : Re.pattern) :
  Re.match_here (Re.Many p :: pat) EmptyString = Re.match_here pat EmptyString.
Proof. reflexivity. Qed.

(** Whatever the greedy items give back, a match ends at [last_close]. *)
Lemma match_words_end (s : string) (n : nat) :
  Re.match_here word_pattern s = Some n -> last_close s = Some n.
Proof.
  unfold word_pattern. revert n. induction s as [| c s IH]; intros n; [discriminate |].
  rewrite match_here_many.
  assert (Hrest : forall m,
             Re.match_here [Re.One (Re.chr "$"); Re.Many Re.dot; Re.One (Re.chr "}")]
                           (String c s) = Some m ->
             last_close (String c s) = Some m).
  { intros m. rewrite match_here_one. destruct (Re.chr "$" c) eqn:Ec; [| discriminate].
    fold tail_pattern. rewrite match_tail.
    destruct (last_close s) as [k |] eqn:Ek; [| discriminate].
    intros H. injection H as <-. apply last_close_shift; [now apply dollar_is_dot | exact Ek]. }
  destruct (Re.word c) eqn:Ew; [| apply Hrest].
  destruct (Re.match_here _ s) as [k |]; [| apply Hrest].
  intros H. injection H as <-. apply last_close_shift; [now apply word_is_dot | now apply IH].
Qed.

Lemma match_token_end (s : string) (n : nat) :
  Re.match_here token_pattern s = Some n -> last_close s = Some n.
Proof.
  unfold token_pattern. destruct s as [| c1 s]; [discriminate |].
  rewrite match_here_one. destruct (Re.chr "$" c1) eqn:E1; [| discriminate].
  destruct s as [| c2 s]; [discriminate |].
  rewrite match_here_one. destruct (Re.word c2) eqn:E2; [| discriminate].
  fold word_pattern.
  destruct (Re.match_here word_pattern s) as [k |] eqn:Ek; [| discriminate].
  intros H. injection H as <-.
  apply last_close_shift; [now apply dollar_is_dot |].
  apply last_close_shift; [now apply word_is_dot |].
  now apply match_words_end.
Qed.

Lemma match_section_end (s : string) (n : nat) :
  Re.match_here (Re.Many Re.dot :: token_pattern) s = Some n -> last_close s = Some n.
Proof.
  revert n. induction s as [| c s IH]; intros n.
  - rewrite match_here_many_end. apply match_token_end.
  - rewrite match_here_many.
    destruct (Re.dot c) eqn:Ed; [| apply match_token_end].
    destruct (Re.match_here _ s) as [k |]; [| apply match_token_end].
    intros H. injection H as <-. apply last_close_shift; [exact Ed | now apply IH].
Qed.

(** The engine finds the token, and the section, when they are there. *)
Lemma match_words_found (w rest : string) (m : nat) :
  Str.forallb Re.word w = true ->
  last_close rest = Some m ->
  exists n, Re.match_here word_pattern (w ++ String "$" rest) = Some n.
Proof.
  intros Hw Hm. unfold word_pattern. induction w as [| c w IH].
  - cbn [String.append]. rewrite match_here_many. cbn [Re.word].
    replace (Re.word "$") with false by reflexivity.
    rewrite match_here_one. replace (Re.chr "$" "$"%char) with true by reflexivity.
    fold tail_pattern. rewrite match_tail, Hm. eexists; reflexivity.
  - cbn [Str.forallb] in Hw. apply andb_true_iff in Hw as [Hc Hw].
    destruct (IH Hw) as [n Hn].
    cbn [String.append]. rewrite match_here_many, Hc, Hn. eexists; reflexivity.
Qed.

Lemma match_token_found (w rest : string) (m : nat) :
  w <> EmptyString -> Str.forallb Re.word w = true ->
  last_close rest = Some m ->
  exists n, Re.match_here token_pattern (String "$" (w ++ String "$" rest)) = Some n.
Proof.
  intros Hne Hw Hm. unfold token_pattern. destruct w as [| c w]; [contradiction |].
  cbn [Str.forallb] in Hw. apply andb_true_iff in Hw as [Hc Hw].
  rewrite match_here_one. replace (Re.chr "$" "$"%char) with true by reflexivity.
  cbn [String.append]. rewrite match_here_one, Hc.
  fold word_pattern. destruct (match_words_found w rest m Hw Hm) as [n ->].
  eexists; reflexivity.
Qed.

Lemma match_section_found (a t : string) (m : nat) :
  Str.forallb Re.dot a = true ->
  Re.match_here token_pattern t = Some m ->
  exists n, Re.match_here (Re.Many Re.dot :: token_pattern) (a ++ t) = Some n.
Proof.
  intros Ha Ht. induction a as [| c a IH].
  - cbn [String.append]. destruct t as [| c t]; [discriminate Ht |].
    rewrite match_here_many. destruct (Re.dot c); [| eauto].
    destruct (Re.match_here _ t); eauto.
  - cbn [Str.forallb] in Ha. apply andb_true_iff in Ha as [Hc Ha].
    destruct (IH Ha) as [n Hn].
    cbn [String.append]. rewrite match_here_many, Hc, Hn. eauto.
Qed.

Lemma last_close_none (s : string) : Str.mem "}" s = false -> last_close s = None.
Proof.
  induction s as [| c s IH]; [reflexivity |].
  cbn [Str.mem last_close]. intros H. apply orb_false_iff in H as [Hc Hs].
  rewrite (IH Hs). unfold Re.chr. rewrite Hc. now destruct (Re.dot c).
Qed.

Lemma last_close_closed (x post : string) :
  Str.forallb Re.dot x = true -> Str.mem "}" post = false ->
  last_close (x ++ String "}" post) = Some (S (String.length x)).
Proof.
  intros Hx Hpost. induction x as [| c x IH].
  - cbn [String.append last_close String.length]. now rewrite (last_close_none _ Hpost).
  - cbn [Str.forallb] in Hx. apply andb_true_iff in Hx as [Hc Hx].
    cbn [String.append String.length]. apply last_close_shift; [exact Hc | now apply IH].
Qed.

Lemma append_assoc (x y z : string) : (x ++ y) ++ z = x ++ (y ++ z).
Proof. induction x as [| c x IH]; cbn [String.append]; [reflexivity | now rewrite IH]. Qed.

Lemma forallb_dot_app (x y : string) :
  Str.forallb Re.dot x = true -> Str.forallb Re.dot y = true ->
  Str.forallb Re.dot (x ++ y) = true.
Proof. intros Hx Hy. now rewrite forallb_app, Hx, Hy. Qed.

Lemma words_one_line (w : string) :
  Str.forallb Re.word w = true -> Str.forallb Re.dot w = true.
Proof.
  induction w as [| c w IH]; [reflexivity |]. cbn [Str.forallb].
  intros H. apply andb_true_iff in H as [Hc Hw]. now rewrite (word_is_dot _ Hc), IH.
Qed.

(** A one-line section with a token in it, the last closing brace of its
    line being its own, is matched whole. *)
Lemma match_optional_section (a w b post : string) :
  one_line a -> one_line b -> w <> EmptyString -> Str.forallb Re.word w = true ->
  Str.mem "}" post = false ->
  Re.match_here optional_section
                (String "{" (a ++ String "$" (w ++ String "$" (b ++ String "}" post))))
  = Some (S (S (String.length (a ++ String "$" (w ++ String "$" b))))).
Proof.
  intros Ha Hb Hne Hw Hpost. unfold optional_section.
  rewrite match_here_one. replace (Re.chr "{" "{"%char) with true by reflexivity.
  fold token_pattern.
  assert (Hend : last_close (a ++ String "$" (w ++ String "$" (b ++ String "}" post)))
                 = Some (S (String.length (a ++ String "$" (w ++ String "$" b))))).
  { replace (a ++ String "$" (w ++ String "$" (b ++ String "}" post)))
      with ((a ++ String "$" (w ++ String "$" b)) ++ String "}" post).
    - apply last_close_closed; [| exact Hpost].
      apply forallb_dot_app; [exact Ha |]. cbn [Str.forallb]. cbn [andb Re.dot].
      change (Str.forallb Re.dot (w ++ String "$" b) = true).
      apply forallb_dot_app; [now apply words_one_line | exact Hb].
    - rewrite append_assoc. cbn [String.append]. rewrite append_assoc. reflexivity. }
  destruct (match_token_found w (b ++ String "}" post) _ Hne Hw
              (last_close_closed b post Hb Hpost)) as [m Hm].
  destruct (match_section_found a _ m Ha Hm) as [n Hn].
  rewrite Hn. rewrite (match_section_end _ _ Hn) in Hend. injection Hend as ->.
  reflexivity.
Qed.

Lemma section_assoc (a w b post : string) :
  a ++ String "$" (w ++ String "$" (b ++ String "}" post))
  = (a ++ String "$" (w ++ String "$" b)) ++ String "}" post.
Proof. rewrite append_assoc. cbn [String.append]. now rewrite append_assoc. Qed.

Lemma plain_no_open (s : string) : plain s -> Str.mem "{" s = false.
Proof. intros H. now apply (forallb_mem _ "{"%char s H). Qed.

Lemma plain_no_close (s : string) : plain s -> Str.mem "}" s = false.
Proof. intros H. now apply (forallb_mem _ "}"%char s H). Qed.

(** The scan copies what stands before the first opening brace. *)
Lemma scan_before_open (repl : string -> string) (pre rest : string) :
  Str.mem "{" pre = false ->
  Str.scan (Re.match_here optional_section) repl O (pre ++ String "{" rest)
  = pre ++ Str.scan (Re.match_here optional_section) repl O (String "{" rest).
Proof.
  intros Hpre. induction pre as [| c pre IH]; [reflexivity |].
  cbn [Str.mem] in Hpre. apply orb_false_iff in Hpre as [Hc Hpre].
  cbn [String.append Str.scan]. unfold optional_section at 1.
  rewrite match_here_one. unfold Re.chr at 1. rewrite Hc.
  now rewrite (IH Hpre).
Qed.

(** The scan passes over a match without looking inside it. *)
Lemma scan_skips (m : string -> option nat) (repl : string -> string)
      (x : string) (c : ascii) (rest : string) :
  Str.scan m repl (S (String.length x)) (x ++ String c rest) = Str.scan m repl O rest.
Proof. induction x as [| a x IH]; [reflexivity | exact IH]. Qed.

(** One optional section that still holds a token, alone on its line among
    text without braces: the section goes, the text stays. *)
Lemma clean_one_section (pre a w b post : string) :
  plain pre -> plain post -> one_line a -> one_line b ->
  w <> EmptyString -> Str.forallb Re.word w = true ->
  clean_optional_from_format
    (pre ++ String "{" (a ++ String "$" (w ++ String "$" (b ++ String "}" post))))
  = pre ++ post.
Proof.
  intros Hpre Hpost Ha Hb Hne Hw.
  pose proof (plain_no_open _ Hpre) as Hpre1. pose proof (plain_no_close _ Hpre) as Hpre2.
  pose proof (plain_no_open _ Hpost) as Hpost1. pose proof (plain_no_close _ Hpost) as Hpost2.
  unfold clean_optional_from_format, Re.sub, Re.sub_with.
  rewrite (scan_before_open _ _ _ Hpre1).
  cbn [Str.scan]. rewrite (match_optional_section a w b post Ha Hb Hne Hw Hpost2).
  rewrite section_assoc, scan_skips. cbn [String.append].
  rewrite (scan_needs "}"); [| | exact Hpost2].
  - rewrite !replace_char_filter.
    rewrite (filter_absent "{"), (filter_absent "}"); try reflexivity;
      rewrite mem_app; [now rewrite Hpre2, Hpost2 | now rewrite Hpre1, Hpost1].
  - intros r Hr. apply (match_here_needs "}"); [| exact Hr].
    unfold optional_section. simpl. auto 10.
Qed.

End Elision.

(** C3 (amended).  [apply_format] returns the substituted template after the
    elision of [clean_optional_from_format]: no brace is left in the result;
    a substituted template without braces is returned as it is, unresolved
    tokens included; and where the substituted template holds, among text
    without braces, one optional section on one line that still has a
    token, the result is the text before it followed by the text after
    it. *)
Theorem C3_apply_format_removes_sections_only
        (find_studio : value -> outcome value) (hops : nat)
        (format_template : string) (scene_data file_data : value) (s : string) :
  apply_format find_studio hops format_template scene_data file_data = Ok s ->
  exists t,
    substitute find_studio hops scene_data file_data format_template
               (find_variables find_studio format_template) = Ok t
    /\ Str.mem "{" s = false /\ Str.mem "}" s = false
    /\ (Str.mem "{" t = false -> Str.mem "}" t = false -> s = t)
    /\ (forall pre a w b post,
           t = pre ++ "{" ++ a ++ "$" ++ w ++ "$" ++ b ++ "}" ++ post ->
           plain pre -> plain post -> one_line a -> one_line b ->
           w <> EmptyString -> Str.forallb Re.word w = true ->
           s = pre ++ post).
Proof.
  unfold apply_format. cbv zeta.
  destruct (substitute _ _ _ _ _ _) as [t | e |]; cbn; try discriminate.
  intros H. injection H as <-. exists t. split; [reflexivity |].
  destruct (clean_no_braces t) as [H1 H2].
  repeat split; try assumption.
  - now apply clean_without_braces.
  - intros pre a w b post -> Hpre Hpost Ha Hb Hne Hw. cbn [String.append].
    now apply clean_one_section.
Qed.

Lemma C3_apply_format_removes_sections_only_witness :
  apply_format no_studio 0 "$director$ - {$date$ }$title$"
               (JObj [("title", JStr "Show")]) (JObj [])
  = Ok "$director$ - Show"
  /\ exists t,
    substitute no_studio 0 (JObj [("title", JStr "Show")]) (JObj [])
               "$director$ - {$date$ }$title$"
               (find_variables no_studio "$director$ - {$date$ }$title$") = Ok t
    /\ Str.mem "{" "$director$ - Show" = false /\ Str.mem "}" "$director$ - Show" = false
    /\ (Str.mem "{" t = false -> Str.mem "}" t = false -> "$director$ - Show" = t)
    /\ (forall pre a w b post,
           t = pre ++ "{" ++ a ++ "$" ++ w ++ "$" ++ b ++ "}" ++ post ->
           plain pre -> plain post -> one_line a -> one_line b ->
           w <> EmptyString -> Str.forallb Re.word w = true ->
           "$director$ - Show" = pre ++ post).
Proof.
  split; [reflexivity |].
  exact (C3_apply_format_removes_sections_only
           no_studio 0 "$director$ - {$date$ }$title$"
           (JObj [("title", JStr "Show")]) (JObj []) "$director$ - Show" eq_refl).
Defined.
